(** * Ego4d: the lazy concatenated index and the manifest loader

    A shallow embedding of
    - [ego4d/research/dataset.py]: class [VideoDataset];
    - [ego4d/internal/validation/types.py]: [default_decode],
      [load_dataclass_dict_from_csv], [load_manifest],
      [load_egoexo_manifest], [load_standard_metadata_files],
      [load_standard_metadata_files_egoexo] and
      [load_released_video_files].

    Python integers are [Z]; strings are [string]; exceptions are values of
    an inductive type returned on the left of a sum. *)

From Stdlib Require Import ZArith List Lia Bool Ascii String Sorting.Sorted Sorting.Permutation.
From stdpp Require Import base option list gmap sets strings sorting.

Local Open Scope Z_scope.
Local Set Warnings "-register-all".

(** ** Python helpers shared by both parts *)

(** [l[i]] on a Python list: negative indices count from the end. *)
Definition py_list_get {A} (l : list A) (i : Z) : option A :=
  if decide (0 <= i) then l !! Z.to_nat i
  else if decide (- Z.of_nat (length l) <= i) then l !! Z.to_nat (Z.of_nat (length l) + i)
  else None.

(** [enumerate(l, start)] *)
Fixpoint enumerate_from {A} (start : Z) (l : list A) : list (Z * A) :=
  match l with
  | [] => []
  | x :: l' => (start, x) :: enumerate_from (start + 1) l'
  end.

Definition enumerate {A} (l : list A) : list (Z * A) := enumerate_from 0 l.

(** [sorted(paths)] on strings: code-point order, which on the bytes of a
    string is [String.leb]. *)
Definition str_le (a b : string) : Prop := String.leb a b = true.

Global Instance str_le_dec : RelDecision str_le.
Proof. intros a b. unfold str_le. apply _. Defined.

Global Instance str_le_total : Total str_le.
Proof. intros a b. apply String.leb_total. Qed.

Definition py_sorted (paths : list string) : list string := merge_sort str_le paths.

Module Dataset.

(** *** bisect.bisect_left(a, x)

    <<
    lo, hi = 0, len(a)
    while lo < hi:
        mid = (lo + hi) // 2
        if a[mid] < x: lo = mid + 1
        else: hi = mid
    return lo
    >>
    The loop runs on fuel; [hi - lo] iterations are always enough. *)
Fixpoint bisect_loop (fuel : nat) (a : list Z) (x : Z) (lo hi : nat) : nat :=
  match fuel with
  | O => lo
  | S fuel' =>
      if (lo <? hi)%nat then
        let mid := ((lo + hi) / 2)%nat in
        if nth mid a 0 <? x
        then bisect_loop fuel' a x (mid + 1)%nat hi
        else bisect_loop fuel' a x lo mid
      else lo
  end.

Definition bisect_left (a : list Z) (x : Z) : Z :=
  Z.of_nat (bisect_loop (length a) a x 0%nat (length a)).

(** *** torch.tensor(xs) and torch.cumsum(t, dim=0).tolist()

    A list of Python ints becomes an int64 tensor, which refuses an int
    outside the int64 range; the running sum is taken in int64 and wraps
    around. *)
Definition int64_min : Z := - 2 ^ 63.
Definition int64_max : Z := 2 ^ 63 - 1.

Definition wrap64 (z : Z) : Z := (z + 2 ^ 63) mod 2 ^ 64 - 2 ^ 63.

Definition fits_int64 (z : Z) : bool := (int64_min <=? z) && (z <=? int64_max).

Fixpoint cumsum_from (acc : Z) (xs : list Z) : list Z :=
  match xs with
  | [] => []
  | x :: xs' => let acc' := wrap64 (acc + x) in acc' :: cumsum_from acc' xs'
  end.

Inductive exn : Type :=
| KeyError_int (k : Z)          (* self.conts[cont_idx] *)
| KeyError_str (k : string)     (* paths_to_n_frames[path] *)
| IndexError                    (* list index out of range *)
| AssertionError                (* assert c is not None *)
| TorchOverflow (z : Z).        (* RuntimeError: torch.tensor of an int outside int64 *)

Definition result (A : Type) : Type := exn + A.

(** An opened container: the object [video_class(p, **kwargs)] returned.
    [h_id] is the identity of the object: the number of objects the
    constructor had created before it. *)
Record handle : Type := Handle { h_path : string; h_id : nat }.

Global Instance handle_eq_dec : EqDecision handle.
Proof. solve_decision. Defined.

Record VideoDataset : Type := MkVideoDataset {
  paths : list string;
  conts : gmap Z (string * option handle);
  fs_cumsum : list Z;
}.

(** The world outside the dataset: how many containers the constructor has
    created so far. *)
Definition world : Type := nat.

(** [video_class(p, **video_class_kwargs)]: the constructor is taken to
    return; it yields a new object each time it is called. *)
Definition video_class (p : string) (w : world) : handle * world :=
  (Handle p w, S w).

Section VideoDataset.
(** The container interface: [len(ct)] and [ct[idx]].  [Item] is whatever
    the container's own retrieval produces for that index. *)
Context {Item : Type}.
Variable cont_len : handle -> N.
Variable cont_getitem : handle -> Z -> Item.

(** One call of [video_class] for each path, in order. *)
Fixpoint open_all (ps : list string) (w : world) : list (string * handle) * world :=
  match ps with
  | [] => ([], w)
  | p :: ps' =>
      let '(h, w1) := video_class p w in
      let '(rest, w2) := open_all ps' w1 in
      ((p, h) :: rest, w2)
  end.

(** [min(len(ct), max_num_frames_per_video) if max_num_frames_per_video
    else len(ct)]: [None] and [0] are both falsy. *)
Definition frames_of (max_num_frames_per_video : option Z) (ct : handle) : Z :=
  let n := Z.of_N (cont_len ct) in
  match max_num_frames_per_video with
  | Some m => if decide (m = 0) then n else Z.min n m
  | None => n
  end.

(** [[paths_to_n_frames[path] for path in paths]] *)
Fixpoint lookup_all (m : gmap string Z) (ps : list string) : result (list Z) :=
  match ps with
  | [] => inr []
  | p :: ps' =>
      match m !! p with
      | None => inl (KeyError_str p)
      | Some n =>
          match lookup_all m ps' with
          | inl e => inl e
          | inr ns => inr (n :: ns)
          end
      end
  end.

Definition torch_cumsum (xs : list Z) : result (list Z) :=
  match List.find (fun z => negb (fits_int64 z)) xs with
  | Some z => inl (TorchOverflow z)
  | None => inr (cumsum_from 0 xs)
  end.

(** The per-container counts [__init__] feeds to the cumulative sum. *)
Definition frame_counts (sorted_paths : list string) (max_num_frames_per_video : option Z)
    (paths_to_n_frames : option (gmap string Z)) (w : world)
    : result (list Z) * list (string * option handle) * world :=
  match paths_to_n_frames with
  | None =>
      let '(cs, w') := open_all sorted_paths w in
      (inr (map (fun c => frames_of max_num_frames_per_video c.2) cs),
       map (fun c => (c.1, Some c.2)) cs, w')
  | Some m =>
      (lookup_all m sorted_paths, map (fun p => (p, None)) sorted_paths, w)
  end.

(** [VideoDataset.__init__].  The [print] calls and the progress bars of
    the eager branch do not touch the dataset and are left out.  The eager
    branch starts with [breakpoint()], which hands control to a debugger:
    [init] describes the run in which the debugger gives control back
    (the session is continued, or [PYTHONBREAKPOINT=0]).  A run the
    debugger ends ([BdbQuit]) builds no dataset and is not described, so
    an equation [init ... None w = (inr d, w')] reads: when opening the
    containers at construction returns, it returns [d]. *)
Definition init (paths0 : list string) (max_num_frames_per_video : option Z)
    (paths_to_n_frames : option (gmap string Z)) (w : world)
    : result VideoDataset * world :=
  let ps := py_sorted paths0 in
  let '(counts, cs, w') := frame_counts ps max_num_frames_per_video paths_to_n_frames w in
  match counts with
  | inl e => (inl e, w')
  | inr ns =>
      match torch_cumsum ns with
      | inl e => (inl e, w')
      | inr sums =>
          (inr (MkVideoDataset ps (list_to_map (enumerate cs)) (0 :: sums)), w')
      end
  end.

(** [VideoDataset.__getitem__]: the outcome, the dataset afterwards, the
    world afterwards and the containers opened by this call. *)
Definition getitem (d : VideoDataset) (w : world) (i : Z)
    : result Item * VideoDataset * world * list Z :=
  let cont_idx := bisect_left (fs_cumsum d) (i + 1) - 1 in
  match conts d !! cont_idx with
  | None => (inl (KeyError_int cont_idx), d, w, [])
  | Some (p, c) =>
      let '(d1, w1, opened) :=
        match c with
        | None =>
            let '(h, w') := video_class p w in
            (MkVideoDataset (paths d) (<[cont_idx := (p, Some h)]> (conts d)) (fs_cumsum d),
             w', [cont_idx])
        | Some _ => (d, w, [])
        end in
      match conts d1 !! cont_idx with
      | None => (inl (KeyError_int cont_idx), d1, w1, opened)
      | Some (_, None) => (inl AssertionError, d1, w1, opened)
      | Some (_, Some c') =>
          match py_list_get (fs_cumsum d1) cont_idx with
          | None => (inl IndexError, d1, w1, opened)
          | Some base => (inr (cont_getitem c' (i - base)), d1, w1, opened)
          end
      end
  end.

(** [VideoDataset.__len__]: [self.fs_cumsum[-1]] *)
Definition len (d : VideoDataset) : result Z :=
  match py_list_get (fs_cumsum d) (-1) with
  | None => inl IndexError
  | Some n => inr n
  end.

(** A sequence of [__getitem__] calls, outcomes dropped. *)
Fixpoint getitems (d : VideoDataset) (w : world) (idxs : list Z)
    : VideoDataset * world * list Z :=
  match idxs with
  | [] => (d, w, [])
  | i :: idxs' =>
      let '(_, d1, w1, o1) := getitem d w i in
      let '(d2, w2, o2) := getitems d1 w1 idxs' in
      (d2, w2, o1 ++ o2)
  end.

End VideoDataset.

(** *** Vocabulary of the statements *)

Definition nondecreasing (a : list Z) : Prop :=
  forall i j : nat, (i <= j < length a)%nat -> nth i a 0 <= nth j a 0.

(** The partition point of [a] for [x]: everything before it is below [x],
    everything from it on is not. *)
Definition partition_point (a : list Z) (x : Z) (r : nat) : Prop :=
  (r <= length a)%nat /\
  (forall j : nat, (j < r)%nat -> nth j a 0 < x) /\
  (forall j : nat, (r <= j < length a)%nat -> x <= nth j a 0).

(** The cumulative offset table starts at [0] and never decreases, and the
    containers are numbered [0 .. N-1] where the table has [N+1] entries. *)
Definition wf (d : VideoDataset) : Prop :=
  head (fs_cumsum d) = Some 0 /\
  Sorted Z.le (fs_cumsum d) /\
  dom (conts d) = list_to_set (seqZ 0 (Z.of_nat (length (fs_cumsum d)) - 1)).

Global Instance wf_dec (d : VideoDataset) : Decision (wf d).
Proof. unfold wf. apply _. Defined.

Definition cum (d : VideoDataset) (c : nat) : Z := nth c (fs_cumsum d) 0.

(** What [__getitem__] does once it has settled on container [c] with path
    [p] and cached handle [oh]. *)
Definition resolved {Item} (cont_getitem : handle -> Z -> Item)
    (d : VideoDataset) (w : world) (i : Z) (c : nat) (p : string) (oh : option handle)
    : result Item * VideoDataset * world * list Z :=
  match oh with
  | Some h => (inr (cont_getitem h (i - cum d c)), d, w, [])
  | None =>
      (inr (cont_getitem (Handle p w) (i - cum d c)),
       MkVideoDataset (paths d) (<[Z.of_nat c := (p, Some (Handle p w))]> (conts d))
         (fs_cumsum d),
       S w, [Z.of_nat c])
  end.

End Dataset.

Module Validation.

Definition DEFAULT_DATE_FORMAT_STR : string := "%Y-%m-%d %H:%M:%S".

(** The declared type of a dataclass field, as [default_decode] tells types
    apart.  [T_other] is any annotation that compares unequal to all of
    [dict], [defaultdict], [list], [datetime], [int], [float], [str] and
    [bool], such as [List[int]]. *)
Inductive pytype : Type :=
| T_dict | T_defaultdict | T_list | T_datetime
| T_int | T_float | T_str | T_bool
| T_other (name : string).

(** [handled] tells the declared types [default_decode] has a branch for. *)
Definition handled (datatype : pytype) : bool :=
  match datatype with
  | T_other _ => false
  | _ => true
  end.

Record datetime : Type := Datetime {
  year : Z; month : Z; day : Z; hour : Z; minute : Z; second : Z
}.

Global Instance datetime_eq_dec : EqDecision datetime.
Proof. solve_decision. Defined.

(** [value.split(sep)] for a one-character separator. *)
Fixpoint py_split (sep : ascii) (s : string) : list string :=
  match s with
  | EmptyString => [EmptyString]
  | String c rest =>
      if Ascii.eqb c sep then EmptyString :: py_split sep rest
      else match py_split sep rest with
           | [] => [String c EmptyString]
           | h :: t => String c h :: t
           end
  end.

Definition dot : ascii := Ascii.ascii_of_nat 46.

(** [c in s] *)
Fixpoint contains (c : ascii) (s : string) : bool :=
  match s with
  | EmptyString => false
  | String c' rest => Ascii.eqb c' c || contains c rest
  end.

(** What a decoder raises: the exceptions of [default_decode]'s parsers,
    and whatever a custom [csv_decode_fn] raises. *)
Inductive decode_error : Type :=
| ValueError (value : string)          (* int(), float(), strptime() *)
| JSONDecodeError (value : string)     (* json.loads() *)
| SplitIndexError                      (* value.split(".")[0] *)
| Raised (msg : string).               (* a custom decoder *)

Section Loader.
(** Python floats are not interpreted: [pyfloat] is the carrier of the
    values [float(s)] returns. *)
Context {pyfloat : Type} `{EqDecision pyfloat}.

Inductive pyval : Type :=
| PyNone
| PyBool (b : bool)
| PyInt (n : Z)
| PyFloat (x : pyfloat)
| PyStr (s : string)
| PyDatetime (d : datetime)
| PyList (xs : list pyval)
| PyDict (kvs : list (string * pyval)).

(** What a dictionary compares keys by.  Lists and dicts are unhashable;
    [True] and [1] are the same key; a float is compared with floats only,
    by its value in [pyfloat]. *)
Inductive pykey : Type :=
| KNone
| KInt (n : Z)
| KFloat (x : pyfloat)
| KStr (s : string)
| KDatetime (d : datetime).

Global Instance pykey_eq_dec : EqDecision pykey.
Proof. solve_decision. Defined.

Definition to_key (v : pyval) : option pykey :=
  match v with
  | PyNone => Some KNone
  | PyBool b => Some (KInt (if b then 1 else 0))
  | PyInt n => Some (KInt n)
  | PyFloat x => Some (KFloat x)
  | PyStr s => Some (KStr s)
  | PyDatetime d => Some (KDatetime d)
  | PyList _ | PyDict _ => None
  end.

Inductive exn : Type :=
| StopIteration                          (* next(reader) on an empty file *)
| SchemaMismatch (missing additional : gset string)
    (* AssertionError "Missing fields from CSV: ... Additional fields in CSV: ..." *)
| MultipleEntries (dict_key_field : string) (dict_key : pyval)
    (* AssertionError "Multiple entries for same PK: {dict_key_field}: {dict_key}" *)
| RequiredFileNotFound (file_name manifest_dir : string)
    (* AssertionError "required file {file_name} not found in {manifest_dir}" *)
| IndexError                             (* line[column_index], vs[0] *)
| TypeError                              (* line[None]; unhashable key *)
| AttributeError (name : string)         (* getattr(obj, dict_key_field) *)
| DecodeError (e : decode_error).        (* raised inside a decode_fn *)

Definition result (A : Type) : Type := exn + A.
Definition decoded : Type := decode_error + pyval.

(** The library parsers [default_decode] calls; [None] is their exception. *)
Variable json_loads : string -> option pyval.
Variable strptime : string -> string -> option datetime.
Variable py_int : string -> option Z.
Variable py_float : string -> option pyfloat.

Definition or_raise {A} (e : decode_error) (f : A -> pyval) (o : option A) : decoded :=
  match o with
  | Some a => inr (f a)
  | None => inl e
  end.

(** [default_decode] *)
Definition default_decode (value : string) (datatype : pytype) : decoded :=
  match datatype with
  | T_dict | T_defaultdict =>
      if (String.length value =? 0)%nat then inr (PyDict [])
      else or_raise (JSONDecodeError value) id (json_loads value)
  | T_list =>
      if (String.length value =? 0)%nat then inr (PyList [])
      else or_raise (JSONDecodeError value) id (json_loads value)
  | T_datetime =>
      if (0 <? String.length value)%nat then
        match py_split dot value with
        | s :: _ => or_raise (ValueError s) PyDatetime (strptime s DEFAULT_DATE_FORMAT_STR)
        | [] => inl SplitIndexError
        end
      else inr (PyDatetime (Datetime 1900 1 1 0 0 0))
  | T_int =>
      if (String.length value =? 0)%nat then inr PyNone
      else or_raise (ValueError value) PyInt (py_int value)
  | T_float =>
      if (String.length value =? 0)%nat then inr PyNone
      else or_raise (ValueError value) PyFloat (py_float value)
  | T_str =>
      if (String.length value =? 0)%nat then inr PyNone
      else inr (PyStr value)
  | T_bool =>
      if (String.length value =? 0)%nat then inr PyNone
      else inr (PyBool (negb (String.length value =? 0)%nat))
  | T_other _ => inr PyNone
  end.

(** A dataclass field: its name, its declared type and the
    [csv_decode_fn] of its metadata when it has one. *)
Record field : Type := Field {
  f_name : string;
  f_type : pytype;
  f_csv_decode_fn : option (string -> pytype -> decoded);
}.

(** A dataclass instance: the value of each field, in field order. *)
Definition record : Type := list (string * pyval).

(** A dict with insertion order: the key object first stored, and the
    value.  Keys match when their [to_key] agree. *)
Definition table (V : Type) : Type := list (pyval * V).

Definition key_matches (k : pykey) (stored : pyval) : bool :=
  bool_decide (to_key stored = Some k).

Fixpoint tbl_lookup {V} (t : table V) (k : pykey) : option V :=
  match t with
  | [] => None
  | (k', v) :: t' => if key_matches k k' then Some v else tbl_lookup t' k
  end.

(** [output[dict_key].append(obj)] on a [defaultdict(list)], returning the
    table and [len(output[dict_key])] afterwards. *)
Fixpoint tbl_append (t : table (list record)) (dict_key : pyval) (k : pykey)
    (obj : record) : table (list record) * nat :=
  match t with
  | [] => ([(dict_key, [obj])], 1%nat)
  | (k', objs) :: t' =>
      if key_matches k k' then ((k', objs ++ [obj]) :: t', length (objs ++ [obj]))
      else let '(t'', n) := tbl_append t' dict_key k obj in ((k', objs) :: t'', n)
  end.

(** [{header: i for i, header in enumerate(next(reader))}] *)
Definition column_index_of (header : list string) : gmap string Z :=
  foldl (fun m ih => <[ih.2 := ih.1]> m) ∅ (enumerate header).

Record field_meta : Type := FieldMeta {
  m_decode_fn : string -> pytype -> decoded;
  m_column_index : option Z;
  m_type : pytype;
}.

Definition field_name_to_metadata (dataclass_class : list field)
    (default_decode_fn : string -> pytype -> decoded)
    (column_index : gmap string Z) : list (string * field_meta) :=
  map (fun f =>
         (f_name f,
          FieldMeta (match f_csv_decode_fn f with
                     | Some fn => fn
                     | None => default_decode_fn
                     end)
                    (column_index !! f_name f)
                    (f_type f)))
      dataclass_class.

(** The keyword arguments of [dataclass_class]: for each [name, meta] of
    [field_name_to_metadata], in order,
    [meta["decode_fn"](line[meta["column_index"]], meta["type"])]. *)
Fixpoint decode_row (metas : list (string * field_meta)) (line : list string)
    : result record :=
  match metas with
  | [] => inr []
  | (name, meta) :: metas' =>
      match m_column_index meta with
      | None => inl TypeError
      | Some ci =>
          match py_list_get line ci with
          | None => inl IndexError
          | Some cell =>
              match m_decode_fn meta cell (m_type meta) with
              | inl e => inl (DecodeError e)
              | inr v =>
                  match decode_row metas' line with
                  | inl e => inl e
                  | inr obj => inr ((name, v) :: obj)
                  end
              end
          end
      end
  end.

Definition getattr (obj : record) (name : string) : result pyval :=
  match list_find (fun nv => nv.1 = name) obj with
  | Some (_, (_, v)) => inr v
  | None => inl (AttributeError name)
  end.

(** The [for line in reader] loop. *)
Fixpoint load_rows (metas : list (string * field_meta)) (dict_key_field : string)
    (unique_per_key : bool) (lines : list (list string))
    (output : table (list record)) : result (table (list record)) :=
  match lines with
  | [] => inr output
  | line :: lines' =>
      match decode_row metas line with
      | inl e => inl e
      | inr obj =>
          match getattr obj dict_key_field with
          | inl e => inl e
          | inr dict_key =>
              match to_key dict_key with
              | None => inl TypeError
              | Some k =>
                  let '(output', n) := tbl_append output dict_key k obj in
                  if unique_per_key && negb (n =? 1)%nat
                  then inl (MultipleEntries dict_key_field dict_key)
                  else load_rows metas dict_key_field unique_per_key lines' output'
              end
          end
      end
  end.

(** [load_dataclass_dict_from_csv], on the rows [csv.reader] yields for the
    file. *)
Definition load_dataclass_dict_from_csv (csvfile : list (list string))
    (dataclass_class : list field) (dict_key_field : string) (unique_per_key : bool)
    (default_decode_fn : string -> pytype -> decoded)
    : result (table (list record)) :=
  match csvfile with
  | [] => inl StopIteration
  | header :: lines =>
      let column_index := column_index_of header in
      let metas := field_name_to_metadata dataclass_class default_decode_fn column_index in
      let csv_names : gset string := dom column_index in
      let dn_names : gset string := list_to_set (map fst metas) in
      if decide (csv_names = dn_names) then
        load_rows metas dict_key_field unique_per_key lines []
      else inl (SchemaMismatch (dn_names ∖ csv_names) (csv_names ∖ dn_names))
  end.

(** *** The dataclasses the two manifests are loaded into *)
Definition fld (name : string) (ty : pytype) : field := Field name ty None.

Definition VideoMetadata : list field :=
  [ fld "university_video_id" T_str; fld "university_video_folder_path" T_str;
    fld "number_video_components" T_int; fld "start_date_recorded_utc" T_datetime;
    fld "recording_participant_id" T_str; fld "device_id" T_int;
    fld "video_device_settings" T_dict; fld "physical_setting_id" T_str;
    fld "video_scenario_ids" (T_other "List[int]") ].

Definition VideoComponentFile : list field :=
  [ fld "university_video_id" T_str; fld "video_component_relative_path" T_str;
    fld "component_index" T_int; fld "is_redacted" T_bool;
    fld "start_date_recorded_utc" T_datetime; fld "compression_settings" T_dict;
    fld "includes_audio" T_bool; fld "component_metadata" T_dict;
    fld "deidentification_metadata" T_dict ].

Definition AuxiliaryVideoComponentDataFile : list field :=
  [ fld "university_video_id" T_str; fld "component_index" T_int;
    fld "component_type_id" T_int; fld "video_component_relative_path" T_str ].

Definition Particpant : list field :=
  [ fld "participant_id" T_str; fld "participant_metadata" T_dict ].

Definition SynchronizedVideos : list field :=
  [ fld "video_grouping_id" T_str; fld "synchronization_metadata" T_dict;
    fld "associated_videos" T_dict ].

Definition PhysicalSetting : list field :=
  [ fld "setting_id" T_str; fld "name" T_str;
    fld "associated_matterport_scan_path" T_str ].

Definition Annotations : list field :=
  [ fld "university_video_id" T_str; fld "start_seconds" T_float;
    fld "end_seconds" T_float; fld "annotation_data" T_dict ].

Definition CaptureMetadataEgoExo : list field :=
  [ fld "university_capture_id" T_str; fld "university_video_folder_path" T_str;
    fld "number_videos" T_int; fld "number_takes" T_int;
    fld "post_surveys_relative_path" T_str; fld "physical_setting_id" T_int;
    fld "start_date_recorded_utc" T_datetime; fld "additional_metadata" T_dict ].

Definition TakeMetadataEgoExo : list field :=
  [ fld "university_capture_id" T_str; fld "take_id" T_str; fld "scenario_id" T_int;
    fld "is_narrated" T_bool; fld "is_dropped" T_bool;
    fld "take_start_seconds_aria" T_float; fld "object_ids" (T_other "List[str]");
    fld "recording_participant_id" T_str; fld "additional_metadata" T_dict ].

Definition VideoMetadataEgoExo : list field :=
  [ fld "university_capture_id" T_str; fld "university_video_id" T_str;
    fld "number_video_components" T_int; fld "is_ego" T_str;
    fld "has_walkaround" T_str; fld "includes_audio" T_str; fld "device_type" T_int;
    fld "device_id" T_str; fld "video_device_settings" T_dict;
    fld "additional_metadata" T_dict; fld "is_redacted" T_bool ].

Definition VideoComponentFileEgoExo : list field :=
  [ fld "university_capture_id" T_str; fld "university_video_id" T_str;
    fld "video_component_relative_path" T_str; fld "component_index" T_int;
    fld "is_redacted" T_bool ].

Definition ColmapMetadataEgoExo : list field :=
  [ fld "university_capture_id" T_str; fld "colmap_configuration_id" T_str;
    fld "config_relative_path" T_str; fld "colmap_ran" T_bool;
    fld "was_inspected" T_bool; fld "is_final_configuration" T_bool;
    fld "version" T_str; fld "notes" T_str ].

Definition ObjectMetadataEgoExo : list field :=
  [ fld "university_object_id" T_str; fld "object_name" T_str;
    fld "object_relative_path" T_str; fld "physical_setting_id" T_str;
    fld "additional_metadata" T_dict ].

(** [participant_metadata] is annotated twice in the class body; the
    class has it once, at its first position. *)
Definition ParticipantMetadataEgoExo : list field :=
  [ fld "participant_id" T_str; fld "participant_metadata" T_dict;
    fld "collection_date" T_datetime; fld "pre_survey_data" T_dict ].

Definition PhysicalSettingEgoExo : list field :=
  [ fld "setting_id" T_str; fld "name" T_str ].

Definition ExtraDataEgoExo : list field :=
  [ fld "university_capture_id" T_str; fld "take_id" T_str;
    fld "annotation_data" T_dict ].

(** *** The manifests *)

(** What a manifest attribute holds at run time: a dict from key to one
    dataclass instance, a dict from key to a list of them, or [None]. *)
Inductive attr : Type :=
| ByKey (t : table record)
| ByKeyList (t : table (list record))
| IsNone.

Record Manifest : Type := MkManifest {
  videos : attr;
  video_components : attr;
  aux_components : attr;
  participants : attr;
  sync_videos : attr;
  physical_setting : attr;
  annotations : attr;
}.

Record ManifestEgoExo : Type := MkManifestEgoExo {
  ee_captures : attr;
  ee_takes : attr;
  ee_videos : attr;
  ee_video_components : attr;
  ee_colmap : attr;
  ee_physical_setting : attr;
  ee_objects : attr;
  ee_participants : attr;
  ee_extra_data : attr;
}.

(** [{k: vs[0] for k, vs in d.items()}] *)
Fixpoint first_per_key (d : table (list record)) : result (table record) :=
  match d with
  | [] => inr []
  | (k, vs) :: d' =>
      match py_list_get vs 0 with
      | None => inl IndexError
      | Some v =>
          match first_per_key d' with
          | inl e => inl e
          | inr r => inr ((k, v) :: r)
          end
      end
  end.

Definition bind {A B} (m : result A) (k : A -> result B) : result B :=
  match m with
  | inl e => inl e
  | inr a => k a
  end.

Local Notation "'let*' x ':=' m 'in' k" := (bind m (fun x => k))
  (at level 10, x name, m at level 100, k at level 200).

(** A manifest directory: the rows of each CSV file it holds, by relative
    file name; [ls_relative] lists its domain. *)
Definition directory : Type := gmap string (list (list string)).

Definition load (csvfile : list (list string)) (dataclass_class : list field)
    (dict_key_field : string) (unique_per_key : bool) : result (table (list record)) :=
  load_dataclass_dict_from_csv csvfile dataclass_class dict_key_field unique_per_key
    default_decode.

(** [_check_file_exists()] followed by the load *)
Definition load_required (manifest_dir : string) (available_files : directory)
    (file_name : string) (dataclass_class : list field) (dict_key_field : string)
    (unique_per_key : bool) : result (table (list record)) :=
  match available_files !! file_name with
  | None => inl (RequiredFileNotFound file_name manifest_dir)
  | Some csvfile => load csvfile dataclass_class dict_key_field unique_per_key
  end.

(** [if file_name in available_files: ... = load(...)], from [default]. *)
Definition load_optional {A} (available_files : directory) (file_name : string)
    (dataclass_class : list field) (dict_key_field : string) (unique_per_key : bool)
    (default : A) (found : table (list record) -> A) : result A :=
  match available_files !! file_name with
  | None => inr default
  | Some csvfile =>
      let* t := load csvfile dataclass_class dict_key_field unique_per_key in inr (found t)
  end.

(** The [for file_name in [...]: if file_name in available_files: ...; break]
    loop of [load_manifest]. *)
Fixpoint load_first_found (available_files : directory) (file_names : list string)
    (dataclass_class : list field) (dict_key_field : string) (unique_per_key : bool)
    : result (table (list record)) :=
  match file_names with
  | [] => inr []
  | file_name :: rest =>
      match available_files !! file_name with
      | Some csvfile => load csvfile dataclass_class dict_key_field unique_per_key
      | None =>
          load_first_found available_files rest dataclass_class dict_key_field
            unique_per_key
      end
  end.

(** [load_manifest] *)
Definition load_manifest (manifest_dir : string) (available_files : directory)
    : result Manifest :=
  let* video_metadata_dict :=
    load_required manifest_dir available_files "video_metadata.csv"
      VideoMetadata "university_video_id" true in
  let* video_components_dict :=
    load_required manifest_dir available_files "video_component_file.csv"
      VideoComponentFile "university_video_id" false in
  let* auxiliary_video_component_dict :=
    load_optional available_files "auxiliary_video_component_data_file.csv"
      AuxiliaryVideoComponentDataFile "university_video_id" false [] id in
  let* participant_dict :=
    load_first_found available_files
      ["participant_data.csv"; "participant.csv"; "participant_metadata.csv"]
      Particpant "participant_id" true in
  let* synchronized_video_dict :=
    load_optional available_files "synchronized_videos.csv"
      SynchronizedVideos "video_grouping_id" true [] id in
  let* physical_setting_dict :=
    load_optional available_files "physical_setting.csv"
      PhysicalSetting "setting_id" true [] id in
  let* annotations_dict :=
    load_optional available_files "annotations.csv"
      Annotations "university_video_id" false [] id in
  let* vs := first_per_key video_metadata_dict in
  let* ps := first_per_key participant_dict in
  let* ss := first_per_key synchronized_video_dict in
  let* phs := first_per_key physical_setting_dict in
  inr (MkManifest (ByKey vs) (ByKeyList video_components_dict)
         (ByKeyList auxiliary_video_component_dict) (ByKey ps) (ByKey ss) (ByKey phs)
         (ByKeyList annotations_dict)).

(** [load_egoexo_manifest] *)
Definition load_egoexo_manifest (manifest_dir : string) (available_files : directory)
    : result ManifestEgoExo :=
  let* capture_metadata :=
    load_required manifest_dir available_files "capture_metadata.csv"
      CaptureMetadataEgoExo "university_capture_id" true in
  let* take_metadata :=
    load_required manifest_dir available_files "take_metadata.csv"
      TakeMetadataEgoExo "university_capture_id" false in
  let* video_metadata :=
    load_required manifest_dir available_files "video_metadata.csv"
      VideoMetadataEgoExo "university_capture_id" false in
  let* video_component_metadata :=
    load_required manifest_dir available_files "video_component_file.csv"
      VideoComponentFileEgoExo "university_capture_id" false in
  let* colmap_metadata :=
    load_optional available_files "colmap_metadata.csv"
      ColmapMetadataEgoExo "university_capture_id" false IsNone ByKeyList in
  let* object_metadata :=
    load_optional available_files "object_metadata.csv"
      ObjectMetadataEgoExo "university_object_id" true IsNone ByKeyList in
  let* physical_setting :=
    load_optional available_files "physical_setting.csv"
      PhysicalSettingEgoExo "setting_id" true IsNone ByKeyList in
  let* participant_metadata :=
    load_optional available_files "participant_metadata.csv"
      ParticipantMetadataEgoExo "participant_id" true IsNone ByKeyList in
  let* extra_data :=
    load_optional available_files "extra_data.csv"
      ExtraDataEgoExo "university_capture_id" false IsNone ByKeyList in
  inr (MkManifestEgoExo (ByKeyList capture_metadata) (ByKeyList take_metadata)
         (ByKeyList video_metadata) (ByKeyList video_component_metadata)
         colmap_metadata physical_setting object_metadata participant_metadata
         extra_data).

(** *** The standard metadata *)

Definition Device : list field :=
  [ fld "device_id" T_int; fld "name" T_str ].

Definition ComponentType : list field :=
  [ fld "component_type_id" T_int; fld "name" T_str ].

Definition Scenario : list field :=
  [ fld "scenario_id" T_int; fld "name" T_str;
    fld "included_in_release_1" T_bool; fld "is_ad_hoc" T_bool ].

Definition ScenarioEgoExo : list field :=
  [ fld "scenario_id" T_int; fld "name" T_str ].

Record StandardMetadata : Type := MkStandardMetadata {
  sm_devices : attr;
  sm_component_types : attr;
  sm_scenarios : attr;
}.

Record StandardMetadataEgoExo : Type := MkStandardMetadataEgoExo {
  sme_devices : attr;
  sme_scenarios : attr;
}.

(** What the standard metadata loaders raise besides the loader's errors. *)
Inductive metadata_exn : Type :=
| DoesNotExist (standard_metadata_folder : string)
    (* AssertionError "{standard_metadata_folder} does not exist" *)
| EmptyVocabulary (name : string)        (* assert len(name) > 0 *)
| Loading (e : exn).

Definition loading {A} (m : result A) : metadata_exn + A :=
  match m with
  | inl e => inl (Loading e)
  | inr a => inr a
  end.

Definition bind_md {A B} (m : metadata_exn + A) (k : A -> metadata_exn + B)
    : metadata_exn + B :=
  match m with
  | inl e => inl e
  | inr a => k a
  end.

Local Notation "'let+' x ':=' m 'in' k" := (bind_md m (fun x => k))
  (at level 10, x name, m at level 100, k at level 200).

(** [assert len(table) > 0] *)
Definition assert_nonempty (name : string) (t : table (list record))
    : metadata_exn + unit :=
  if (0 <? length t)%nat then inr tt else inl (EmptyVocabulary name).

(** [load_standard_metadata_files]; the folder is [None] when
    [pathmgr.exists] says it does not exist. *)
Definition load_standard_metadata_files (standard_metadata_folder : string)
    (folder : option directory) : metadata_exn + StandardMetadata :=
  match folder with
  | None => inl (DoesNotExist standard_metadata_folder)
  | Some available_files =>
      let+ devices :=
        loading (load_required standard_metadata_folder available_files "device.csv"
                   Device "device_id" true) in
      let+ component_types :=
        loading (load_required standard_metadata_folder available_files
                   "component_type.csv" ComponentType "component_type_id" true) in
      let+ scenarios :=
        loading (load_required standard_metadata_folder available_files "scenario.csv"
                   Scenario "scenario_id" true) in
      let+ _ := assert_nonempty "scenarios" scenarios in
      let+ _ := assert_nonempty "devices" devices in
      let+ _ := assert_nonempty "component_types" component_types in
      let+ ds := loading (first_per_key devices) in
      let+ cs := loading (first_per_key component_types) in
      let+ ss := loading (first_per_key scenarios) in
      inr (MkStandardMetadata (ByKey ds) (ByKey cs) (ByKey ss))
  end.

(** [load_standard_metadata_files_egoexo] *)
Definition load_standard_metadata_files_egoexo (standard_metadata_folder : string)
    (folder : option directory) : metadata_exn + StandardMetadataEgoExo :=
  match folder with
  | None => inl (DoesNotExist standard_metadata_folder)
  | Some available_files =>
      let+ devices :=
        loading (load_required standard_metadata_folder available_files "device.csv"
                   Device "device_id" true) in
      let+ scenarios :=
        loading (load_required standard_metadata_folder available_files "scenario.csv"
                   ScenarioEgoExo "scenario_id" true) in
      let+ _ := assert_nonempty "scenarios" scenarios in
      let+ _ := assert_nonempty "devices" devices in
      let+ ds := loading (first_per_key devices) in
      let+ ss := loading (first_per_key scenarios) in
      inr (MkStandardMetadataEgoExo (ByKey ds) (ByKey ss))
  end.

(** *** The released videos *)

(** The [for line in reader] loop of [load_released_video_files]:
    [released_videos[line[2]].append(line[0])].  The dict is kept as a
    finite map; the order of its keys is not recorded. *)
Fixpoint released_rows (lines : list (list string))
    (released_videos : gmap string (list string)) : result (gmap string (list string)) :=
  match lines with
  | [] => inr released_videos
  | line :: lines' =>
      match py_list_get line 2 with
      | None => inl IndexError
      | Some key =>
          match py_list_get line 0 with
          | None => inl IndexError
          | Some uid =>
              released_rows lines'
                (<[key := default [] (released_videos !! key) ++ [uid]]> released_videos)
          end
      end
  end.

(** [load_released_video_files], on the rows of the file when a path is
    given. *)
Definition load_released_video_files (released_video_path : option (list (list string)))
    : result (option (gmap string (list string))) :=
  match released_video_path with
  | None => inr None
  | Some csvfile =>
      match csvfile with
      | [] => inl StopIteration
      | _ :: lines =>
          match released_rows lines ∅ with
          | inl e => inl e
          | inr released_videos => inr (Some released_videos)
          end
      end
  end.

(** *** Vocabulary of the statements *)

(** What a line contributes when it decodes: the instance, the value of
    its key field and the dictionary key of that value. *)
Definition row_key (metas : list (string * field_meta)) (dict_key_field : string)
    (line : list string) : option (record * pyval * pykey) :=
  match decode_row metas line with
  | inl _ => None
  | inr obj =>
      match getattr obj dict_key_field with
      | inl _ => None
      | inr dict_key =>
          match to_key dict_key with
          | None => None
          | Some k => Some (obj, dict_key, k)
          end
      end
  end.

(** Line [j] has the key value [dict_key], and the table already holds that
    key or an earlier line has it. *)
Definition repeats (metas : list (string * field_meta)) (dict_key_field : string)
    (output : table (list record)) (lines : list (list string))
    (j : nat) (dict_key : pyval) : Prop :=
  exists (line : list string) (obj : record) (k : pykey),
    lines !! j = Some line /\
    row_key metas dict_key_field line = Some (obj, dict_key, k) /\
    (is_Some (tbl_lookup output k) \/
     exists (i : nat) (line' : list string) (obj' : record) (dict_key' : pyval),
       (i < j)%nat /\ lines !! i = Some line' /\
       row_key metas dict_key_field line' = Some (obj', dict_key', k)).

Definition nonempty_lists (output : table (list record)) : Prop :=
  Forall (fun e => e.2 <> []) output.

Definition singletons (t : table (list record)) : Prop :=
  Forall (fun e => exists r : record, e.2 = [r]) t.

(** The attribute is the loader's table with each one-element list replaced
    by its element. *)
Definition unwrapped (loaded : table (list record)) (a : attr) : Prop :=
  exists t : table record,
    a = ByKey t /\ Forall2 (fun e e' => e'.1 = e.1 /\ e.2 = [e'.2]) loaded t.

(** The instances of the decoded rows whose key is [k], in file order. *)
Definition instances_of (k : pykey) (rows : list (record * pyval * pykey)) : list record :=
  map (fun r => r.1.1) (filter (fun r => r.2 = k) rows).

(** What a key maps to once [new] instances were appended to what it
    mapped to before. *)
Definition grouped_list (old : option (list record)) (new : list record)
    : option (list record) :=
  match old, new with
  | Some objs, _ => Some (objs ++ new)
  | None, [] => None
  | None, _ => Some new
  end.

(** The cell a line holds for a column name, if any. *)
Definition cell (header : list string) (line : list string) (name : string)
    : option string :=
  column_index_of header !! name ≫= py_list_get line.

(** The position of the last [name] in a header. *)
Fixpoint last_index (name : string) (header : list string) : option nat :=
  match header with
  | [] => None
  | h :: header' =>
      match last_index name header' with
      | Some n => Some (S n)
      | None => if decide (h = name) then Some 0%nat else None
      end
  end.

(** The call returns a value rather than raising. *)
Definition succeeds {A} (r : result A) : Prop := exists a : A, r = inr a.

End Loader.

(** The file names [load_manifest] looks for, and those
    [load_egoexo_manifest] looks for. *)
Definition core_file_names : list string :=
  [ "video_metadata.csv"; "video_component_file.csv";
    "auxiliary_video_component_data_file.csv";
    "participant_data.csv"; "participant.csv"; "participant_metadata.csv";
    "synchronized_videos.csv"; "physical_setting.csv"; "annotations.csv" ].

Definition egoexo_file_names : list string :=
  [ "capture_metadata.csv"; "take_metadata.csv"; "video_metadata.csv";
    "video_component_file.csv"; "colmap_metadata.csv"; "object_metadata.csv";
    "physical_setting.csv"; "participant_metadata.csv"; "extra_data.csv" ].

(** The first cells of the lines whose third cell is [key], in file order. *)
Definition uids_for (key : string) (lines : list (list string)) : list string :=
  omap (fun l => l !! 0%nat) (filter (fun l => l !! 2%nat = Some key) lines).

End Validation.

(** * Examples used below *)

Module Examples.
Import Dataset.

(** Containers [a], [b], [c] of sizes 3, 5 and 2; an item is named by the
    path of its container and its local index. *)
Definition sizes_352 : gmap string Z := <["c" := 2]> (<["b" := 5]> (<["a" := 3]> ∅)).

Definition len_352 (h : handle) : N :=
  if String.eqb (h_path h) "a" then 3%N
  else if String.eqb (h_path h) "b" then 5%N
  else 2%N.

Definition which (h : handle) (idx : Z) : string * Z := (h_path h, idx).

Definition lazy_352 : VideoDataset :=
  MkVideoDataset ["a"; "b"; "c"]
    (list_to_map [(0, ("a", None)); (1, ("b", None)); (2, ("c", None))])
    [0; 3; 8; 10].

(** Opened at construction with at most 4 items per container. *)
Definition capped_352 : VideoDataset :=
  MkVideoDataset ["a"; "b"; "c"]
    (list_to_map [(0, ("a", Some (Handle "a" 0))); (1, ("b", Some (Handle "b" 1)));
                  (2, ("c", Some (Handle "c" 2)))])
    [0; 3; 7; 9].

(** A sequence of calls that comes back to containers already used, and
    ends out of range. *)
Definition calls_352 : list Z := [3; 4; 3; 9; 0; 3; 10].

Definition eager_352 : VideoDataset :=
  MkVideoDataset ["a"; "b"; "c"]
    (list_to_map [(0, ("a", Some (Handle "a" 0))); (1, ("b", Some (Handle "b" 1)));
                  (2, ("c", Some (Handle "c" 2)))])
    [0; 3; 8; 10].

(** Stand-ins for the library parsers, defined on the literals the examples
    use; a float is carried as its literal. *)
Definition ex_json_loads (s : string) : option (@Validation.pyval string) :=
  if String.eqb s "{}" then Some (Validation.PyDict [])
  else if String.eqb s "[1, 2]" then Some (Validation.PyList [Validation.PyInt 1; Validation.PyInt 2])
  else None.

Definition ex_strptime (s fmt : string) : option Validation.datetime :=
  if String.eqb s "2023-01-02 03:04:05" && String.eqb fmt "%Y-%m-%d %H:%M:%S"
  then Some (Validation.Datetime 2023 1 2 3 4 5)
  else None.

Definition ex_int (s : string) : option Z :=
  if String.eqb s "1" then Some 1
  else if String.eqb s "2" then Some 2
  else if String.eqb s "3" then Some 3
  else None.

Definition ex_float (s : string) : option string :=
  if String.eqb s "0.5" then Some s else None.

Definition ex_decode : string -> Validation.pytype -> Validation.decoded :=
  Validation.default_decode ex_json_loads ex_strptime ex_int ex_float.

(** [physical_setting.csv] of an ego-exo manifest with [s1] on two rows. *)
Definition ex_settings_csv : list (list string) :=
  [ ["setting_id"; "name"];
    ["s1"; "kitchen"];
    ["s2"; "lab"];
    ["s1"; "garage"] ].

(** The same file with a column the dataclass does not have and without
    one it has. *)
Definition ex_settings_bad_header : list (list string) :=
  [ ["setting_id"; "label"];
    ["s1"; "kitchen"] ].

(** An ego-exo manifest directory: one capture, and the other required
    tables without rows. *)
Definition ex_capture_csv : list (list string) :=
  [ ["university_capture_id"; "university_video_folder_path"; "number_videos";
     "number_takes"; "post_surveys_relative_path"; "physical_setting_id";
     "start_date_recorded_utc"; "additional_metadata"];
    ["cap1"; "videos/cap1"; "2"; "1"; "surveys/cap1.json"; "3";
     "2023-01-02 03:04:05.678"; "{}"] ].

Definition ex_capture_record : @Validation.record string :=
  [ ("university_capture_id", Validation.PyStr "cap1");
    ("university_video_folder_path", Validation.PyStr "videos/cap1");
    ("number_videos", Validation.PyInt 2);
    ("number_takes", Validation.PyInt 1);
    ("post_surveys_relative_path", Validation.PyStr "surveys/cap1.json");
    ("physical_setting_id", Validation.PyInt 3);
    ("start_date_recorded_utc", Validation.PyDatetime (Validation.Datetime 2023 1 2 3 4 5));
    ("additional_metadata", Validation.PyDict []) ].

Definition ex_egoexo_dir : Validation.directory :=
  <["capture_metadata.csv" := ex_capture_csv]>
  (<["take_metadata.csv" := [map Validation.f_name (@Validation.TakeMetadataEgoExo string)]]>
  (<["video_metadata.csv" := [map Validation.f_name (@Validation.VideoMetadataEgoExo string)]]>
  (<["video_component_file.csv" :=
       [map Validation.f_name (@Validation.VideoComponentFileEgoExo string)]]>
  (<["physical_setting.csv" := [ ["setting_id"; "name"]; ["s1"; "kitchen"] ]]> ∅)))).

Definition ex_setting_record : @Validation.record string :=
  [ ("setting_id", Validation.PyStr "s1"); ("name", Validation.PyStr "kitchen") ].

(** A core manifest directory: the two required tables without rows and
    one physical setting. *)
Definition ex_core_dir : Validation.directory :=
  <["video_metadata.csv" := [map Validation.f_name (@Validation.VideoMetadata string)]]>
  (<["video_component_file.csv" :=
       [map Validation.f_name (@Validation.VideoComponentFile string)]]>
  (<["physical_setting.csv" :=
       [ ["setting_id"; "name"; "associated_matterport_scan_path"];
         ["s1"; "kitchen"; "scans/s1"] ]]> ∅)).

(** [physical_setting.csv] with one row per setting. *)
Definition ex_settings_ok_csv : list (list string) :=
  [ ["setting_id"; "name"];
    ["s1"; "kitchen"];
    ["s2"; "lab"] ].

(** The table [ex_settings_csv] loads to without [unique_per_key]. *)
Definition ex_settings_table : @Validation.table string (list (@Validation.record string)) :=
  [ (Validation.PyStr "s1",
     [ [("setting_id", Validation.PyStr "s1"); ("name", Validation.PyStr "kitchen")];
       [("setting_id", Validation.PyStr "s1"); ("name", Validation.PyStr "garage")] ]);
    (Validation.PyStr "s2",
     [ [("setting_id", Validation.PyStr "s2"); ("name", Validation.PyStr "lab")] ]) ].

Definition ex_settings_ok_table
    : @Validation.table string (list (@Validation.record string)) :=
  [ (Validation.PyStr "s1",
     [ [("setting_id", Validation.PyStr "s1"); ("name", Validation.PyStr "kitchen")] ]);
    (Validation.PyStr "s2",
     [ [("setting_id", Validation.PyStr "s2"); ("name", Validation.PyStr "lab")] ]) ].

(** [ex_settings_ok_csv] with its columns swapped, and with a cell more on
    each line. *)
Definition ex_settings_swapped_csv : list (list string) :=
  [ ["name"; "setting_id"];
    ["kitchen"; "s1"];
    ["lab"; "s2"] ].

Definition ex_settings_long_csv : list (list string) :=
  [ ["setting_id"; "name"];
    ["s1"; "kitchen"; "x"];
    ["s2"; "lab"; "y"] ].

(** [ex_core_dir] with two participant files and a file no assembler
    looks for. *)
Definition ex_core_dir_more : Validation.directory :=
  <["participant_data.csv" := [ ["participant_id"; "participant_metadata"]; ["p1"; "{}"] ]]>
  ex_core_dir.

Definition ex_core_dir_noise : Validation.directory :=
  <["participant.csv" := [ ["not"; "a"; "participant"; "file"] ]]>
  (<["notes.txt" := [ ["hello"] ]]> ex_core_dir_more).

(** A standard metadata folder. *)
Definition ex_standard_folder : Validation.directory :=
  <["device.csv" := [ ["device_id"; "name"]; ["1"; "GoPro"] ]]>
  (<["component_type.csv" := [ ["component_type_id"; "name"]; ["1"; "video"] ]]>
  (<["scenario.csv" :=
       [ ["scenario_id"; "name"; "included_in_release_1"; "is_ad_hoc"];
         ["2"; "cooking"; "True"; "False"] ]]> ∅)).

(** A released-videos file. *)
Definition ex_released_csv : list (list string) :=
  [ ["video_uid"; "path"; "university"];
    ["u1"; "a.mp4"; "k1"];
    ["u2"; "b.mp4"; "k2"];
    ["u3"; "c.mp4"; "k1"] ].

End Examples.

(** * Properties *)

Module DatasetProps.
Import Dataset.

(** ** Binary search *)

Lemma bisect_loop_step (fuel : nat) (a : list Z) (x : Z) (lo hi : nat) :
  bisect_loop (S fuel) a x lo hi =
  if (lo <? hi)%nat then
    if nth ((lo + hi) / 2) a 0 <? x
    then bisect_loop fuel a x ((lo + hi) / 2 + 1) hi
    else bisect_loop fuel a x lo ((lo + hi) / 2)
  else lo.
Proof. reflexivity. Qed.

Lemma bisect_loop_partition (fuel : nat) (a : list Z) (x : Z) :
  nondecreasing a ->
  forall lo hi : nat,
    (lo <= hi <= length a)%nat ->
    (hi - lo <= fuel)%nat ->
    (forall j : nat, (j < lo)%nat -> nth j a 0 < x) ->
    (forall j : nat, (hi <= j < length a)%nat -> x <= nth j a 0) ->
    partition_point a x (bisect_loop fuel a x lo hi).
Proof.
  intros Hmono. induction fuel as [|fuel IH]; intros lo hi Hb Hf Hlo Hhi.
  - simpl. assert (lo = hi) by lia. subst. repeat split; auto; lia.
  - rewrite bisect_loop_step. destruct (Nat.ltb_spec lo hi) as [Hlt|Hge].
    + pose proof (Nat.div_mod_eq (lo + hi) 2) as Hdm.
      pose proof (Nat.mod_upper_bound (lo + hi) 2 ltac:(lia)) as Hm.
      set (mid := ((lo + hi) / 2)%nat) in *.
      assert (lo <= mid < hi)%nat as Hmid by lia.
      destruct (Z.ltb_spec (nth mid a 0) x) as [Hsmall|Hbig].
      * apply IH; try lia; auto.
        intros j Hj. assert (nth j a 0 <= nth mid a 0) by (apply Hmono; lia). lia.
      * apply IH; try lia; auto.
        intros j Hj. assert (nth mid a 0 <= nth j a 0) by (apply Hmono; lia). lia.
    + assert (lo = hi) by lia. subst. repeat split; auto; lia.
Qed.

Lemma bisect_left_partition (a : list Z) (x : Z) :
  nondecreasing a ->
  exists r : nat, bisect_left a x = Z.of_nat r /\ partition_point a x r.
Proof.
  intros Hmono. eexists; split; [reflexivity|].
  apply bisect_loop_partition; auto; lia.
Qed.

(** ** Well-formed datasets *)

Lemma sorted_nondecreasing (a : list Z) : Sorted Z.le a -> nondecreasing a.
Proof.
  intros Hs. apply Sorted_StronglySorted in Hs; [|intros x y z; lia].
  induction Hs as [|x l Hs IH Hall]; intros i j Hij; simpl in Hij.
  - lia.
  - destruct i as [|i], j as [|j]; simpl; try lia.
    + rewrite Forall_forall in Hall. apply Hall, list_elem_of_In, nth_In. lia.
    + apply IH. lia.
Qed.

Lemma wf_conts (d : VideoDataset) (k : Z) :
  wf d -> is_Some (conts d !! k) <-> 0 <= k < Z.of_nat (length (fs_cumsum d)) - 1.
Proof.
  intros (_ & _ & Hdom). rewrite <- elem_of_dom, Hdom, elem_of_list_to_set, elem_of_seqZ. lia.
Qed.

Lemma wf_head (d : VideoDataset) :
  wf d -> (0 < length (fs_cumsum d))%nat /\ nth 0 (fs_cumsum d) 0 = 0.
Proof.
  intros (Hh & _ & _). destruct (fs_cumsum d); simpl in *; [discriminate|].
  split; [lia|congruence].
Qed.

Lemma py_list_get_nat {A} (l : list A) (c : nat) :
  py_list_get l (Z.of_nat c) = l !! c.
Proof.
  unfold py_list_get. destruct (decide (0 <= Z.of_nat c)); [|lia].
  now rewrite Nat2Z.id.
Qed.

Lemma py_list_get_last {A} (l : list A) :
  py_list_get l (-1) = l !! pred (length l).
Proof.
  unfold py_list_get. destruct (decide (0 <= -1)); [lia|].
  destruct (decide (- Z.of_nat (length l) <= -1)) as [Hl|Hl].
  - f_equal. lia.
  - destruct l; [reflexivity|simpl in Hl; lia].
Qed.

Lemma len_total (d : VideoDataset) (total : Z) :
  len d = inr total ->
  (0 < length (fs_cumsum d))%nat /\ nth (pred (length (fs_cumsum d))) (fs_cumsum d) 0 = total.
Proof.
  unfold len. rewrite py_list_get_last.
  destruct (fs_cumsum d !! pred (length (fs_cumsum d))) as [n|] eqn:E; [|discriminate].
  intros [= <-]. split.
  - apply lookup_lt_Some in E. lia.
  - now apply nth_lookup_Some.
Qed.

(** Where [bisect_left(fs_cumsum, i + 1) - 1] lands for an index in range. *)
Lemma bisect_in_range (d : VideoDataset) (i total : Z) :
  wf d -> len d = inr total -> 0 <= i < total ->
  exists c : nat,
    bisect_left (fs_cumsum d) (i + 1) - 1 = Z.of_nat c /\
    (S c < length (fs_cumsum d))%nat /\
    nth c (fs_cumsum d) 0 <= i < nth (S c) (fs_cumsum d) 0 /\
    (forall c' : nat, (c' < length (fs_cumsum d))%nat ->
                      nth c' (fs_cumsum d) 0 <= i -> (c' <= c)%nat).
Proof.
  intros Hwf Hlen Hi.
  destruct (wf_head d Hwf) as [Hpos H0].
  destruct (len_total d total Hlen) as [_ Hlast].
  destruct Hwf as (_ & Hs & _).
  destruct (bisect_left_partition (fs_cumsum d) (i + 1) (sorted_nondecreasing _ Hs))
    as (r & Hr & Hle & Hbelow & Habove).
  assert (0 < r)%nat as Hr0.
  { destruct r; [|lia]. specialize (Habove 0%nat ltac:(lia)). lia. }
  assert (r < length (fs_cumsum d))%nat as HrN.
  { destruct (decide (r = length (fs_cumsum d))) as [->|]; [|lia].
    specialize (Hbelow (pred (length (fs_cumsum d))) ltac:(lia)). lia. }
  exists (pred r). rewrite Hr. repeat split.
  - lia.
  - lia.
  - specialize (Hbelow (pred r) ltac:(lia)). lia.
  - replace (S (pred r)) with r by lia. specialize (Habove r ltac:(lia)). lia.
  - intros c' Hc' Hv. destruct (decide (c' <= pred r)%nat); [assumption|].
    specialize (Habove c' ltac:(lia)). lia.
Qed.

(** Where it lands for an index out of range: on no container. *)
Lemma bisect_out_of_range (d : VideoDataset) (i total : Z) :
  wf d -> len d = inr total -> ~ (0 <= i < total) ->
  conts d !! (bisect_left (fs_cumsum d) (i + 1) - 1) = None.
Proof.
  intros Hwf Hlen Hi.
  destruct (wf_head d Hwf) as [Hpos H0].
  destruct (len_total d total Hlen) as [_ Hlast].
  pose proof (wf_conts d (bisect_left (fs_cumsum d) (i + 1) - 1) Hwf) as Hc.
  destruct Hwf as (_ & Hs & _).
  pose proof (sorted_nondecreasing _ Hs) as Hmono.
  destruct (bisect_left_partition (fs_cumsum d) (i + 1) Hmono)
    as (r & Hr & Hle & Hbelow & Habove).
  apply eq_None_not_Some. rewrite Hc, Hr. intros Hk.
  destruct (decide (i < 0)) as [Hneg|Hpos'].
  - specialize (Hbelow 0%nat ltac:(lia)). lia.
  - assert (total <= i) by lia.
    specialize (Habove r ltac:(lia)).
    assert (nth r (fs_cumsum d) 0 <= nth (pred (length (fs_cumsum d))) (fs_cumsum d) 0)
      by (apply Hmono; lia).
    lia.
Qed.

Lemma getitem_in_range {Item} (cont_getitem : handle -> Z -> Item)
    (d : VideoDataset) (w : world) (i total : Z) :
  wf d -> len d = inr total -> 0 <= i < total ->
  exists (c : nat) (p : string) (oh : option handle),
    conts d !! Z.of_nat c = Some (p, oh) /\
    (S c < length (fs_cumsum d))%nat /\
    cum d c <= i < cum d (S c) /\
    (forall c' : nat, (c' < length (fs_cumsum d))%nat -> cum d c' <= i -> (c' <= c)%nat) /\
    getitem cont_getitem d w i = resolved cont_getitem d w i c p oh.
Proof.
  intros Hwf Hlen Hi.
  destruct (bisect_in_range d i total Hwf Hlen Hi) as (c & Hc & HcN & Hrange & Hright).
  destruct (proj2 (wf_conts d (Z.of_nat c) Hwf) ltac:(lia)) as [[p oh] Hp].
  exists c, p, oh. repeat split; try assumption; try apply Hrange.
  unfold getitem, resolved, cum. rewrite Hc, Hp.
  assert (fs_cumsum d !! c = Some (nth c (fs_cumsum d) 0)) as Hbase.
  { destruct (nth_lookup_or_length (fs_cumsum d) c 0); [assumption|lia]. }
  destruct oh as [h|]; simpl.
  - rewrite Hp, py_list_get_nat, Hbase. reflexivity.
  - rewrite lookup_insert_eq, py_list_get_nat, Hbase. reflexivity.
Qed.

(** [__getitem__] keeps a dataset well formed. *)
Lemma getitem_wf {Item} (cont_getitem : handle -> Z -> Item)
    (d : VideoDataset) (w : world) (i : Z) :
  wf d -> wf (getitem cont_getitem d w i).1.1.2.
Proof.
  intros Hwf. unfold getitem.
  destruct (conts d !! _) as [[p [h|]]|] eqn:E; simpl; try assumption.
  - rewrite E. destruct (py_list_get _ _); assumption.
  - rewrite lookup_insert_eq.
    assert (wf (MkVideoDataset (paths d)
                  (<[bisect_left (fs_cumsum d) (i + 1) - 1 := (p, Some (Handle p w))]> (conts d))
                  (fs_cumsum d))) as Hwf'.
    { destruct Hwf as (Hh & Hs & Hd). repeat split; simpl; try assumption.
      rewrite dom_insert_L, subseteq_union_1_L; [exact Hd|].
      apply singleton_subseteq_l, elem_of_dom. eauto. }
    destruct (py_list_get _ _); assumption.
Qed.

Section Lookup.
Context {Item : Type}.
Variable cont_getitem : handle -> Z -> Item.

(** C2. An index in range resolves to the container whose cumulative
    offset is the rightmost one not above it, the only container [c] with
    [cumulative[c] <= i < cumulative[c+1]], and the item retrieved is that
    container's item [i - cumulative[c]]; the container is opened first
    when its handle is absent.  For sizes 3, 5, 2 the length is 10 and the
    indices 0, 3 and 9 resolve to (a, 0), (b, 0) and (c, 1), whether the
    dataset was built from precomputed counts or by opening the
    containers. *)
Theorem getitem_resolves :
  (forall (d : VideoDataset) (w : world) (i total : Z),
      wf d -> len d = inr total -> 0 <= i < total ->
      exists (c : nat) (p : string) (oh : option handle),
        conts d !! Z.of_nat c = Some (p, oh) /\
        (S c < length (fs_cumsum d))%nat /\
        cum d c <= i < cum d (S c) /\
        (forall c' : nat,
            (c' < length (fs_cumsum d))%nat -> cum d c' <= i -> (c' <= c)%nat) /\
        (forall c' : nat,
            (S c' < length (fs_cumsum d))%nat ->
            cum d c' <= i < cum d (S c') -> c' = c) /\
        getitem cont_getitem d w i = resolved cont_getitem d w i c p oh) /\
  (init Examples.len_352 ["c"; "a"; "b"] None (Some Examples.sizes_352) 0%nat
     = (inr Examples.lazy_352, 0%nat) /\
   init Examples.len_352 ["c"; "a"; "b"] None None 0%nat
     = (inr Examples.eager_352, 3%nat) /\
   len Examples.lazy_352 = inr 10 /\
   len Examples.eager_352 = inr 10 /\
   map (fun i => (getitem Examples.which Examples.lazy_352 0%nat i).1.1.1) [0; 3; 9]
     = [inr ("a", 0); inr ("b", 0); inr ("c", 1)] /\
   map (fun i => (getitem Examples.which Examples.eager_352 3%nat i).1.1.1) [0; 3; 9]
     = [inr ("a", 0); inr ("b", 0); inr ("c", 1)]).
Proof.
  split.
  - intros d w i total Hwf Hlen Hi.
    destruct (getitem_in_range cont_getitem d w i total Hwf Hlen Hi)
      as (c & p & oh & Hp & HcN & Hrange & Hright & Hget).
    exists c, p, oh. repeat split; try assumption; try apply Hrange.
    intros c' Hc' Hr'.
    assert (c' <= c)%nat as Hle by (apply Hright; [lia|apply Hr']).
    destruct (decide (c' = c)) as [|Hne]; [assumption|exfalso].
    destruct Hwf as (_ & Hs & _).
    assert (cum d (S c') <= cum d c)
      by (apply (sorted_nondecreasing _ Hs); lia).
    lia.
  - repeat split; vm_compute; reflexivity.
Qed.

(** C3. An index outside [[0, total)] makes [__getitem__] raise: the
    container number it computes, [-1] or [N], is not a key of [conts], so
    the lookup raises [KeyError] to the caller.  Nothing has been changed
    by then, and every index in range is still served afterwards. *)
Theorem getitem_out_of_range (d : VideoDataset) (w : world) (i total : Z) :
  wf d -> len d = inr total -> ~ (0 <= i < total) ->
  exists (k : Z) (d' : VideoDataset) (w' : world),
    getitem cont_getitem d w i = (inl (KeyError_int k), d', w', []) /\
    conts d !! k = None /\
    d' = d /\ w' = w /\
    forall j : Z, 0 <= j < total ->
      exists v : Item, (getitem cont_getitem d' w' j).1.1.1 = inr v.
Proof.
  intros Hwf Hlen Hi.
  pose proof (bisect_out_of_range d i total Hwf Hlen Hi) as Hnone.
  exists (bisect_left (fs_cumsum d) (i + 1) - 1), d, w.
  repeat split; try assumption.
  - unfold getitem. rewrite Hnone. reflexivity.
  - intros j Hj.
    destruct (getitem_in_range cont_getitem d w j total Hwf Hlen Hj)
      as (c & p & oh & _ & _ & _ & _ & Hget).
    rewrite Hget. unfold resolved. destruct oh; eauto.
Qed.

End Lookup.

(** ** Opening containers *)

Lemma getitems_cons {Item} (cont_getitem : handle -> Z -> Item)
    (d : VideoDataset) (w : world) (i : Z) (idxs : list Z) :
  getitems cont_getitem d w (i :: idxs) =
  let g := getitem cont_getitem d w i in
  let r := getitems cont_getitem g.1.1.2 g.1.2 idxs in
  (r.1.1, r.1.2, g.2 ++ r.2).
Proof.
  simpl. destruct (getitem cont_getitem d w i) as [[[r d1] w1] o1]. simpl.
  destruct (getitems cont_getitem d1 w1 idxs) as [[d2 w2] o2]. reflexivity.
Qed.

(** One call either opens nothing and leaves the cache alone, or opens the
    one container whose handle was absent and stores the new handle. *)
Lemma getitem_effect {Item} (cont_getitem : handle -> Z -> Item)
    (d : VideoDataset) (w : world) (i : Z) :
  let g := getitem cont_getitem d w i in
  (g.2 = [] /\ conts g.1.1.2 = conts d /\ g.1.2 = w) \/
  (exists (k : Z) (p : string),
      g.2 = [k] /\ conts d !! k = Some (p, None) /\
      conts g.1.1.2 = <[k := (p, Some (Handle p w))]> (conts d) /\ g.1.2 = S w).
Proof.
  unfold getitem.
  destruct (conts d !! _) as [[p [h|]]|] eqn:E; simpl.
  - left. rewrite E. destruct (py_list_get _ _); auto.
  - right. rewrite lookup_insert_eq. exists (bisect_left (fs_cumsum d) (i + 1) - 1), p.
    destruct (py_list_get _ _); auto.
  - left. auto.
Qed.

Section Cache.
Context {Item : Type}.
Variable cont_getitem : handle -> Z -> Item.


End Cache.

(** ** Construction *)

Lemma open_all_paths (ps : list string) (w : world) :
  map fst (open_all ps w).1 = ps /\
  map (fun c => h_path c.2) (open_all ps w).1 = ps /\
  (open_all ps w).2 = (w + length ps)%nat.
Proof.
  revert w. induction ps as [|p ps IH]; intros w; simpl.
  - repeat split; lia.
  - specialize (IH (S w)). destruct (open_all ps (S w)) as [rest w2]. simpl in *.
    destruct IH as (-> & -> & ->). repeat split; lia.
Qed.

Lemma lookup_all_Forall2 (m : gmap string Z) (ps : list string) (ns : list Z) :
  lookup_all m ps = inr ns -> Forall2 (fun p n => m !! p = Some n) ps ns.
Proof.
  revert ns. induction ps as [|p ps IH]; intros ns; simpl.
  - intros [= <-]. constructor.
  - destruct (m !! p) as [n|] eqn:E; [|discriminate].
    destruct (lookup_all m ps) as [e|ns']; [discriminate|].
    intros [= <-]. constructor; auto.
Qed.

Lemma torch_cumsum_inr (xs sums : list Z) :
  torch_cumsum xs = inr sums -> sums = cumsum_from 0 xs.
Proof.
  unfold torch_cumsum. destruct (List.find _ xs); [discriminate|]. now intros [= <-].
Qed.

Lemma lookup_enumerate_from {A} (l : list A) (start : Z) (k : nat) :
  (list_to_map (enumerate_from start l) : gmap Z A) !! (start + Z.of_nat k) = l !! k.
Proof.
  revert start k. induction l as [|x l IH]; intros start k.
  - reflexivity.
  - cbn [enumerate_from list_to_map foldr]. destruct k as [|k].
    + rewrite Z.add_0_r. apply lookup_insert_eq.
    + assert (start <> start + Z.of_nat (S k)) as Hne by lia.
      rewrite (lookup_insert_ne _ _ _ _ Hne).
      replace (start + Z.of_nat (S k)) with (start + 1 + Z.of_nat k) by lia.
      apply IH.
Qed.

Section Construction.
Variable cont_len : handle -> N.

(** Opening the containers at construction with a maximum [m] other than
    [0]: the paths are put in sorted order, container number [k] of the
    new dataset holds the opened container of path number [k], and the
    table is [0] followed by the running sums of [min(len(ct), m)] over
    the containers the dataset holds, in that order. *)
Lemma eager_counts_capped (paths0 : list string) (m : Z) (w w' : world) (d : VideoDataset) :
  m <> 0 ->
  init cont_len paths0 (Some m) None w = (inr d, w') ->
  Sorted str_le (paths d) /\ paths d ≡ₚ paths0 /\
  exists hs : list handle,
    map h_path hs = paths d /\
    (forall k : nat,
        conts d !! Z.of_nat k = (fun h => (h_path h, Some h)) <$> hs !! k) /\
    fs_cumsum d = 0 :: cumsum_from 0 (map (fun h => Z.min (Z.of_N (cont_len h)) m) hs).
Proof.
  intros Hm. unfold init, frame_counts.
  pose proof (open_all_paths (py_sorted paths0) w) as (Hfst & Hp & _).
  destruct (open_all (py_sorted paths0) w) as [cs w1]. simpl in Hfst, Hp.
  destruct (torch_cumsum _) as [e|sums] eqn:Et; [discriminate|].
  intros [= <- <-]. simpl.
  split; [apply Sorted_merge_sort, _|]. split; [apply merge_sort_Permutation|].
  assert (Forall (fun c : string * handle => c.1 = h_path c.2) cs) as Hsame.
  { clear -Hfst Hp. rewrite <- Hp in Hfst. clear Hp.
    induction cs as [|c cs IH]; [constructor|].
    simpl in Hfst. injection Hfst as Hc Hcs. constructor; auto. }
  exists (map snd cs). split; [rewrite map_map; exact Hp|]. split.
  - intros k. unfold enumerate.
    rewrite <- (Z.add_0_l (Z.of_nat k)), lookup_enumerate_from.
    rewrite !list_lookup_fmap. destruct (cs !! k) as [c|] eqn:Ek; [|reflexivity].
    simpl. rewrite Forall_forall in Hsame.
    rewrite (Hsame c) by (eapply list_elem_of_lookup_2; eauto). reflexivity.
  - f_equal. apply torch_cumsum_inr in Et. rewrite Et, map_map. f_equal.
    apply map_ext. intros c. unfold frames_of.
    destruct (decide (m = 0)); [contradiction|reflexivity].
Qed.

End Construction.

(** ** Constructed datasets are well formed *)

Lemma wrap64_small (z : Z) : int64_min <= z <= int64_max -> wrap64 z = z.
Proof.
  unfold wrap64, int64_min, int64_max. intros Hz.
  rewrite Z.mod_small; lia.
Qed.

Lemma length_cumsum_from (acc : Z) (xs : list Z) :
  length (cumsum_from acc xs) = length xs.
Proof. revert acc. induction xs; intros acc; simpl; auto. Qed.

Lemma cumsum_from_sorted (xs : list Z) (acc : Z) :
  0 <= acc -> Forall (Z.le 0) xs -> acc + foldr Z.add 0 xs <= int64_max ->
  Sorted Z.le (acc :: cumsum_from acc xs).
Proof.
  revert acc. induction xs as [|x xs IH]; intros acc Hacc Hall Hsum; simpl.
  - repeat constructor.
  - inversion Hall as [|? ? Hx Hxs]; subst. simpl in Hsum.
    assert (0 <= foldr Z.add 0 xs) as Hrest.
    { clear -Hxs. induction Hxs; simpl; lia. }
    rewrite wrap64_small by (unfold int64_min, int64_max in *; lia).
    constructor.
    + apply IH; [lia|assumption|lia].
    + constructor. lia.
Qed.

Lemma fst_enumerate_from {A} (l : list A) (start : Z) :
  (enumerate_from start l).*1 = seqZ start (Z.of_nat (length l)).
Proof.
  revert start. induction l as [|x l IH]; intros start.
  - reflexivity.
  - rewrite seqZ_cons by (simpl; lia). simpl. f_equal.
    rewrite IH. f_equal; lia.
Qed.

Lemma init_wf (cont_len : handle -> N) (paths0 : list string)
    (max_num_frames_per_video : option Z) (paths_to_n_frames : option (gmap string Z))
    (w w' : world) (d : VideoDataset) (counts : list Z) :
  init cont_len paths0 max_num_frames_per_video paths_to_n_frames w = (inr d, w') ->
  (frame_counts cont_len (py_sorted paths0) max_num_frames_per_video paths_to_n_frames w).1.1
    = inr counts ->
  Forall (Z.le 0) counts -> foldr Z.add 0 counts <= int64_max ->
  wf d.
Proof.
  unfold init.
  destruct (frame_counts _ _ _ _ _) as [[cnts cs] w1] eqn:Ef. simpl.
  intros Hinit -> Hall Hsum.
  destruct (torch_cumsum counts) as [e|sums] eqn:Et; [discriminate|].
  apply torch_cumsum_inr in Et. subst sums.
  assert (length cs = length counts) as Hlen.
  { unfold frame_counts in Ef. destruct paths_to_n_frames as [n2f|].
    - injection Ef as Hl <- _. apply lookup_all_Forall2, Forall2_length in Hl.
      now rewrite length_map.
    - destruct (open_all _ _) as [cs' w2]. injection Ef as <- <- _.
      now rewrite !length_map. }
  injection Hinit as <- _. repeat split; simpl.
  - apply cumsum_from_sorted; [lia|assumption|lia].
  - rewrite dom_list_to_map_L. unfold enumerate. rewrite fst_enumerate_from.
    rewrite length_cumsum_from, Hlen. do 2 f_equal. lia.
Qed.

(** ** Which handles a new dataset holds *)

Lemma elem_of_enumerate_from {A} (l : list A) (start k : Z) (x : A) :
  (k, x) ∈ enumerate_from start l -> x ∈ l.
Proof.
  revert start. induction l as [|y l IH]; intros start; simpl.
  - intros Hin. inversion Hin.
  - rewrite !elem_of_cons. intros [[= _ ->]|Hin]; [now left|right; eauto].
Qed.

(** Opened at construction: one constructor call per path and every handle
    present.  Built from precomputed counts: no call and every handle
    absent. *)
Lemma init_handles (cont_len : handle -> N) (paths0 : list string)
    (max_num_frames_per_video : option Z) (paths_to_n_frames : option (gmap string Z))
    (w w' : world) (d : VideoDataset) :
  init cont_len paths0 max_num_frames_per_video paths_to_n_frames w = (inr d, w') ->
  match paths_to_n_frames with
  | None =>
      w' = (w + length paths0)%nat /\
      forall (k : Z) (p : string) (oh : option handle),
        conts d !! k = Some (p, oh) -> is_Some oh
  | Some _ =>
      w' = w /\
      forall (k : Z) (p : string) (oh : option handle),
        conts d !! k = Some (p, oh) -> oh = None
  end.
Proof.
  unfold init, frame_counts. destruct paths_to_n_frames as [n2f|].
  - destruct (lookup_all _ _) as [e|ns]; [discriminate|].
    destruct (torch_cumsum ns) as [e|sums]; [discriminate|].
    intros [= <- <-]. split; [reflexivity|]. simpl. intros k p oh Hk.
    apply elem_of_list_to_map_2, elem_of_enumerate_from, list_elem_of_fmap in Hk.
    destruct Hk as (q & [= _ ->] & _). reflexivity.
  - pose proof (open_all_paths (py_sorted paths0) w) as (_ & _ & Hw).
    destruct (open_all (py_sorted paths0) w) as [cs w1]. simpl in Hw.
    destruct (torch_cumsum _) as [e|sums]; [discriminate|].
    intros [= <- <-]. split.
    + rewrite Hw. f_equal. apply Permutation_length, merge_sort_Permutation.
    + simpl. intros k p oh Hk.
      apply elem_of_list_to_map_2, elem_of_enumerate_from, list_elem_of_fmap in Hk.
      destruct Hk as (q & [= _ ->] & _). eauto.
Qed.

(** ** The theorems at the example datasets *)

Lemma wf_lazy_352 : wf Examples.lazy_352.
Proof. apply (bool_decide_unpack _). vm_compute. exact I. Qed.

Lemma getitem_resolves_witness :
  wf Examples.lazy_352 /\ len Examples.lazy_352 = inr 10 /\ 0 <= 9 < 10 /\
  exists (c : nat) (p : string) (oh : option handle),
    conts Examples.lazy_352 !! Z.of_nat c = Some (p, oh) /\
    cum Examples.lazy_352 c <= 9 < cum Examples.lazy_352 (S c) /\
    getitem Examples.which Examples.lazy_352 0%nat 9
      = resolved Examples.which Examples.lazy_352 0%nat 9 c p oh.
Proof.
  assert (len Examples.lazy_352 = inr 10) as Hlen by reflexivity.
  assert (0 <= 9 < 10) as Hi by lia.
  split; [exact wf_lazy_352|]. split; [exact Hlen|]. split; [exact Hi|].
  destruct (proj1 (getitem_resolves Examples.which) Examples.lazy_352 0%nat 9 10
              wf_lazy_352 Hlen Hi) as (c & p & oh & Hp & _ & Hr & _ & _ & Hg).
  exists c, p, oh. auto.
Defined.

Lemma getitem_out_of_range_witness :
  wf Examples.lazy_352 /\ len Examples.lazy_352 = inr 10 /\ ~ (0 <= 10 < 10) /\
  exists (k : Z) (d' : VideoDataset) (w' : world),
    getitem Examples.which Examples.lazy_352 0%nat 10 = (inl (KeyError_int k), d', w', []) /\
    conts Examples.lazy_352 !! k = None /\
    d' = Examples.lazy_352 /\ w' = 0%nat /\
    forall j : Z, 0 <= j < 10 ->
      exists v : string * Z, (getitem Examples.which d' w' j).1.1.1 = inr v.
Proof.
  assert (len Examples.lazy_352 = inr 10) as Hlen by reflexivity.
  assert (~ (0 <= 10 < 10)) as Hi by lia.
  split; [exact wf_lazy_352|]. split; [exact Hlen|]. split; [exact Hi|].
  exact (getitem_out_of_range Examples.which Examples.lazy_352 0%nat 10 10
           wf_lazy_352 Hlen Hi).
Defined.

(** The failing call of the example: index 10 computes container 3. *)
Example getitem_10_raises :
  getitem Examples.which Examples.lazy_352 0%nat 10
    = (inl (KeyError_int 3), Examples.lazy_352, 0%nat, []) /\
  getitem Examples.which Examples.lazy_352 0%nat (-1)
    = (inl (KeyError_int (-1)), Examples.lazy_352, 0%nat, []).
Proof. split; vm_compute; reflexivity. Qed.


(** C6 fails on the code when a path-to-count mapping is supplied.
    Containers [a], [b], [c] hold 3, 5 and 2 items and the configured
    maximum is 4.  Opened at construction (the debugger at the head of
    that branch giving control back), the dataset holds the three
    containers and its table is [0; 3; 7; 9]: the counts are [min(3, 4)],
    [min(5, 4)], [min(2, 4)] in sorted path order.  Built from the mapping
    of [a] to 3, [b] to 5 and [c] to 2 with the same maximum, the table is
    [0; 3; 8; 10]: the count for [b] is 5 and not [min(5, 4)].  In that
    mode the maximum is never read: any two maxima give the same
    outcome. *)
Theorem precomputed_ignores_maximum :
  init Examples.len_352 ["c"; "a"; "b"] (Some 4) None 0%nat
    = (inr Examples.capped_352, 3%nat) /\
  paths Examples.capped_352 = ["a"; "b"; "c"] /\
  map (fun k => conts Examples.capped_352 !! k) [0; 1; 2]
    = map (fun h => Some (h_path h, Some h)) [Handle "a" 0; Handle "b" 1; Handle "c" 2] /\
  map (fun h => Z.of_N (Examples.len_352 h)) [Handle "a" 0; Handle "b" 1; Handle "c" 2]
    = [3; 5; 2] /\
  fs_cumsum Examples.capped_352
    = 0 :: cumsum_from 0 [Z.min 3 4; Z.min 5 4; Z.min 2 4] /\
  init Examples.len_352 ["c"; "a"; "b"] (Some 4) (Some Examples.sizes_352) 0%nat
    = (inr Examples.lazy_352, 0%nat) /\
  paths Examples.lazy_352 = ["a"; "b"; "c"] /\
  map (fun p => Examples.sizes_352 !! p) (paths Examples.lazy_352)
    = [Some 3; Some 5; Some 2] /\
  fs_cumsum Examples.lazy_352 = 0 :: cumsum_from 0 [3; 5; 2] /\
  fs_cumsum Examples.lazy_352 <> 0 :: cumsum_from 0 [Z.min 3 4; Z.min 5 4; Z.min 2 4] /\
  (forall (cont_len : handle -> N) (paths0 : list string) (m m' : option Z)
          (n2f : gmap string Z) (w : world),
      init cont_len paths0 m (Some n2f) w = init cont_len paths0 m' (Some n2f) w).
Proof.
  split; [vm_compute; reflexivity|]. split; [reflexivity|].
  split; [vm_compute; reflexivity|]. split; [vm_compute; reflexivity|].
  split; [vm_compute; reflexivity|]. split; [vm_compute; reflexivity|].
  split; [reflexivity|]. split; [vm_compute; reflexivity|].
  split; [vm_compute; reflexivity|]. split; [vm_compute; discriminate|].
  intros cont_len paths0 m m' n2f w. reflexivity.
Qed.

End DatasetProps.

Module ValidationProps.
Import Validation.

(** ** [str.split] *)

(** The first piece of [s.split(sep)] is [s] up to its first [sep]. *)
Lemma py_split_first (sep : ascii) (s : string) :
  exists (first : string) (others : list string),
    py_split sep s = first :: others /\
    contains sep first = false /\
    ((others = [] /\ s = first) \/
     (exists tail : string, s = (first ++ String sep tail)%string)).
Proof.
  induction s as [|c s (first & others & Hsplit & Hclean & Hshape)]; simpl.
  - exists EmptyString, []. auto.
  - destruct (Ascii.eqb_spec c sep) as [->|Hne].
    + exists EmptyString, (py_split sep s). split; [reflexivity|]. split; [reflexivity|].
      right. exists s. reflexivity.
    + rewrite Hsplit. exists (String c first), others. split; [reflexivity|].
      split.
      * simpl. apply Ascii.eqb_neq in Hne. now rewrite Hne.
      * destruct Hshape as [[-> ->]|[tail ->]]; [left; auto|right; exists tail; reflexivity].
Qed.

Section Decoder.
Context {pyfloat : Type}.
Variable json_loads : string -> option (@pyval pyfloat).
Variable strptime : string -> string -> option datetime.
Variable py_int : string -> option Z.
Variable py_float : string -> option pyfloat.

Local Abbreviation default_decode :=
  (Validation.default_decode json_loads strptime py_int py_float).

(** C7. The empty string decodes to [{}] for the dict types, [[]] for
    [list], [None] for [str], [int], [float] and [bool], and
    [datetime(1900, 1, 1)] for [datetime].  A non-empty timestamp is cut at
    its first ['.'] and what is before it is parsed against
    ["%Y-%m-%d %H:%M:%S"]. *)
Theorem default_decode_empty_and_timestamp :
  default_decode EmptyString T_dict = inr (PyDict []) /\
  default_decode EmptyString T_defaultdict = inr (PyDict []) /\
  default_decode EmptyString T_list = inr (PyList []) /\
  default_decode EmptyString T_str = inr PyNone /\
  default_decode EmptyString T_int = inr PyNone /\
  default_decode EmptyString T_float = inr PyNone /\
  default_decode EmptyString T_bool = inr PyNone /\
  default_decode EmptyString T_datetime = inr (PyDatetime (Datetime 1900 1 1 0 0 0)) /\
  DEFAULT_DATE_FORMAT_STR = "%Y-%m-%d %H:%M:%S"%string /\
  forall value : string, value <> EmptyString ->
    exists first : string,
      contains dot first = false /\
      (value = first \/ exists tail : string, value = (first ++ String dot tail)%string) /\
      default_decode value T_datetime =
        match strptime first DEFAULT_DATE_FORMAT_STR with
        | Some d => inr (PyDatetime d)
        | None => inl (ValueError first)
        end.
Proof.
  repeat (split; [reflexivity|]).
  intros value Hne.
  destruct (py_split_first dot value) as (first & others & Hsplit & Hclean & Hshape).
  exists first. split; [exact Hclean|]. split.
  - destruct Hshape as [[_ ->]|Htail]; auto.
  - unfold Validation.default_decode. rewrite Hsplit.
    destruct value; [contradiction|]. simpl.
    destruct (strptime first DEFAULT_DATE_FORMAT_STR); reflexivity.
Qed.

(** C9. Every non-empty string decodes as a [bool] to [True]; no error is
    possible on that branch. *)
Theorem default_decode_bool_nonempty (s : string) :
  s <> EmptyString -> default_decode s T_bool = inr (PyBool true).
Proof.
  intros Hne. destruct s; [contradiction|]. reflexivity.
Qed.

(** C10. For a declared type without a branch, [default_decode] returns
    [None] for every string and raises nothing. *)
Theorem default_decode_unhandled (value : string) (datatype : pytype) :
  handled datatype = false -> default_decode value datatype = inr PyNone.
Proof.
  destruct datatype; simpl; try discriminate. reflexivity.
Qed.

End Decoder.

(** ** The header check *)

Section Header.
Context {pyfloat : Type} `{EqDecision pyfloat}.

Lemma dom_column_index_from (header : list string) (start : Z) (m : gmap string Z) :
  dom (foldl (fun m ih => <[ih.2 := ih.1]> m) m (enumerate_from start header))
  = dom m ∪ list_to_set header.
Proof.
  revert start m. induction header as [|h header IH]; intros start m; simpl.
  - now rewrite union_empty_r_L.
  - rewrite IH, dom_insert_L, (comm_L (∪) {[h]} (dom m)). symmetry. apply (assoc_L (∪)).
Qed.

Lemma dom_column_index_of (header : list string) :
  dom (column_index_of header) = list_to_set header.
Proof.
  unfold column_index_of, enumerate. rewrite dom_column_index_from, dom_empty_L.
  apply union_empty_l_L.
Qed.

Lemma fst_field_name_to_metadata (dataclass_class : list (@field pyfloat))
    (default_decode_fn : string -> pytype -> decoded) (column_index : gmap string Z) :
  map fst (field_name_to_metadata dataclass_class default_decode_fn column_index)
  = map f_name dataclass_class.
Proof. unfold field_name_to_metadata. rewrite map_map. reflexivity. Qed.

Lemma decode_row_error (metas : list (string * @field_meta pyfloat)) (line : list string)
    (e : exn) :
  decode_row metas line = inl e ->
  e = TypeError \/ e = IndexError \/ exists de, e = DecodeError de.
Proof.
  induction metas as [|[name meta] metas IH]; simpl; [discriminate|].
  destruct (m_column_index meta); [|intros [= <-]; auto].
  destruct (py_list_get line _); [|intros [= <-]; auto].
  destruct (m_decode_fn meta _ _); [intros [= <-]; eauto|].
  destruct (decode_row metas line); [|discriminate].
  intros [= <-]. auto.
Qed.

(** The row loop never raises the header's error. *)
Lemma load_rows_no_schema_error (metas : list (string * @field_meta pyfloat))
    (dict_key_field : string) (unique_per_key : bool) (lines : list (list string))
    (output : table (list record)) (missing additional : gset string) :
  load_rows metas dict_key_field unique_per_key lines output
  <> inl (SchemaMismatch missing additional).
Proof.
  revert output. induction lines as [|line lines IH]; intros output; simpl; [discriminate|].
  destruct (decode_row metas line) as [e|obj] eqn:Ed.
  - apply decode_row_error in Ed. destruct Ed as [->|[->|[de ->]]]; discriminate.
  - unfold getattr. destruct (list_find _ obj) as [[? [? v]]|]; [|discriminate].
    destruct (to_key v); [|discriminate].
    destruct (tbl_append output v _ obj) as [output' cnt].
    destruct (unique_per_key && negb (cnt =? 1)%nat); [discriminate|apply IH].
Qed.

(** C5. When the header's column names and the dataclass's field names
    differ as sets, the load fails with the schema error carrying the fields
    missing from the CSV and the columns unknown to the dataclass, whatever
    the rows and the decoders are: no row is looked at.  When the two sets
    are equal, the load does not fail with that error. *)
Theorem header_checked_first (header : list string) (lines : list (list string))
    (dataclass_class : list (@field pyfloat)) (dict_key_field : string)
    (unique_per_key : bool) (default_decode_fn : string -> pytype -> decoded) :
  let csv_names : gset string := list_to_set header in
  let dn_names : gset string := list_to_set (map f_name dataclass_class) in
  (csv_names <> dn_names ->
   load_dataclass_dict_from_csv (header :: lines) dataclass_class dict_key_field
     unique_per_key default_decode_fn
   = inl (SchemaMismatch (dn_names ∖ csv_names) (csv_names ∖ dn_names))) /\
  (csv_names = dn_names ->
   forall missing additional : gset string,
     load_dataclass_dict_from_csv (header :: lines) dataclass_class dict_key_field
       unique_per_key default_decode_fn
     <> inl (SchemaMismatch missing additional)).
Proof.
  intros csv_names dn_names. unfold load_dataclass_dict_from_csv.
  rewrite fst_field_name_to_metadata, dom_column_index_of.
  fold csv_names dn_names. split; intros Hnames.
  - destruct (decide (csv_names = dn_names)); [contradiction|reflexivity].
  - intros missing additional.
    destruct (decide (csv_names = dn_names)); [|contradiction].
    apply load_rows_no_schema_error.
Qed.

End Header.

(** ** The row loop *)

Section Rows.
Context {pyfloat : Type} `{EqDecision pyfloat}.
Variable metas : list (string * @field_meta pyfloat).
Variable dict_key_field : string.

Local Abbreviation grouped := (@table pyfloat (list (@record pyfloat))).
Local Abbreviation row_key := (Validation.row_key metas dict_key_field).
Local Abbreviation repeats := (Validation.repeats metas dict_key_field).

Lemma row_key_to_key (line : list string) (obj : record) (v : pyval) (k : pykey) :
  row_key line = Some (obj, v, k) -> to_key v = Some k.
Proof.
  unfold row_key. destruct (decode_row metas line); [discriminate|].
  destruct (getattr _ _); [discriminate|].
  destruct (to_key p) eqn:E; [|discriminate]. intros [= _ <- <-]. exact E.
Qed.

Lemma load_rows_bad_row (unique_per_key : bool) (line : list string)
    (lines : list (list string)) (output : grouped) :
  row_key line = None ->
  exists e : exn,
    load_rows metas dict_key_field unique_per_key (line :: lines) output = inl e.
Proof.
  unfold row_key. simpl. destruct (decode_row metas line); [eauto|].
  destruct (getattr _ _); [eauto|].
  destruct (to_key _); [discriminate|eauto].
Qed.

Lemma load_rows_good_row (unique_per_key : bool) (line : list string)
    (lines : list (list string)) (output : grouped)
    (obj : record) (v : pyval) (k : pykey) :
  row_key line = Some (obj, v, k) ->
  load_rows metas dict_key_field unique_per_key (line :: lines) output =
  if unique_per_key && negb ((tbl_append output v k obj).2 =? 1)%nat
  then inl (MultipleEntries dict_key_field v)
  else load_rows metas dict_key_field unique_per_key lines (tbl_append output v k obj).1.
Proof.
  unfold row_key. simpl. destruct (decode_row metas line); [discriminate|].
  destruct (getattr _ _); [discriminate|].
  destruct (to_key _); [|discriminate]. intros [= -> -> ->].
  destruct (tbl_append output v k obj). reflexivity.
Qed.

Lemma tbl_append_absent (output : grouped) (v : pyval) (k : pykey)
    (obj : record) :
  tbl_lookup output k = None ->
  tbl_append output v k obj = (output ++ [(v, [obj])], 1%nat).
Proof.
  induction output as [|[k' objs] output IH]; simpl; [reflexivity|].
  destruct (key_matches k k'); [discriminate|].
  intros Hnone. rewrite (IH Hnone). reflexivity.
Qed.

Lemma tbl_append_present (output : grouped) (v : pyval) (k : pykey)
    (obj : record) (objs : list record) :
  tbl_lookup output k = Some objs ->
  (tbl_append output v k obj).2 = S (length objs).
Proof.
  induction output as [|[k' objs'] output IH]; simpl; [discriminate|].
  destruct (key_matches k k').
  - intros [= ->]. simpl. rewrite length_app. simpl. lia.
  - intros Hsome. specialize (IH Hsome).
    destruct (tbl_append output v k obj). exact IH.
Qed.

Lemma tbl_lookup_nonempty (output : grouped) (k : pykey)
    (objs : list record) :
  nonempty_lists output -> tbl_lookup output k = Some objs -> objs <> [].
Proof.
  induction 1 as [|[k' objs'] output Hne _ IH]; simpl; [discriminate|].
  destruct (key_matches k k'); [intros [= <-]; exact Hne|exact IH].
Qed.

Lemma tbl_lookup_app {V} (t : @table pyfloat V) (v : pyval) (x : V) (k : pykey) :
  tbl_lookup (t ++ [(v, x)]) k =
  match tbl_lookup t k with
  | Some y => Some y
  | None => if key_matches k v then Some x else None
  end.
Proof.
  induction t as [|[k' y] t IH]; simpl; [reflexivity|].
  destruct (key_matches k k'); [reflexivity|exact IH].
Qed.

(** With [unique_per_key], a line that decodes either meets a key the
    table holds, which is the integrity error, or adds a new entry of one
    instance at the end. *)
Lemma load_rows_unique_step (line : list string) (lines : list (list string))
    (output : grouped) (obj : record) (v : pyval) (k : pykey) :
  nonempty_lists output ->
  row_key line = Some (obj, v, k) ->
  load_rows metas dict_key_field true (line :: lines) output =
  match tbl_lookup output k with
  | Some _ => inl (MultipleEntries dict_key_field v)
  | None => load_rows metas dict_key_field true lines (output ++ [(v, [obj])])
  end.
Proof.
  intros Hne Hrow. rewrite (load_rows_good_row _ _ _ _ _ _ _ Hrow).
  destruct (tbl_lookup output k) as [objs|] eqn:El.
  - rewrite (tbl_append_present _ _ _ _ _ El).
    pose proof (tbl_lookup_nonempty _ _ _ Hne El) as Hobjs.
    destruct objs; [contradiction|reflexivity].
  - rewrite (tbl_append_absent _ _ _ _ El). reflexivity.
Qed.

Lemma repeats_head (output : grouped) (line0 : list string) (lines : list (list string))
    (v : pyval) (obj0 : record) (v0 : pyval) (k0 : pykey) :
  row_key line0 = Some (obj0, v0, k0) ->
  repeats output (line0 :: lines) 0 v ->
  v = v0 /\ is_Some (tbl_lookup output k0).
Proof.
  intros Hrow (line & obj & k & Hl & Hk & Hdup). simpl in Hl. injection Hl as <-.
  rewrite Hrow in Hk. injection Hk as <- <- <-.
  destruct Hdup as [Hin|(i & _ & _ & _ & Hi & _)]; [auto|lia].
Qed.

Lemma lookup_after_append (output : grouped) (obj0 : record) (v0 : pyval) (k0 k : pykey) :
  to_key v0 = Some k0 ->
  is_Some (tbl_lookup (output ++ [(v0, [obj0])]) k) <->
  is_Some (tbl_lookup output k) \/ k = k0.
Proof.
  intros Hk0. rewrite tbl_lookup_app. unfold key_matches. rewrite Hk0.
  destruct (tbl_lookup output k) as [objs|].
  - split; eauto.
  - destruct (bool_decide_reflect (Some k0 = Some k)) as [[= ->]|Hne].
    + split; eauto.
    + split.
      * intros [? [=]].
      * intros [[? [=]]| ->]. contradiction.
Qed.

Lemma repeats_tail (output : grouped) (line0 : list string) (lines : list (list string))
    (j : nat) (v : pyval) (obj0 : record) (v0 : pyval) (k0 : pykey) :
  row_key line0 = Some (obj0, v0, k0) ->
  repeats output (line0 :: lines) (S j) v <->
  repeats (output ++ [(v0, [obj0])]) lines j v.
Proof.
  intros Hrow. pose proof (row_key_to_key _ _ _ _ Hrow) as Hk0. split.
  - intros (line & obj & k & Hl & Hk & Hdup). exists line, obj, k.
    split; [exact Hl|]. split; [exact Hk|].
    destruct Hdup as [Hin|(i & line' & obj' & v' & Hi & Hl' & Hk')].
    + left. apply (lookup_after_append _ _ _ _ _ Hk0). auto.
    + destruct i as [|i].
      * left. apply (lookup_after_append _ _ _ _ _ Hk0). right.
        simpl in Hl'. injection Hl' as <-. rewrite Hrow in Hk'. now injection Hk'.
      * right. exists i, line', obj', v'. split; [lia|auto].
  - intros (line & obj & k & Hl & Hk & Hdup). exists line, obj, k.
    split; [exact Hl|]. split; [exact Hk|].
    destruct Hdup as [Hin|(i & line' & obj' & v' & Hi & Hl' & Hk')].
    + apply (lookup_after_append _ _ _ _ _ Hk0) in Hin. destruct Hin as [Hin| ->].
      * left. exact Hin.
      * right. exists 0%nat, line0, obj0, v0. split; [lia|auto].
    + right. exists (S i), line', obj', v'. split; [lia|auto].
Qed.

(** A repeated key makes the unique load fail; when the lines up to the
    repetition decode, it fails with the integrity error naming a repeated
    key value. *)
Lemma load_rows_repeats (lines : list (list string)) :
  forall (output : grouped) (j : nat) (v : pyval),
    nonempty_lists output ->
    repeats output lines j v ->
    (exists e : exn, load_rows metas dict_key_field true lines output = inl e) /\
    ((forall (n : nat) (line : list string),
         (n < j)%nat -> lines !! n = Some line -> is_Some (row_key line)) ->
     exists (j' : nat) (v' : pyval),
       (j' <= j)%nat /\ repeats output lines j' v' /\
       load_rows metas dict_key_field true lines output
       = inl (MultipleEntries dict_key_field v')).
Proof.
  induction lines as [|line0 lines IH]; intros output j v Hne Hrep.
  - destruct Hrep as (line & _ & _ & Hl & _). discriminate.
  - destruct (row_key line0) as [[[obj0 v0] k0]|] eqn:Hrow.
    + rewrite (load_rows_unique_step _ _ _ _ _ _ Hne Hrow).
      destruct (tbl_lookup output k0) as [objs|] eqn:El.
      * split; [eauto|]. intros _. exists 0%nat, v0. split; [lia|]. split; [|reflexivity].
        exists line0, obj0, k0. rewrite El. eauto.
      * destruct j as [|j].
        { destruct (repeats_head _ _ _ _ _ _ _ Hrow Hrep) as [_ [? Hsome]]. congruence. }
        apply (repeats_tail _ _ _ _ _ _ _ _ Hrow) in Hrep.
        assert (nonempty_lists (output ++ [(v0, [obj0])])) as Hne'.
        { apply Forall_app. split; [exact Hne|]. repeat constructor. discriminate. }
        destruct (IH _ _ _ Hne' Hrep) as [Hfail Hnamed]. split; [exact Hfail|].
        intros Hdec.
        destruct Hnamed as (j' & v' & Hj' & Hrep' & Hres).
        { intros n line Hn Hl. apply (Hdec (S n)); [lia|exact Hl]. }
        exists (S j'), v'. split; [lia|]. split; [|exact Hres].
        apply (repeats_tail _ _ _ _ _ _ _ _ Hrow). exact Hrep'.
    + split; [apply load_rows_bad_row, Hrow|]. intros Hdec. exfalso.
      destruct j as [|j].
      * destruct Hrep as (line & obj & k & Hl & Hk & _). simpl in Hl. injection Hl as <-.
        congruence.
      * destruct (Hdec 0%nat line0 ltac:(lia) eq_refl) as [? Hsome]. congruence.
Qed.

End Rows.

(** ** Key uniqueness *)

Section Unique.
Context {pyfloat : Type} `{EqDecision pyfloat}.


End Unique.

(** ** What the manifests expose *)

Section Manifests.
Context {pyfloat : Type} `{EqDecision pyfloat}.

Local Abbreviation grouped := (@table pyfloat (list (@record pyfloat))).

Lemma singletons_nonempty (t : grouped) : singletons t -> nonempty_lists t.
Proof.
  intros Hs. eapply Forall_impl; [exact Hs|]. intros e [r Hr]. rewrite Hr. discriminate.
Qed.

Lemma load_rows_singletons (metas : list (string * @field_meta pyfloat))
    (dict_key_field : string) (lines : list (list string)) :
  forall output t : grouped,
    singletons output ->
    load_rows metas dict_key_field true lines output = inr t -> singletons t.
Proof.
  induction lines as [|line lines IH]; intros output t Hs.
  - simpl. now intros [= <-].
  - destruct (row_key metas dict_key_field line) as [[[obj v] k]|] eqn:Hrow.
    + rewrite (load_rows_unique_step _ _ _ _ _ _ _ _ (singletons_nonempty _ Hs) Hrow).
      destruct (tbl_lookup output k); [discriminate|].
      apply IH. apply Forall_app. split; [exact Hs|]. repeat constructor. simpl. eauto.
    + destruct (load_rows_bad_row metas dict_key_field true line lines output Hrow)
        as [e ->]. discriminate.
Qed.

Lemma load_unique_singletons (csvfile : list (list string))
    (dataclass_class : list (@field pyfloat)) (dict_key_field : string)
    (default_decode_fn : string -> pytype -> decoded) (t : grouped) :
  load_dataclass_dict_from_csv csvfile dataclass_class dict_key_field true
    default_decode_fn = inr t ->
  singletons t.
Proof.
  unfold load_dataclass_dict_from_csv. destruct csvfile as [|header lines]; [discriminate|].
  destruct (decide _); [|discriminate].
  apply load_rows_singletons. constructor.
Qed.

Lemma first_per_key_unwraps (loaded : grouped) (t : table record) :
  singletons loaded -> first_per_key loaded = inr t -> unwrapped loaded (ByKey t).
Proof.
  intros Hs Hf. exists t. split; [reflexivity|]. revert t Hf.
  induction Hs as [|[k vs] loaded [r Hr] Hs IH]; intros t; simpl.
  - intros [= <-]. constructor.
  - simpl in Hr. subst vs. simpl.
    destruct (first_per_key loaded) as [e|t']; [discriminate|].
    intros [= <-]. constructor; [simpl; auto|]. now apply IH.
Qed.

Section Assemblers.
Variable json_loads : string -> option (@pyval pyfloat).
Variable strptime : string -> string -> option datetime.
Variable py_int : string -> option Z.
Variable py_float : string -> option pyfloat.

Local Abbreviation load := (Validation.load json_loads strptime py_int py_float).
Local Abbreviation load_required :=
  (Validation.load_required json_loads strptime py_int py_float).
Local Abbreviation load_optional :=
  (Validation.load_optional json_loads strptime py_int py_float).
Local Abbreviation load_first_found :=
  (Validation.load_first_found json_loads strptime py_int py_float).
Local Abbreviation load_manifest :=
  (Validation.load_manifest json_loads strptime py_int py_float).
Local Abbreviation load_egoexo_manifest :=
  (Validation.load_egoexo_manifest json_loads strptime py_int py_float).

Lemma load_required_singletons (manifest_dir : string) (available_files : directory)
    (file_name : string) (dataclass_class : list field) (dict_key_field : string)
    (t : grouped) :
  load_required manifest_dir available_files file_name dataclass_class dict_key_field true
    = inr t ->
  singletons t.
Proof.
  unfold Validation.load_required, Validation.load.
  destruct (available_files !! file_name); [apply load_unique_singletons|discriminate].
Qed.

Lemma load_optional_singletons (available_files : directory) (file_name : string)
    (dataclass_class : list field) (dict_key_field : string) (t : grouped) :
  load_optional available_files file_name dataclass_class dict_key_field true [] id
    = inr t ->
  singletons t.
Proof.
  unfold Validation.load_optional, Validation.load.
  destruct (available_files !! file_name) as [csvfile|]; [|intros [= <-]; constructor].
  destruct (load_dataclass_dict_from_csv csvfile _ _ _ _) as [e|t'] eqn:El; [discriminate|].
  simpl. intros [= <-]. eapply load_unique_singletons, El.
Qed.

Lemma load_first_found_singletons (available_files : directory) (file_names : list string)
    (dataclass_class : list field) (dict_key_field : string) (t : grouped) :
  load_first_found available_files file_names dataclass_class dict_key_field true = inr t ->
  singletons t.
Proof.
  induction file_names as [|file_name rest IH]; simpl.
  - intros [= <-]. constructor.
  - destruct (available_files !! file_name); [apply load_unique_singletons|exact IH].
Qed.

(** The core assembler: the four tables loaded with [unique_per_key=True]
    are exposed with the one-element lists unwrapped, the three others as
    the loader returned them. *)
Lemma load_manifest_exposes (manifest_dir : string) (available_files : directory)
    (m : Manifest) :
  load_manifest manifest_dir available_files = inr m ->
  exists vm vc aux pd sv ph an : grouped,
    load_required manifest_dir available_files "video_metadata.csv"
      VideoMetadata "university_video_id" true = inr vm /\
    load_required manifest_dir available_files "video_component_file.csv"
      VideoComponentFile "university_video_id" false = inr vc /\
    load_optional available_files "auxiliary_video_component_data_file.csv"
      AuxiliaryVideoComponentDataFile "university_video_id" false [] id = inr aux /\
    load_first_found available_files
      ["participant_data.csv"; "participant.csv"; "participant_metadata.csv"]
      Particpant "participant_id" true = inr pd /\
    load_optional available_files "synchronized_videos.csv"
      SynchronizedVideos "video_grouping_id" true [] id = inr sv /\
    load_optional available_files "physical_setting.csv"
      PhysicalSetting "setting_id" true [] id = inr ph /\
    load_optional available_files "annotations.csv"
      Annotations "university_video_id" false [] id = inr an /\
    unwrapped vm (videos m) /\ unwrapped pd (participants m) /\
    unwrapped sv (sync_videos m) /\ unwrapped ph (physical_setting m) /\
    video_components m = ByKeyList vc /\ aux_components m = ByKeyList aux /\
    annotations m = ByKeyList an.
Proof.
  unfold Validation.load_manifest.
  destruct (load_required _ _ "video_metadata.csv" _ _ _) as [e|vm] eqn:E1; [discriminate|].
  destruct (load_required _ _ "video_component_file.csv" _ _ _) as [e|vc] eqn:E2;
    [discriminate|].
  destruct (load_optional _ "auxiliary_video_component_data_file.csv" _ _ _ _ _)
    as [e|aux] eqn:E3; [discriminate|].
  destruct (load_first_found _ _ _ _ _) as [e|pd] eqn:E4; [discriminate|].
  destruct (load_optional _ "synchronized_videos.csv" _ _ _ _ _) as [e|sv] eqn:E5;
    [discriminate|].
  destruct (load_optional _ "physical_setting.csv" _ _ _ _ _) as [e|ph] eqn:E6;
    [discriminate|].
  destruct (load_optional _ "annotations.csv" _ _ _ _ _) as [e|an] eqn:E7; [discriminate|].
  cbn [bind].
  destruct (first_per_key vm) as [e|vs] eqn:F1; [discriminate|].
  destruct (first_per_key pd) as [e|ps] eqn:F2; [discriminate|].
  destruct (first_per_key sv) as [e|ss] eqn:F3; [discriminate|].
  destruct (first_per_key ph) as [e|phs] eqn:F4; [discriminate|].
  cbn [bind]. intros [= <-]. exists vm, vc, aux, pd, sv, ph, an. simpl.
  repeat (split; [reflexivity|]).
  split; [eapply first_per_key_unwraps, F1; eapply load_required_singletons, E1|].
  split; [eapply first_per_key_unwraps, F2; eapply load_first_found_singletons, E4|].
  split; [eapply first_per_key_unwraps, F3; eapply load_optional_singletons, E5|].
  split; [eapply first_per_key_unwraps, F4; eapply load_optional_singletons, E6|].
  auto.
Qed.

(** The ego-exo assembler stores what the loader returned, for the tables
    loaded with [unique_per_key=True] like for the others. *)
Lemma load_egoexo_manifest_keeps_lists (manifest_dir : string)
    (available_files : directory) (m : ManifestEgoExo) :
  load_egoexo_manifest manifest_dir available_files = inr m ->
  (exists cap : grouped,
      load_required manifest_dir available_files "capture_metadata.csv"
        CaptureMetadataEgoExo "university_capture_id" true = inr cap /\
      ee_captures m = ByKeyList cap) /\
  load_optional available_files "object_metadata.csv"
    ObjectMetadataEgoExo "university_object_id" true IsNone ByKeyList
    = inr (ee_objects m) /\
  load_optional available_files "physical_setting.csv"
    PhysicalSettingEgoExo "setting_id" true IsNone ByKeyList
    = inr (ee_physical_setting m) /\
  load_optional available_files "participant_metadata.csv"
    ParticipantMetadataEgoExo "participant_id" true IsNone ByKeyList
    = inr (ee_participants m).
Proof.
  unfold Validation.load_egoexo_manifest.
  destruct (load_required _ _ "capture_metadata.csv" _ _ _) as [e|cap]; [discriminate|].
  destruct (load_required _ _ "take_metadata.csv" _ _ _) as [e|tk]; [discriminate|].
  destruct (load_required _ _ "video_metadata.csv" _ _ _) as [e|vm]; [discriminate|].
  destruct (load_required _ _ "video_component_file.csv" _ _ _) as [e|vc]; [discriminate|].
  destruct (load_optional _ "colmap_metadata.csv" _ _ _ _ _) as [e|co]; [discriminate|].
  destruct (load_optional _ "object_metadata.csv" _ _ _ _ _) as [e|ob]; [discriminate|].
  destruct (load_optional _ "physical_setting.csv" _ _ _ _ _) as [e|ph]; [discriminate|].
  destruct (load_optional _ "participant_metadata.csv" _ _ _ _ _) as [e|pa]; [discriminate|].
  destruct (load_optional _ "extra_data.csv" _ _ _ _ _) as [e|ex]; [discriminate|].
  cbn [bind]. intros [= <-]. simpl.
  split; [eexists; split; reflexivity|]. repeat split; reflexivity.
Qed.

End Assemblers.

End Manifests.

(** ** The theorems at the examples *)

Section AtExamples.
Import Examples.

Local Abbreviation load_egoexo_manifest :=
  (Validation.load_egoexo_manifest ex_json_loads ex_strptime ex_int ex_float).
Local Abbreviation load_manifest :=
  (Validation.load_manifest ex_json_loads ex_strptime ex_int ex_float).

(** C1 on the ego-exo assembler.  For a directory with one capture and one
    physical setting, both in tables loaded with [unique_per_key=True],
    [load_egoexo_manifest] succeeds and its [captures] and
    [physical_setting] hold the loader's lists of one instance, not the
    instances: the unwrapping [load_manifest] does is missing.  On a core
    directory with the same setting, [load_manifest] exposes the instance. *)
Theorem egoexo_unique_tables_not_unwrapped :
  (exists m : ManifestEgoExo,
      load_egoexo_manifest "manifest" ex_egoexo_dir = inr m /\
      ee_captures m = ByKeyList [(PyStr "cap1", [ex_capture_record])] /\
      ~ unwrapped [(PyStr "cap1", [ex_capture_record])] (ee_captures m) /\
      ee_physical_setting m = ByKeyList [(PyStr "s1", [ex_setting_record])] /\
      ~ unwrapped [(PyStr "s1", [ex_setting_record])] (ee_physical_setting m)) /\
  (exists m : Manifest,
      load_manifest "manifest" ex_core_dir = inr m /\
      physical_setting m =
        ByKey [(PyStr "s1",
                [("setting_id", PyStr "s1"); ("name", PyStr "kitchen");
                 ("associated_matterport_scan_path", PyStr "scans/s1")])]).
Proof.
  split.
  - eexists. split; [vm_compute; reflexivity|]. simpl.
    split; [reflexivity|]. split; [intros (t & Hby & _); discriminate|].
    split; [reflexivity|]. intros (t & Hby & _). discriminate.
  - eexists. split; [vm_compute; reflexivity|]. reflexivity.
Qed.


Lemma header_checked_first_witness :
  (list_to_set ["setting_id"; "label"] : gset string)
    <> list_to_set (map f_name (@PhysicalSettingEgoExo string)) /\
  load_dataclass_dict_from_csv ex_settings_bad_header PhysicalSettingEgoExo "setting_id"
    true ex_decode
  = inl (SchemaMismatch
           (list_to_set (map f_name (@PhysicalSettingEgoExo string))
              ∖ list_to_set ["setting_id"; "label"])
           (list_to_set ["setting_id"; "label"]
              ∖ list_to_set (map f_name (@PhysicalSettingEgoExo string)))) /\
  elements (list_to_set (map f_name (@PhysicalSettingEgoExo string))
              ∖ list_to_set ["setting_id"; "label"] : gset string) = ["name"] /\
  elements (list_to_set ["setting_id"; "label"]
              ∖ list_to_set (map f_name (@PhysicalSettingEgoExo string)) : gset string)
    = ["label"].
Proof.
  assert ((list_to_set ["setting_id"; "label"] : gset string)
            <> list_to_set (map f_name (@PhysicalSettingEgoExo string))) as Hne.
  { apply (bool_decide_unpack _). vm_compute. exact I. }
  split; [exact Hne|]. split.
  - exact (proj1 (header_checked_first ["setting_id"; "label"] [["s1"; "kitchen"]]
                    PhysicalSettingEgoExo "setting_id" true ex_decode) Hne).
  - split; vm_compute; reflexivity.
Defined.

Lemma default_decode_empty_and_timestamp_witness :
  "2023-01-02 03:04:05.678"%string <> EmptyString /\
  exists first : string,
    contains dot first = false /\
    ("2023-01-02 03:04:05.678"%string = first \/
     exists tail : string,
       "2023-01-02 03:04:05.678"%string = (first ++ String dot tail)%string) /\
    ex_decode "2023-01-02 03:04:05.678" T_datetime =
      match ex_strptime first DEFAULT_DATE_FORMAT_STR with
      | Some d => inr (PyDatetime d)
      | None => inl (ValueError first)
      end.
Proof.
  assert ("2023-01-02 03:04:05.678"%string <> EmptyString) as Hne by discriminate.
  split; [exact Hne|].
  exact (proj2 (proj2 (proj2 (proj2 (proj2 (proj2 (proj2 (proj2 (proj2
           (default_decode_empty_and_timestamp ex_json_loads ex_strptime ex_int
              ex_float))))))))) _ Hne).
Defined.

(** The timestamp of the example, with its fraction, decodes to the second. *)
Example default_decode_fraction_dropped :
  ex_decode "2023-01-02 03:04:05.678" T_datetime
  = inr (PyDatetime (Datetime 2023 1 2 3 4 5)).
Proof. vm_compute. reflexivity. Qed.

Lemma default_decode_bool_nonempty_witness :
  "False"%string <> EmptyString /\ ex_decode "False" T_bool = inr (PyBool true).
Proof.
  assert ("False"%string <> EmptyString) as Hne by discriminate.
  split; [exact Hne|].
  exact (default_decode_bool_nonempty ex_json_loads ex_strptime ex_int ex_float
           "False" Hne).
Defined.

Example default_decode_bool_zero : ex_decode "0" T_bool = inr (PyBool true).
Proof. reflexivity. Qed.

Lemma default_decode_unhandled_witness :
  handled (T_other "List[int]") = false /\
  ex_decode "[1, 2]" (T_other "List[int]") = inr PyNone.
Proof.
  split; [reflexivity|].
  exact (default_decode_unhandled ex_json_loads ex_strptime ex_int ex_float
           "[1, 2]" (T_other "List[int]") eq_refl).
Defined.

End AtExamples.

End ValidationProps.

(** * Further properties of the lazy index *)

Module DatasetMore.
Import Dataset DatasetProps.

(** ** The table as prefix sums *)

Lemma sum_nonneg (xs : list Z) : Forall (Z.le 0) xs -> 0 <= foldr Z.add 0 xs.
Proof. induction 1; simpl; lia. Qed.

Lemma sum_take_le (xs : list Z) (c : nat) :
  Forall (Z.le 0) xs -> foldr Z.add 0 (take c xs) <= foldr Z.add 0 xs.
Proof.
  intros Hall. revert c. induction Hall as [|x xs Hx Hall IH]; intros [|c]; simpl; try lia.
  - pose proof (sum_nonneg xs Hall). lia.
  - specialize (IH c). lia.
Qed.

Lemma cumsum_from_exact (xs : list Z) :
  forall (acc : Z) (c : nat),
    0 <= acc -> Forall (Z.le 0) xs -> acc + foldr Z.add 0 xs <= int64_max ->
    (c <= length xs)%nat ->
    nth c (acc :: cumsum_from acc xs) 0 = acc + foldr Z.add 0 (take c xs).
Proof.
  induction xs as [|x xs IH]; intros acc c Hacc Hall Hsum Hc.
  - simpl in Hc. assert (c = 0%nat) as -> by lia. simpl. lia.
  - inversion Hall as [|? ? Hx Hxs]; subst. simpl in Hsum.
    pose proof (sum_nonneg xs Hxs) as Hrest.
    destruct c as [|c]; [simpl; lia|].
    cbn [cumsum_from take foldr].
    rewrite wrap64_small by (unfold int64_min, int64_max in *; lia).
    change (nth c (acc + x :: cumsum_from (acc + x) xs) 0
            = acc + (x + foldr Z.add 0 (take c xs))).
    rewrite IH; [lia|lia|assumption|lia|simpl in Hc; lia].
Qed.

Lemma torch_cumsum_fits (xs : list Z) :
  Forall (Z.le 0) xs -> foldr Z.add 0 xs <= int64_max ->
  torch_cumsum xs = inr (cumsum_from 0 xs).
Proof.
  intros Hall Hsum. unfold torch_cumsum.
  destruct (List.find _ xs) as [z|] eqn:Ef; [|reflexivity].
  apply List.find_some in Ef. destruct Ef as [Hin Hbad].
  pose proof (sum_take_le xs) as _.
  assert (0 <= z <= foldr Z.add 0 xs) as Hz.
  { clear Hbad Hsum. induction Hall as [|x xs Hx Hall IH]; [destruct Hin|].
    simpl. pose proof (sum_nonneg xs Hall). destruct Hin as [->|Hin]; [lia|].
    specialize (IH Hin). lia. }
  unfold fits_int64, int64_min, int64_max in *.
  apply negb_true_iff, andb_false_iff in Hbad. destruct Hbad as [Hb|Hb].
  - apply Z.leb_gt in Hb. lia.
  - apply Z.leb_gt in Hb. lia.
Qed.

Section PrefixSums.
Variable cont_len : handle -> N.

(** X1. When the per-container counts are non-negative and their total
    fits int64, the table of a new dataset has one entry more than there
    are containers, entry [c] is the total of the first [c] counts, and
    [__len__] is the total of all counts. *)
Theorem table_is_prefix_sums (paths0 : list string) (max_num_frames_per_video : option Z)
    (paths_to_n_frames : option (gmap string Z)) (w w' : world) (d : VideoDataset)
    (counts : list Z) :
  init cont_len paths0 max_num_frames_per_video paths_to_n_frames w = (inr d, w') ->
  (frame_counts cont_len (py_sorted paths0) max_num_frames_per_video paths_to_n_frames w).1.1
    = inr counts ->
  Forall (Z.le 0) counts -> foldr Z.add 0 counts <= int64_max ->
  length (fs_cumsum d) = S (length counts) /\
  length counts = length paths0 /\
  (forall c : nat, (c <= length counts)%nat -> cum d c = foldr Z.add 0 (take c counts)) /\
  len d = inr (foldr Z.add 0 counts).
Proof.
  unfold init.
  destruct (frame_counts _ _ _ _ _) as [[cnts cs] w1] eqn:Ef. simpl.
  intros Hinit -> Hall Hsum.
  assert (length counts = length paths0) as Hlen.
  { unfold frame_counts in Ef. destruct paths_to_n_frames as [n2f|].
    - injection Ef as Hl _ _. apply lookup_all_Forall2, Forall2_length in Hl.
      rewrite <- Hl. apply Permutation_length, merge_sort_Permutation.
    - pose proof (open_all_paths (py_sorted paths0) w) as (Hp & _ & _).
      destruct (open_all _ _) as [cs' w2]. injection Ef as <- _ _.
      rewrite length_map. rewrite <- (length_map fst cs'). simpl in Hp. rewrite Hp.
      apply Permutation_length, merge_sort_Permutation. }
  rewrite (torch_cumsum_fits counts Hall Hsum) in Hinit. injection Hinit as <- _.
  unfold cum, len. simpl fs_cumsum.
  assert (forall c : nat, (c <= length counts)%nat ->
            nth c (0 :: cumsum_from 0 counts) 0 = foldr Z.add 0 (take c counts)) as Hnth.
  { intros c Hc. rewrite cumsum_from_exact by (auto; lia). lia. }
  split; [simpl; now rewrite length_cumsum_from|]. split; [exact Hlen|].
  split; [exact Hnth|].
  rewrite py_list_get_last. simpl length. rewrite length_cumsum_from. simpl pred.
  destruct (nth_lookup_or_length (0 :: cumsum_from 0 counts) (length counts) 0) as [Hl|Hl].
  - rewrite Hl, Hnth by lia. now rewrite firstn_all.
  - simpl in Hl. rewrite length_cumsum_from in Hl. lia.
Qed.

End PrefixSums.

(** ** Lookups and the table *)

Lemma len_of_wf (d : VideoDataset) :
  wf d -> len d = inr (cum d (pred (length (fs_cumsum d)))).
Proof.
  intros Hwf. destruct (wf_head d Hwf) as [Hpos _].
  unfold len, cum. rewrite py_list_get_last.
  destruct (nth_lookup_or_length (fs_cumsum d) (pred (length (fs_cumsum d))) 0) as [->|];
    [reflexivity|lia].
Qed.

Lemma wf_nondecreasing (d : VideoDataset) : wf d -> nondecreasing (fs_cumsum d).
Proof. intros (_ & Hs & _). now apply sorted_nondecreasing. Qed.

Lemma getitem_keeps_table {Item} (cont_getitem : handle -> Z -> Item)
    (d : VideoDataset) (w : world) (i : Z) :
  fs_cumsum (getitem cont_getitem d w i).1.1.2 = fs_cumsum d /\
  paths (getitem cont_getitem d w i).1.1.2 = paths d.
Proof.
  unfold getitem. destruct (conts d !! _) as [[p [h|]]|] eqn:E; simpl; auto.
  - rewrite E. destruct (py_list_get _ _); auto.
  - rewrite lookup_insert_eq. destruct (py_list_get _ _); auto.
Qed.

(** The containers one call opens hold at least one item. *)
Lemma getitem_opens_nonempty {Item} (cont_getitem : handle -> Z -> Item)
    (d : VideoDataset) (w : world) (i k : Z) :
  wf d -> k ∈ (getitem cont_getitem d w i).2 ->
  exists c : nat,
    k = Z.of_nat c /\ (S c < length (fs_cumsum d))%nat /\ cum d c < cum d (S c).
Proof.
  intros Hwf Hk. pose proof (len_of_wf d Hwf) as Hlen.
  destruct (decide (0 <= i < cum d (pred (length (fs_cumsum d))))) as [Hin|Hout].
  - destruct (getitem_in_range cont_getitem d w i _ Hwf Hlen Hin)
      as (c & p & oh & _ & HcN & Hrange & _ & Hget).
    rewrite Hget in Hk. unfold resolved in Hk. destruct oh; simpl in Hk.
    + inversion Hk.
    + apply list_elem_of_singleton in Hk. exists c. split; [exact Hk|]. split; [exact HcN|lia].
  - pose proof (bisect_out_of_range d i _ Hwf Hlen Hout) as Hnone.
    unfold getitem in Hk. rewrite Hnone in Hk. inversion Hk.
Qed.

Section Table.
Context {Item : Type}.
Variable cont_getitem : handle -> Z -> Item.

(** X2. In a well-formed dataset every item of every container has a
    global index: item [l] of container [c], for [0 <= l] below the
    container's count, is what [__getitem__(cumulative[c] + l)] retrieves,
    from that container. *)
Theorem every_local_item_reachable (d : VideoDataset) (w : world) (c : nat) (l : Z) :
  wf d -> (S c < length (fs_cumsum d))%nat -> 0 <= l < cum d (S c) - cum d c ->
  exists (p : string) (oh : option handle),
    conts d !! Z.of_nat c = Some (p, oh) /\
    (getitem cont_getitem d w (cum d c + l)).1.1.1
      = inr (cont_getitem (default (Handle p w) oh) l) /\
    (getitem cont_getitem d w (cum d c + l)).2
      = match oh with Some _ => [] | None => [Z.of_nat c] end.
Proof.
  intros Hwf HcN Hl.
  pose proof (wf_nondecreasing d Hwf) as Hmono.
  destruct (wf_head d Hwf) as [_ H0].
  assert (0 <= cum d c) as Hc0
    by (pose proof (Hmono 0%nat c ltac:(lia)); unfold cum; lia).
  assert (cum d (S c) <= cum d (pred (length (fs_cumsum d)))) as Hlast
    by (apply Hmono; lia).
  destruct (getitem_in_range cont_getitem d w (cum d c + l) _ Hwf (len_of_wf d Hwf)
              ltac:(lia)) as (c' & p & oh & Hp & HcN' & Hrange & Hright & Hget).
  assert (c <= c')%nat as Hle by (apply Hright; lia).
  assert (c' = c) as ->.
  { destruct (decide (c' = c)) as [|Hne]; [assumption|exfalso].
    assert (cum d (S c) <= cum d c') by (apply Hmono; lia). lia. }
  exists p, oh. split; [exact Hp|]. rewrite Hget. unfold resolved.
  replace (cum d c + l - cum d c) with l by lia.
  destruct oh; simpl; auto.
Qed.

(** X3. Over any sequence of lookups on a well-formed dataset, every
    container that gets opened holds at least one item: a container
    without items is never opened by [__getitem__]. *)
Theorem lookups_never_open_empty (d : VideoDataset) (w : world) (idxs : list Z) (k : Z) :
  wf d -> k ∈ (getitems cont_getitem d w idxs).2 ->
  exists c : nat,
    k = Z.of_nat c /\ (S c < length (fs_cumsum d))%nat /\ cum d c < cum d (S c).
Proof.
  revert d w. induction idxs as [|i idxs IH]; intros d w Hwf.
  - simpl. intros Hk. inversion Hk.
  - rewrite getitems_cons. cbv zeta. simpl. rewrite elem_of_app. intros [Hk|Hk].
    + eapply getitem_opens_nonempty; eauto.
    + destruct (getitem_keeps_table cont_getitem d w i) as [Hfs _].
      apply IH in Hk; [|now apply getitem_wf].
      unfold cum in *. rewrite Hfs in Hk. exact Hk.
Qed.

(** X4. Lookups never change the index space: after any sequence of
    [__getitem__] calls, failed ones included, the paths, the cumulative
    table and the length are what they were, the dataset is still well
    formed, and every container is still numbered and named as before. *)
Theorem lookups_keep_index_space (d : VideoDataset) (w : world) (idxs : list Z) :
  wf d ->
  let d' := (getitems cont_getitem d w idxs).1.1 in
  wf d' /\ paths d' = paths d /\ fs_cumsum d' = fs_cumsum d /\ len d' = len d /\
  forall (k : Z) (p : string) (oh : option handle),
    conts d !! k = Some (p, oh) -> exists oh' : option handle, conts d' !! k = Some (p, oh').
Proof.
  revert d w. induction idxs as [|i idxs IH]; intros d w Hwf; cbv zeta.
  - simpl. split; [exact Hwf|]. repeat (split; [reflexivity|]). eauto.
  - rewrite getitems_cons. cbv zeta. simpl.
    destruct (getitem_keeps_table cont_getitem d w i) as [Hfs Hps].
    pose proof (getitem_effect cont_getitem d w i) as Heff. cbv zeta in Heff.
    specialize (IH _ (getitem cont_getitem d w i).1.2 (getitem_wf cont_getitem d w i Hwf)).
    cbv zeta in IH. destruct IH as (Hwf' & Hp' & Hf' & Hl' & Hc').
    split; [exact Hwf'|]. split; [congruence|]. split; [congruence|].
    split; [rewrite Hl'; unfold len; now rewrite Hfs|].
    intros k p oh Hk.
    destruct Heff as [(_ & Hc & _)|(k' & p' & _ & Hk' & Hc & _)].
    + apply (Hc' k p oh). now rewrite Hc.
    + destruct (decide (k' = k)) as [->|Hne].
      * apply (Hc' k p (Some (Handle p' w))). rewrite Hc, lookup_insert_eq. congruence.
      * apply (Hc' k p oh). now rewrite Hc, lookup_insert_ne.
Qed.

End Table.

(** ** The order of the paths *)

Lemma ascii_compare_refl (a : ascii) : Ascii.compare a a = Eq.
Proof. unfold Ascii.compare. apply N.compare_refl. Qed.

Lemma str_le_trans (x y z : string) : str_le x y -> str_le y z -> str_le x z.
Proof.
  unfold str_le, String.leb. revert y z.
  induction x as [|a x IH]; intros [|b y] [|c z]; simpl; try congruence.
  unfold Ascii.compare.
  destruct (N.compare_spec (N_of_ascii a) (N_of_ascii b)) as [Hab|Hab|Hab];
    destruct (N.compare_spec (N_of_ascii b) (N_of_ascii c)) as [Hbc|Hbc|Hbc];
    destruct (N.compare_spec (N_of_ascii a) (N_of_ascii c)) as [Hac|Hac|Hac];
    try congruence; try lia.
  apply IH.
Qed.

Global Instance str_le_transitive : Transitive str_le.
Proof. intros x y z. apply str_le_trans. Qed.

Global Instance str_le_antisymm : AntiSymm eq str_le.
Proof. intros x y. apply String.leb_antisym. Qed.

(** [sorted] gives the same list for the same paths in any order. *)
Lemma py_sorted_permutation (paths0 paths1 : list string) :
  paths0 ≡ₚ paths1 -> py_sorted paths0 = py_sorted paths1.
Proof.
  intros Hperm. unfold py_sorted.
  apply (StronglySorted_unique str_le); try apply StronglySorted_merge_sort; try apply _.
  now rewrite !merge_sort_Permutation.
Qed.

Lemma py_sorted_least (paths0 : list string) (l1 l2 : list string) (p q : string) :
  py_sorted paths0 = l1 ++ p :: l2 -> q ∈ p :: l2 -> str_le p q.
Proof.
  intros Hs Hq.
  pose proof (StronglySorted_merge_sort str_le paths0) as Hss.
  fold (py_sorted paths0) in Hss. rewrite Hs in Hss.
  apply StronglySorted_app_1_r, StronglySorted_cons in Hss. destruct Hss as [Hall _].
  apply elem_of_cons in Hq. destruct Hq as [->|Hq].
  - destruct (String.leb_total p p); assumption.
  - rewrite Forall_forall in Hall. now apply Hall.
Qed.

(** ** Construction, mode by mode *)

Lemma getitem_all_open {Item} (cont_getitem : handle -> Z -> Item)
    (d : VideoDataset) (w : world) (i : Z) :
  (forall (k : Z) (p : string) (oh : option handle),
      conts d !! k = Some (p, oh) -> is_Some oh) ->
  (getitem cont_getitem d w i).1.1.2 = d /\
  (getitem cont_getitem d w i).1.2 = w /\
  (getitem cont_getitem d w i).2 = [].
Proof.
  intros Hall. unfold getitem.
  destruct (conts d !! _) as [[p [h|]]|] eqn:E; simpl; auto.
  - rewrite E. destruct (py_list_get _ _); auto.
  - destruct (Hall _ _ _ E) as [? [=]].
Qed.

Lemma getitems_all_open {Item} (cont_getitem : handle -> Z -> Item)
    (d : VideoDataset) (w : world) (idxs : list Z) :
  (forall (k : Z) (p : string) (oh : option handle),
      conts d !! k = Some (p, oh) -> is_Some oh) ->
  getitems cont_getitem d w idxs = (d, w, []).
Proof.
  intros Hall. induction idxs as [|i idxs IH]; [reflexivity|].
  rewrite getitems_cons. cbv zeta.
  destruct (getitem_all_open cont_getitem d w i Hall) as (-> & -> & ->).
  now rewrite IH.
Qed.

(** The first path, in order, that the mapping lacks is the one the lookup
    raises on. *)
Lemma lookup_all_inl (m : gmap string Z) (ps : list string) (e : exn) :
  lookup_all m ps = inl e ->
  exists (l1 l2 : list string) (p : string),
    e = KeyError_str p /\ ps = l1 ++ p :: l2 /\ m !! p = None /\
    Forall (fun q => is_Some (m !! q)) l1.
Proof.
  induction ps as [|q ps IH]; simpl; [discriminate|].
  destruct (m !! q) as [n|] eqn:Eq.
  - destruct (lookup_all m ps) as [e'|ns]; [|discriminate].
    intros [= <-]. destruct (IH eq_refl) as (l1 & l2 & p & -> & -> & Hp & Hl1).
    exists (q :: l1), l2, p. repeat split; auto.
  - intros [= <-]. exists [], ps, q. repeat split; auto.
Qed.

Lemma lookup_all_inr (m : gmap string Z) (ps : list string) :
  Forall (fun q => is_Some (m !! q)) ps -> exists ns : list Z, lookup_all m ps = inr ns.
Proof.
  induction 1 as [|q ps [n Hq] _ [ns IH]]; simpl; [eauto|].
  rewrite Hq, IH. eauto.
Qed.

Section Modes.
Context {Item : Type}.
Variable cont_len : handle -> N.
Variable cont_getitem : handle -> Z -> Item.

(** X5. The order in which the paths are given does not matter: two path
    lists that are permutations of each other give the same dataset, and
    the same error when construction fails. *)
Theorem init_order_independent (paths0 paths1 : list string)
    (max_num_frames_per_video : option Z) (paths_to_n_frames : option (gmap string Z))
    (w : world) :
  paths0 ≡ₚ paths1 ->
  init cont_len paths0 max_num_frames_per_video paths_to_n_frames w
  = init cont_len paths1 max_num_frames_per_video paths_to_n_frames w.
Proof.
  intros Hperm. unfold init. now rewrite (py_sorted_permutation _ _ Hperm).
Qed.

(** X6. A dataset built by opening its containers has called the
    constructor once per path, and no sequence of lookups on it calls the
    constructor again or changes the dataset. *)
Theorem eager_lookups_open_nothing (paths0 : list string)
    (max_num_frames_per_video : option Z) (w w' : world) (d : VideoDataset)
    (idxs : list Z) :
  init cont_len paths0 max_num_frames_per_video None w = (inr d, w') ->
  w' = (w + length paths0)%nat /\
  getitems cont_getitem d w' idxs = (d, w', []).
Proof.
  intros Hinit. destruct (init_handles _ _ _ _ _ _ _ Hinit) as [Hw Hall].
  split; [exact Hw|]. now apply getitems_all_open.
Qed.

(** X7. With a path-to-count mapping, construction opens no container.
    It raises [KeyError] exactly when the mapping lacks one of the paths,
    and the path named is the least, in sorted order, of those it lacks. *)
Theorem precomputed_missing_path (paths0 : list string)
    (max_num_frames_per_video : option Z) (n2f : gmap string Z) (w : world) :
  (init cont_len paths0 max_num_frames_per_video (Some n2f) w).2 = w /\
  ((exists p : string, p ∈ paths0 /\ n2f !! p = None) <->
   (exists p : string,
       init cont_len paths0 max_num_frames_per_video (Some n2f) w
       = (inl (KeyError_str p), w))) /\
  (forall p : string,
      init cont_len paths0 max_num_frames_per_video (Some n2f) w
      = (inl (KeyError_str p), w) ->
      p ∈ paths0 /\ n2f !! p = None /\
      forall q : string, q ∈ paths0 -> n2f !! q = None -> str_le p q).
Proof.
  unfold init, frame_counts.
  destruct (lookup_all n2f (py_sorted paths0)) as [e|ns] eqn:El.
  - destruct (lookup_all_inl _ _ _ El) as (l1 & l2 & p & -> & Hs & Hp & Hl1).
    assert (p ∈ paths0) as Hin.
    { rewrite <- (merge_sort_Permutation str_le paths0). fold (py_sorted paths0).
      rewrite Hs. set_solver. }
    split; [reflexivity|]. split; [split; eauto|].
    intros p' [= <-]. split; [exact Hin|]. split; [exact Hp|].
    intros q Hq Hnone.
    rewrite <- (merge_sort_Permutation str_le paths0) in Hq. fold (py_sorted paths0) in Hq.
    rewrite Hs, elem_of_app in Hq. destruct Hq as [Hq|Hq].
    + rewrite Forall_forall in Hl1. destruct (Hl1 q Hq) as [? Hsome]. congruence.
    + eapply py_sorted_least; eauto.
  - assert (forall p, p ∈ paths0 -> is_Some (n2f !! p)) as Hall.
    { intros p Hp. apply lookup_all_Forall2 in El.
      rewrite <- (merge_sort_Permutation str_le paths0) in Hp. fold (py_sorted paths0) in Hp.
      apply list_elem_of_lookup in Hp. destruct Hp as [i Hi].
      destruct (Forall2_lookup_l _ _ _ _ _ El Hi) as (n & _ & Hn). eauto. }
    destruct (torch_cumsum ns) as [e|sums] eqn:Et; simpl.
    + split; [reflexivity|]. split.
      * split.
        -- intros (p & Hp & Hnone). destruct (Hall p Hp) as [? Hsome]. congruence.
        -- intros (p & Heq). unfold torch_cumsum in Et.
           destruct (List.find _ ns); congruence.
      * intros p Heq. unfold torch_cumsum in Et. destruct (List.find _ ns); congruence.
    + split; [reflexivity|]. split.
      * split.
        -- intros (p & Hp & Hnone). destruct (Hall p Hp) as [? Hsome]. congruence.
        -- intros (p & [=]).
      * intros p [=].
Qed.

End Modes.

(** ** The configured maximum *)

Lemma sum_bounded (xs : list Z) (m : Z) :
  Forall (fun n => 0 <= n <= m) xs ->
  Forall (Z.le 0) xs /\ foldr Z.add 0 xs <= m * Z.of_nat (length xs).
Proof.
  induction 1 as [|x xs Hx _ [IH1 IH2]]; simpl.
  - split; [constructor|lia].
  - split; [constructor; [lia|assumption]|lia].
Qed.

Lemma len_cumsum (ps : list string) (cs : gmap Z (string * option handle)) (xs : list Z) :
  Forall (Z.le 0) xs -> foldr Z.add 0 xs <= int64_max ->
  len (MkVideoDataset ps cs (0 :: cumsum_from 0 xs)) = inr (foldr Z.add 0 xs).
Proof.
  intros Hall Hsum. unfold len. rewrite py_list_get_last. simpl.
  rewrite length_cumsum_from.
  destruct (nth_lookup_or_length (0 :: cumsum_from 0 xs) (length xs) 0) as [Hl|Hl].
  - rewrite Hl, cumsum_from_exact by (auto; lia). now rewrite firstn_all.
  - simpl in Hl. rewrite length_cumsum_from in Hl. lia.
Qed.

Lemma sum_take_S (xs : list Z) (c : nat) :
  (c < length xs)%nat ->
  foldr Z.add 0 (take (S c) xs) = foldr Z.add 0 (take c xs) + nth c xs 0.
Proof.
  revert c. induction xs as [|x xs IH]; intros c Hc; simpl in Hc; [lia|].
  destruct c as [|c]; [simpl; destruct xs; simpl; lia|].
  change (take (S (S c)) (x :: xs)) with (x :: take (S c) xs).
  change (take (S c) (x :: xs)) with (x :: take c xs).
  cbn [foldr nth]. rewrite IH by lia. lia.
Qed.

Section Maximum.
Variable cont_len : handle -> N.

(** X8. When opening the containers with a positive maximum [m]
    configured returns a dataset, and [m] times the number of paths fits
    int64, then whatever the containers hold the dataset is well formed,
    no container takes up more than [m] indices of the table, and the
    length is at most [m] per path. *)
Theorem eager_maximum_bounds_length (paths0 : list string) (m : Z) (w w' : world)
    (d : VideoDataset) :
  0 < m -> m * Z.of_nat (length paths0) <= int64_max ->
  init cont_len paths0 (Some m) None w = (inr d, w') ->
  wf d /\
  length (fs_cumsum d) = S (length paths0) /\
  (forall c : nat, (c < length paths0)%nat -> 0 <= cum d (S c) - cum d c <= m) /\
  exists total : Z, len d = inr total /\ 0 <= total <= m * Z.of_nat (length paths0).
Proof.
  intros Hm Hfit Hinit.
  pose proof (open_all_paths (py_sorted paths0) w) as (Hfst & _ & _).
  assert (length (py_sorted paths0) = length paths0) as Hlen
    by apply Permutation_length, merge_sort_Permutation.
  destruct (open_all (py_sorted paths0) w) as [cs w1] eqn:Eo. simpl in Hfst.
  set (counts := map (fun c : string * handle => frames_of cont_len (Some m) c.2) cs).
  assert (Forall (fun n => 0 <= n <= m) counts) as Hb.
  { apply Forall_forall. intros n Hn. apply list_elem_of_fmap in Hn.
    destruct Hn as (c & -> & _). unfold frames_of.
    destruct (decide (m = 0)); lia. }
  destruct (sum_bounded counts m Hb) as [Hnn Hsum].
  assert (length counts = length paths0) as Hlc.
  { unfold counts. rewrite length_map, <- (length_map fst cs), Hfst. exact Hlen. }
  rewrite Hlc in Hsum.
  assert ((frame_counts cont_len (py_sorted paths0) (Some m) None w).1.1 = inr counts)
    as Hcounts by (unfold frame_counts; now rewrite Eo).
  assert (fs_cumsum d = 0 :: cumsum_from 0 counts) as Htable.
  { revert Hinit. unfold init, frame_counts. rewrite Eo. fold counts.
    rewrite (torch_cumsum_fits counts Hnn) by lia. now intros [= <- _]. }
  assert (forall c : nat, (c <= length counts)%nat ->
            cum d c = foldr Z.add 0 (take c counts)) as Hcum.
  { intros c Hc. unfold cum. rewrite Htable, cumsum_from_exact by (auto; lia). lia. }
  split; [eapply (init_wf cont_len paths0 (Some m) None w w' d counts); eauto; lia|].
  split; [rewrite Htable; simpl; now rewrite length_cumsum_from, Hlc|].
  split.
  - intros c Hc. rewrite !Hcum, sum_take_S by lia.
    assert (0 <= nth c counts 0 <= m) as Hn.
    { rewrite Forall_forall in Hb. apply Hb, list_elem_of_In, nth_In. lia. }
    lia.
  - exists (foldr Z.add 0 counts). split.
    + destruct d as [ps cts table]. simpl in Htable. subst table.
      apply len_cumsum; [exact Hnn|lia].
    + pose proof (sum_nonneg counts Hnn). lia.
Qed.

End Maximum.

(** ** The theorems at the example datasets *)

Lemma table_is_prefix_sums_witness :
  init Examples.len_352 ["c"; "a"; "b"] (Some 4) None 0%nat
    = (inr Examples.capped_352, 3%nat) /\
  (frame_counts Examples.len_352 (py_sorted ["c"; "a"; "b"]) (Some 4) None 0%nat).1.1
    = inr [3; 4; 2] /\
  length (fs_cumsum Examples.capped_352) = 4%nat /\
  cum Examples.capped_352 2 = 3 + (4 + 0) /\
  len Examples.capped_352 = inr (3 + (4 + (2 + 0))).
Proof.
  assert (init Examples.len_352 ["c"; "a"; "b"] (Some 4) None 0%nat
          = (inr Examples.capped_352, 3%nat)) as Hinit by (vm_compute; reflexivity).
  assert ((frame_counts Examples.len_352 (py_sorted ["c"; "a"; "b"]) (Some 4) None 0%nat).1.1
          = inr [3; 4; 2]) as Hcounts by (vm_compute; reflexivity).
  assert (Forall (Z.le 0) [3; 4; 2]) as Hall by (repeat constructor; lia).
  assert (foldr Z.add 0 [3; 4; 2] <= int64_max) as Hsum by (vm_compute; discriminate).
  destruct (table_is_prefix_sums Examples.len_352 _ _ _ _ _ _ _ Hinit Hcounts Hall Hsum)
    as (Hl & _ & Hc & Hlen).
  split; [exact Hinit|]. split; [exact Hcounts|]. split; [exact Hl|].
  split; [exact (Hc 2%nat ltac:(simpl; lia))|exact Hlen].
Defined.

Lemma every_local_item_reachable_witness :
  wf Examples.lazy_352 /\
  (2 < length (fs_cumsum Examples.lazy_352))%nat /\
  0 <= 4 < cum Examples.lazy_352 2 - cum Examples.lazy_352 1 /\
  exists (p : string) (oh : option handle),
    conts Examples.lazy_352 !! Z.of_nat 1 = Some (p, oh) /\
    (getitem Examples.which Examples.lazy_352 0%nat (cum Examples.lazy_352 1 + 4)).1.1.1
      = inr (Examples.which (default (Handle p 0) oh) 4) /\
    (getitem Examples.which Examples.lazy_352 0%nat (cum Examples.lazy_352 1 + 4)).2
      = match oh with Some _ => [] | None => [Z.of_nat 1] end.
Proof.
  assert (2 < length (fs_cumsum Examples.lazy_352))%nat as Hc by (simpl; lia).
  assert (0 <= 4 < cum Examples.lazy_352 2 - cum Examples.lazy_352 1) as Hl
    by (unfold cum; simpl; lia).
  split; [exact wf_lazy_352|]. split; [exact Hc|]. split; [exact Hl|].
  exact (every_local_item_reachable Examples.which Examples.lazy_352 0%nat 1 4
           wf_lazy_352 Hc Hl).
Defined.

Lemma lookups_never_open_empty_witness :
  wf Examples.lazy_352 /\
  1 ∈ (getitems Examples.which Examples.lazy_352 0%nat Examples.calls_352).2 /\
  exists c : nat,
    1 = Z.of_nat c /\ (S c < length (fs_cumsum Examples.lazy_352))%nat /\
    cum Examples.lazy_352 c < cum Examples.lazy_352 (S c).
Proof.
  assert (1 ∈ (getitems Examples.which Examples.lazy_352 0%nat Examples.calls_352).2) as Hk
    by (apply list_elem_of_In; vm_compute; auto).
  split; [exact wf_lazy_352|]. split; [exact Hk|].
  exact (lookups_never_open_empty Examples.which Examples.lazy_352 0%nat
           Examples.calls_352 1 wf_lazy_352 Hk).
Defined.

Lemma lookups_keep_index_space_witness :
  wf Examples.lazy_352 /\
  wf (getitems Examples.which Examples.lazy_352 0%nat Examples.calls_352).1.1 /\
  len (getitems Examples.which Examples.lazy_352 0%nat Examples.calls_352).1.1
    = len Examples.lazy_352.
Proof.
  split; [exact wf_lazy_352|].
  destruct (lookups_keep_index_space Examples.which Examples.lazy_352 0%nat
              Examples.calls_352 wf_lazy_352) as (Hwf & _ & _ & Hlen & _).
  split; [exact Hwf|exact Hlen].
Defined.

Lemma init_order_independent_witness :
  ["c"; "a"; "b"] ≡ₚ ["a"; "b"; "c"] /\
  init Examples.len_352 ["c"; "a"; "b"] None (Some Examples.sizes_352) 0%nat
  = init Examples.len_352 ["a"; "b"; "c"] None (Some Examples.sizes_352) 0%nat.
Proof.
  assert (["c"; "a"; "b"] ≡ₚ ["a"; "b"; "c"]) as Hperm.
  { transitivity ["a"; "c"; "b"]; [apply perm_swap|apply perm_skip, perm_swap]. }
  split; [exact Hperm|].
  exact (init_order_independent Examples.len_352 _ _ None (Some Examples.sizes_352)
           0%nat Hperm).
Defined.

Lemma eager_lookups_open_nothing_witness :
  init Examples.len_352 ["c"; "a"; "b"] None None 0%nat = (inr Examples.eager_352, 3%nat) /\
  getitems Examples.which Examples.eager_352 3%nat Examples.calls_352
    = (Examples.eager_352, 3%nat, []).
Proof.
  assert (init Examples.len_352 ["c"; "a"; "b"] None None 0%nat
          = (inr Examples.eager_352, 3%nat)) as Hinit by (vm_compute; reflexivity).
  split; [exact Hinit|].
  exact (proj2 (eager_lookups_open_nothing Examples.len_352 Examples.which _ _ _ _ _
                  Examples.calls_352 Hinit)).
Defined.

Lemma precomputed_missing_path_witness :
  "y"%string ∈ ["c"; "zz"; "a"; "y"] /\ Examples.sizes_352 !! "y"%string = None /\
  exists p : string,
    init Examples.len_352 ["c"; "zz"; "a"; "y"] None (Some Examples.sizes_352) 0%nat
    = (inl (KeyError_str p), 0%nat).
Proof.
  assert ("y"%string ∈ ["c"; "zz"; "a"; "y"]) as Hin
    by (apply list_elem_of_In; simpl; auto).
  assert (Examples.sizes_352 !! "y"%string = None) as Hnone by (vm_compute; reflexivity).
  split; [exact Hin|]. split; [exact Hnone|].
  apply (proj1 (proj2 (precomputed_missing_path Examples.len_352
                         ["c"; "zz"; "a"; "y"] None Examples.sizes_352 0%nat))).
  exists "y"%string. split; [exact Hin|exact Hnone].
Defined.

(** The path named is [y], which sorts before [zz]. *)
Example precomputed_missing_path_named :
  init Examples.len_352 ["c"; "zz"; "a"; "y"] None (Some Examples.sizes_352) 0%nat
  = (inl (KeyError_str "y"), 0%nat).
Proof. vm_compute. reflexivity. Qed.

Lemma eager_maximum_bounds_length_witness :
  0 < 4 /\ 4 * Z.of_nat (length ["c"; "a"; "b"]) <= int64_max /\
  init Examples.len_352 ["c"; "a"; "b"] (Some 4) None 0%nat
    = (inr Examples.capped_352, 3%nat) /\
  wf Examples.capped_352 /\
  0 <= cum Examples.capped_352 2 - cum Examples.capped_352 1 <= 4 /\
  exists total : Z, len Examples.capped_352 = inr total /\ 0 <= total <= 4 * 3.
Proof.
  assert (0 < 4) as Hm by lia.
  assert (4 * Z.of_nat (length ["c"; "a"; "b"]) <= int64_max) as Hfit
    by (vm_compute; discriminate).
  assert (init Examples.len_352 ["c"; "a"; "b"] (Some 4) None 0%nat
          = (inr Examples.capped_352, 3%nat)) as Hinit by (vm_compute; reflexivity).
  split; [exact Hm|]. split; [exact Hfit|]. split; [exact Hinit|].
  destruct (eager_maximum_bounds_length Examples.len_352 ["c"; "a"; "b"] 4 0%nat 3%nat
              Examples.capped_352 Hm Hfit Hinit) as (Hwf & _ & Hstep & Hlen).
  split; [exact Hwf|]. split; [exact (Hstep 1%nat ltac:(simpl; lia))|exact Hlen].
Defined.

End DatasetMore.

(** * Further properties of the loader and the assemblers *)

Module ValidationMore.
Import Validation ValidationProps.

(** ** Grouping by key *)

Section Grouping.
Context {pyfloat : Type} `{EqDecision pyfloat}.
Variable metas : list (string * @field_meta pyfloat).
Variable dict_key_field : string.

Local Abbreviation grouped := (@table pyfloat (list (@record pyfloat))).
Local Abbreviation row_key := (Validation.row_key metas dict_key_field).

Lemma tbl_append_lookup (output : grouped) (v : pyval) (k : pykey) (obj : record)
    (k' : pykey) :
  to_key v = Some k ->
  tbl_lookup (tbl_append output v k obj).1 k' =
  if decide (k' = k) then Some (default [] (tbl_lookup output k) ++ [obj])
  else tbl_lookup output k'.
Proof.
  intros Hv. induction output as [|[s objs] output IH]; simpl.
  - unfold key_matches. rewrite Hv.
    destruct (decide (k' = k)) as [->|Hne].
    + now rewrite bool_decide_eq_true_2.
    + rewrite bool_decide_eq_false_2; [reflexivity|congruence].
  - unfold key_matches. destruct (bool_decide_reflect (to_key s = Some k)) as [Hs|Hs].
    + simpl. unfold key_matches. rewrite Hs.
      destruct (decide (k' = k)) as [->|Hne].
      * now rewrite bool_decide_eq_true_2.
      * rewrite bool_decide_eq_false_2; [reflexivity|congruence].
    + destruct (tbl_append output v k obj) as [t'' n] eqn:Ea. simpl in *.
      unfold key_matches. destruct (bool_decide_reflect (to_key s = Some k')) as [Hs'|Hs'].
      * destruct (decide (k' = k)) as [->|Hne]; [contradiction|reflexivity].
      * exact IH.
Qed.

Lemma tbl_append_concat (output : grouped) (v : pyval) (k : pykey) (obj : record) :
  concat (map snd (tbl_append output v k obj).1) ≡ₚ concat (map snd output) ++ [obj].
Proof.
  induction output as [|[s objs] output IH]; simpl; [reflexivity|].
  destruct (key_matches k s); simpl.
  - rewrite <- !(assoc_L (++)). apply Permutation_app_head, Permutation_app_comm.
  - destruct (tbl_append output v k obj) as [t'' n]. simpl in *.
    now rewrite IH, (assoc_L (++)).
Qed.

Lemma grouped_list_nil (old : option (list (@record pyfloat))) : grouped_list old [] = old.
Proof. destruct old; simpl; [now rewrite app_nil_r|reflexivity]. Qed.

(** The loop appends each decoded row to its key's list and changes
    nothing else. *)
Lemma load_rows_groups (unique_per_key : bool) (lines : list (list string)) :
  forall output t : grouped,
    load_rows metas dict_key_field unique_per_key lines output = inr t ->
    exists rows : list (record * pyval * pykey),
      Forall2 (fun line r => row_key line = Some r) lines rows /\
      (forall k : pykey,
          tbl_lookup t k = grouped_list (tbl_lookup output k) (instances_of k rows)) /\
      concat (map snd t) ≡ₚ concat (map snd output) ++ map (fun r => r.1.1) rows.
Proof.
  induction lines as [|line lines IH]; intros output t Hload.
  - simpl in Hload. injection Hload as <-. exists []. split; [constructor|].
    split; [intros k; now rewrite grouped_list_nil|]. simpl. now rewrite app_nil_r.
  - destruct (row_key line) as [[[obj v] k0]|] eqn:Hrow.
    + rewrite (load_rows_good_row _ _ _ _ _ _ _ _ _ Hrow) in Hload.
      destruct (unique_per_key && _); [discriminate|].
      destruct (IH _ _ Hload) as (rows & Hrows & Hlook & Hcat).
      pose proof (row_key_to_key _ _ _ _ _ _ Hrow) as Hk0.
      exists ((obj, v, k0) :: rows). split; [constructor; assumption|]. split.
      * intros k. rewrite Hlook, (tbl_append_lookup _ _ _ _ _ Hk0).
        unfold instances_of. rewrite filter_cons. simpl.
        destruct (decide (k = k0)) as [->|Hne].
        -- rewrite decide_True by reflexivity. simpl.
           destruct (tbl_lookup output k0); simpl; [now rewrite <- (assoc_L (++))|reflexivity].
        -- rewrite decide_False by congruence. reflexivity.
      * rewrite Hcat, tbl_append_concat. simpl. now rewrite <- (assoc_L (++)).
    + destruct (load_rows_bad_row metas dict_key_field unique_per_key line lines output
                  Hrow) as [e He].
      rewrite He in Hload. discriminate.
Qed.

Lemma tbl_lookup_elem {V} (t : @table pyfloat V) (k : pykey) (x : V) :
  tbl_lookup t k = Some x -> exists v : pyval, (v, x) ∈ t.
Proof.
  induction t as [|[s y] t IH]; simpl; [discriminate|].
  destruct (key_matches k s).
  - intros [= ->]. exists s. now left.
  - intros Hl. destruct (IH Hl) as [v Hv]. exists v. now right.
Qed.

(** A load that passes with [unique_per_key] returns what it returns
    without. *)
Lemma load_rows_unique_to_any (lines : list (list string)) :
  forall output t : grouped,
    load_rows metas dict_key_field true lines output = inr t ->
    load_rows metas dict_key_field false lines output = inr t.
Proof.
  induction lines as [|line lines IH]; intros output t Hload; [exact Hload|].
  destruct (row_key line) as [[[obj v] k0]|] eqn:Hrow.
  - rewrite (load_rows_good_row metas dict_key_field true _ lines output _ _ _ Hrow) in Hload.
    rewrite (load_rows_good_row metas dict_key_field false _ lines output _ _ _ Hrow).
    destruct (true && _); [discriminate|]. simpl. now apply IH.
  - destruct (load_rows_bad_row metas dict_key_field true line lines output Hrow) as [e He].
    rewrite He in Hload. discriminate.
Qed.

Lemma load_rows_any_to_unique (lines : list (list string)) :
  forall output t : grouped,
    load_rows metas dict_key_field false lines output = inr t ->
    singletons t ->
    load_rows metas dict_key_field true lines output = inr t.
Proof.
  induction lines as [|line lines IH]; intros output t Hload Hs; [exact Hload|].
  destruct (row_key line) as [[[obj v] k0]|] eqn:Hrow.
  - rewrite (load_rows_good_row metas dict_key_field false _ lines output _ _ _ Hrow)
      in Hload.
    rewrite (load_rows_good_row metas dict_key_field true _ lines output _ _ _ Hrow).
    simpl in Hload.
    pose proof (row_key_to_key _ _ _ _ _ _ Hrow) as Hk0.
    destruct (load_rows_groups false lines _ _ Hload) as (rows & _ & Hlook & _).
    specialize (Hlook k0). rewrite (tbl_append_lookup _ _ _ _ _ Hk0) in Hlook.
    rewrite decide_True in Hlook by reflexivity. simpl in Hlook.
    destruct (tbl_lookup_elem _ _ _ Hlook) as [s Hin].
    pose proof Hs as Hall. unfold singletons in Hall. rewrite Forall_forall in Hall.
    destruct (Hall _ Hin) as [r Hr]. simpl in Hr.
    assert ((tbl_append output v k0 obj).2 = 1%nat) as Hone.
    { destruct (tbl_lookup output k0) as [objs|] eqn:El.
      - rewrite (tbl_append_present _ _ _ _ _ El). simpl in Hr.
        apply (f_equal length) in Hr. rewrite !length_app in Hr. simpl in Hr.
        lia.
      - rewrite (tbl_append_absent _ _ _ _ El). reflexivity. }
    rewrite Hone. simpl. now apply IH.
  - destruct (load_rows_bad_row metas dict_key_field false line lines output Hrow) as [e He].
    rewrite He in Hload. discriminate.
Qed.

End Grouping.

Section Tables.
Context {pyfloat : Type} `{EqDecision pyfloat}.

(** X9. A load that returns a table has decoded every line, and the table
    maps each key to the instances of the lines with that key, in file
    order, and holds no key without a line; every line's instance is in the
    table exactly once. *)
Theorem load_groups_rows (header : list string) (lines : list (list string))
    (dataclass_class : list (@field pyfloat)) (dict_key_field : string)
    (unique_per_key : bool) (default_decode_fn : string -> pytype -> decoded)
    (t : table (list record)) :
  load_dataclass_dict_from_csv (header :: lines) dataclass_class dict_key_field
    unique_per_key default_decode_fn = inr t ->
  exists rows : list (record * pyval * pykey),
    Forall2 (fun line r =>
               row_key (field_name_to_metadata dataclass_class default_decode_fn
                          (column_index_of header)) dict_key_field line = Some r)
            lines rows /\
    (forall k : pykey,
        tbl_lookup t k = match instances_of k rows with
                         | [] => None
                         | objs => Some objs
                         end) /\
    concat (map snd t) ≡ₚ map (fun r => r.1.1) rows.
Proof.
  unfold load_dataclass_dict_from_csv. destruct (decide _); [|discriminate].
  intros Hload. destruct (load_rows_groups _ _ _ _ _ _ Hload) as (rows & Hrows & Hlook & Hcat).
  exists rows. split; [exact Hrows|]. split; [|exact Hcat].
  intros k. rewrite Hlook. simpl. now destruct (instances_of k rows).
Qed.

(** X10. [unique_per_key] only validates: a load passes with it exactly
    when the load passes without it and every key of the table has one
    instance, and the table returned is the same. *)
Theorem unique_flag_only_validates (csvfile : list (list string))
    (dataclass_class : list (@field pyfloat)) (dict_key_field : string)
    (default_decode_fn : string -> pytype -> decoded) (t : table (list record)) :
  load_dataclass_dict_from_csv csvfile dataclass_class dict_key_field true
    default_decode_fn = inr t
  <->
  load_dataclass_dict_from_csv csvfile dataclass_class dict_key_field false
    default_decode_fn = inr t /\ singletons t.
Proof.
  split.
  - intros Hload. split; [|eapply load_unique_singletons, Hload].
    unfold load_dataclass_dict_from_csv in *. destruct csvfile as [|header lines];
      [discriminate|].
    destruct (decide _); [|discriminate]. now apply load_rows_unique_to_any.
  - intros [Hload Hs]. unfold load_dataclass_dict_from_csv in *.
    destruct csvfile as [|header lines]; [discriminate|].
    destruct (decide _); [|discriminate]. now apply load_rows_any_to_unique.
Qed.

End Tables.

(** ** Columns *)

Lemma last_index_Some (name : string) (header : list string) (n : nat) :
  last_index name header = Some n <->
  header !! n = Some name /\ forall m : nat, (n < m)%nat -> header !! m <> Some name.
Proof.
  revert n. induction header as [|h header IH]; intros n; simpl.
  - split; [discriminate|]. intros [[=] _].
  - destruct (last_index name header) as [n'|] eqn:El.
    + split.
      * intros [= <-]. destruct (proj1 (IH n') eq_refl) as [Hn Hlast].
        split; [exact Hn|]. intros [|m] Hm; [lia|]. simpl. apply Hlast. lia.
      * intros [Hn Hlast]. destruct n as [|n].
        -- destruct (proj1 (IH n') eq_refl) as [Hn' _].
           exfalso. apply (Hlast (S n')); [lia|exact Hn'].
        -- f_equal. simpl in Hn.
           assert (Some n' = Some n) as Heq.
           { apply IH. split; [exact Hn|]. intros m Hm. apply (Hlast (S m)). lia. }
           congruence.
    + assert (forall m, header !! m <> Some name) as Hnone.
      { intros m Hm.
        assert (exists k, last_index name header = Some k) as [k Hk]; [|congruence].
        clear -Hm. revert m Hm. induction header as [|h' header IH']; intros m Hm;
          [discriminate|].
        simpl. destruct m as [|m]; simpl in Hm.
        - injection Hm as ->. destruct (last_index name header); eauto.
          rewrite decide_True by reflexivity. eauto.
        - destruct (IH' m Hm) as [k ->]. eauto. }
      destruct (decide (h = name)) as [->|Hne].
      * split.
        -- intros [= <-]. split; [reflexivity|]. intros [|m] Hm; [lia|]. apply Hnone.
        -- intros [Hn _]. destruct n as [|n]; [reflexivity|]. simpl in Hn.
           exfalso. apply (Hnone n Hn).
      * split; [discriminate|]. intros [Hn _]. destruct n as [|n]; simpl in Hn.
        -- congruence.
        -- exfalso. apply (Hnone n Hn).
Qed.

Lemma last_index_None (name : string) (header : list string) :
  last_index name header = None <-> name ∉ header.
Proof.
  split.
  - intros Hnone Hin. apply list_elem_of_lookup in Hin. destruct Hin as [n Hn].
    revert n Hn. induction header as [|h header IH]; intros n Hn; [discriminate|].
    simpl in Hnone. destruct (last_index name header) eqn:El; [discriminate|].
    destruct (decide (h = name)); [discriminate|].
    destruct n as [|n]; simpl in Hn; [congruence|]. eapply IH; eauto.
  - intros Hnot. destruct (last_index name header) as [n|] eqn:El; [|reflexivity].
    apply last_index_Some in El. destruct El as [Hn _].
    exfalso. apply Hnot. eapply list_elem_of_lookup_2, Hn.
Qed.

Lemma column_index_from_last (name : string) (header : list string) :
  forall (start : Z) (m : gmap string Z),
    foldl (fun m ih => <[ih.2 := ih.1]> m) m (enumerate_from start header) !! name
    = match last_index name header with
      | Some n => Some (start + Z.of_nat n)
      | None => m !! name
      end.
Proof.
  induction header as [|h header IH]; intros start m; simpl; [reflexivity|].
  rewrite IH. destruct (last_index name header) as [n|].
  - f_equal. lia.
  - destruct (decide (h = name)) as [->|Hne].
    + rewrite lookup_insert_eq. f_equal. lia.
    + now rewrite lookup_insert_ne.
Qed.

Lemma column_index_of_last (name : string) (header : list string) :
  column_index_of header !! name = Z.of_nat <$> last_index name header.
Proof.
  unfold column_index_of, enumerate. rewrite column_index_from_last.
  destruct (last_index name header); simpl; [f_equal; lia|apply lookup_empty].
Qed.

Lemma py_list_get_app {A} (l extra : list A) (n : nat) :
  (n < length l)%nat -> py_list_get (l ++ extra) (Z.of_nat n) = py_list_get l (Z.of_nat n).
Proof.
  intros Hn. rewrite !DatasetProps.py_list_get_nat. now rewrite lookup_app_l.
Qed.

Section Columns.
Context {pyfloat : Type} `{EqDecision pyfloat}.

Local Abbreviation metas_of :=
  (fun (dataclass_class : list (@field pyfloat))
       (default_decode_fn : string -> pytype -> decoded) (header : list string) =>
     field_name_to_metadata dataclass_class default_decode_fn (column_index_of header)).

Lemma decode_row_cons (name : string) (meta : @field_meta pyfloat)
    (metas : list (string * field_meta)) (line : list string) :
  decode_row ((name, meta) :: metas) line =
  match m_column_index meta with
  | None => inl TypeError
  | Some ci =>
      match py_list_get line ci with
      | None => inl IndexError
      | Some c =>
          match m_decode_fn meta c (m_type meta) with
          | inl e => inl (DecodeError e)
          | inr v =>
              match decode_row metas line with
              | inl e => inl e
              | inr obj => inr ((name, v) :: obj)
              end
          end
      end
  end.
Proof. reflexivity. Qed.

Lemma decode_row_by_cells (dataclass_class : list (@field pyfloat))
    (default_decode_fn : string -> pytype -> decoded)
    (header header' : list string) (line line' : list string) :
  (forall f, f ∈ dataclass_class ->
             is_Some (column_index_of header !! f_name f) /\
             is_Some (column_index_of header' !! f_name f)) ->
  (forall f, f ∈ dataclass_class ->
             cell header line (f_name f) = cell header' line' (f_name f)) ->
  decode_row (metas_of dataclass_class default_decode_fn header) line
  = decode_row (metas_of dataclass_class default_decode_fn header') line'.
Proof.
  induction dataclass_class as [|f fs IH]; intros Hsome Hcell; [reflexivity|].
  unfold field_name_to_metadata in *. rewrite !map_cons, !decode_row_cons.
  rewrite IH.
  - destruct (Hsome f ltac:(left)) as [[i Hi] [i' Hi']].
    pose proof (Hcell f ltac:(left)) as Hc. unfold cell in Hc. rewrite Hi, Hi' in Hc.
    simpl in Hc. simpl. rewrite Hi, Hi', Hc. reflexivity.
  - intros g Hg. apply Hsome. now right.
  - intros g Hg. apply Hcell. now right.
Qed.

Lemma load_rows_ext (metas metas' : list (string * @field_meta pyfloat))
    (dict_key_field : string) (unique_per_key : bool) (lines lines' : list (list string)) :
  Forall2 (fun l l' => decode_row metas l = decode_row metas' l') lines lines' ->
  forall output : table (list record),
    load_rows metas dict_key_field unique_per_key lines output
    = load_rows metas' dict_key_field unique_per_key lines' output.
Proof.
  induction 1 as [|l l' lines lines' Hd _ IH]; intros output; [reflexivity|].
  simpl. rewrite Hd. destruct (decode_row metas' l'); [reflexivity|].
  destruct (getattr _ _); [reflexivity|]. destruct (to_key _); [|reflexivity].
  destruct (tbl_append _ _ _ _). destruct (_ && _); [reflexivity|apply IH].
Qed.

(** X11. A header that repeats a column name is accepted, and the column
    read for that name is the last one with it: [column_index] maps a name
    to the position of its last occurrence, and to nothing when the header
    does not have it. *)
Theorem last_column_wins (header : list string) (name : string) :
  (column_index_of header !! name = None <-> name ∉ header) /\
  (forall i : Z,
      column_index_of header !! name = Some i <->
      exists n : nat,
        i = Z.of_nat n /\ header !! n = Some name /\
        forall m : nat, (n < m)%nat -> header !! m <> Some name) /\
  (forall (line : list string) (n : nat),
      header !! n = Some name ->
      (forall m : nat, (n < m)%nat -> header !! m <> Some name) ->
      cell header line name = line !! n).
Proof.
  rewrite column_index_of_last. split; [|split].
  - rewrite <- last_index_None. destruct (last_index name header); simpl;
      split; congruence.
  - intros i. split.
    + destruct (last_index name header) as [n|] eqn:El; [|discriminate].
      intros [= <-]. exists n. apply last_index_Some in El. tauto.
    + intros (n & -> & Hn & Hlast).
      rewrite (proj2 (last_index_Some name header n) (conj Hn Hlast)). reflexivity.
  - intros line n Hn Hlast. unfold cell. rewrite column_index_of_last.
    rewrite (proj2 (last_index_Some name header n) (conj Hn Hlast)). simpl.
    apply DatasetProps.py_list_get_nat.
Qed.

(** X12. Columns are matched by name.  Two files whose headers have the
    same set of names, and whose lines pair up with the same cell under
    every field name, load to the same result: the order of the columns
    does not matter. *)
Theorem columns_matched_by_name (header header' : list string)
    (lines lines' : list (list string)) (dataclass_class : list (@field pyfloat))
    (dict_key_field : string) (unique_per_key : bool)
    (default_decode_fn : string -> pytype -> decoded) :
  (list_to_set header : gset string) = list_to_set header' ->
  Forall2 (fun l l' =>
             forall f, f ∈ dataclass_class ->
                       cell header l (f_name f) = cell header' l' (f_name f))
          lines lines' ->
  load_dataclass_dict_from_csv (header :: lines) dataclass_class dict_key_field
    unique_per_key default_decode_fn
  = load_dataclass_dict_from_csv (header' :: lines') dataclass_class dict_key_field
      unique_per_key default_decode_fn.
Proof.
  intros Hset Hcells. unfold load_dataclass_dict_from_csv.
  rewrite !fst_field_name_to_metadata, !dom_column_index_of, <- Hset.
  destruct (decide _) as [Hok|]; [|reflexivity].
  apply load_rows_ext. eapply Forall2_impl; [exact Hcells|].
  intros l l' Hc. apply decode_row_by_cells; [|exact Hc].
  intros f Hf.
  assert (f_name f ∈ (list_to_set header : gset string)) as Hin.
  { rewrite Hok, elem_of_list_to_set. apply list_elem_of_fmap. eauto. }
  split; apply elem_of_dom; rewrite dom_column_index_of; [exact Hin|].
  now rewrite <- Hset.
Qed.

(** X13. Cells beyond the header's columns are never read: lengthening
    lines that are at least as long as the header does not change the
    result of the load. *)
Theorem trailing_cells_ignored (header : list string) (lines lines' : list (list string))
    (dataclass_class : list (@field pyfloat)) (dict_key_field : string)
    (unique_per_key : bool) (default_decode_fn : string -> pytype -> decoded) :
  Forall2 (fun l l' =>
             (length header <= length l)%nat /\ exists extra, l' = l ++ extra)
          lines lines' ->
  load_dataclass_dict_from_csv (header :: lines') dataclass_class dict_key_field
    unique_per_key default_decode_fn
  = load_dataclass_dict_from_csv (header :: lines) dataclass_class dict_key_field
      unique_per_key default_decode_fn.
Proof.
  intros Hlines. unfold load_dataclass_dict_from_csv.
  destruct (decide _) as [Hok|]; [|reflexivity].
  rewrite fst_field_name_to_metadata, dom_column_index_of in Hok.
  symmetry. apply load_rows_ext. eapply Forall2_impl; [exact Hlines|].
  intros l l' [Hlen [extra ->]]. apply decode_row_by_cells.
  - intros f Hf.
    assert (is_Some (column_index_of header !! f_name f)) as Hs; [|auto].
    apply elem_of_dom. rewrite dom_column_index_of, Hok, elem_of_list_to_set.
    apply list_elem_of_fmap. eauto.
  - intros f _. unfold cell. rewrite column_index_of_last.
    destruct (last_index (f_name f) header) as [n|] eqn:El; [|reflexivity]. simpl.
    apply last_index_Some in El. destruct El as [Hn _]. apply lookup_lt_Some in Hn.
    symmetry. apply py_list_get_app. lia.
Qed.

End Columns.

(** ** The assemblers *)

Section Assembling.
Context {pyfloat : Type} `{EqDecision pyfloat}.
Variable json_loads : string -> option (@pyval pyfloat).
Variable strptime : string -> string -> option datetime.
Variable py_int : string -> option Z.
Variable py_float : string -> option pyfloat.

Local Abbreviation grouped := (@table pyfloat (list (@record pyfloat))).
Local Abbreviation load := (Validation.load json_loads strptime py_int py_float).
Local Abbreviation load_required :=
  (Validation.load_required json_loads strptime py_int py_float).
Local Abbreviation load_optional :=
  (Validation.load_optional json_loads strptime py_int py_float).
Local Abbreviation load_first_found :=
  (Validation.load_first_found json_loads strptime py_int py_float).
Local Abbreviation load_manifest :=
  (Validation.load_manifest json_loads strptime py_int py_float).
Local Abbreviation load_egoexo_manifest :=
  (Validation.load_egoexo_manifest json_loads strptime py_int py_float).

Lemma first_per_key_total (t : grouped) : singletons t -> succeeds (first_per_key t).
Proof.
  induction 1 as [|[k vs] t [r Hr] _ [t' IH]]; simpl; [now exists []|].
  simpl in Hr. subst vs. simpl. rewrite IH. now eexists.
Qed.

Lemma load_rows_not_required (metas : list (string * @field_meta pyfloat))
    (dict_key_field : string) (unique_per_key : bool) (lines : list (list string))
    (output : grouped) (f d : string) :
  load_rows metas dict_key_field unique_per_key lines output
  <> inl (RequiredFileNotFound f d).
Proof.
  revert output. induction lines as [|line lines IH]; intros output; simpl; [discriminate|].
  destruct (decode_row metas line) as [e|obj] eqn:Ed.
  - apply decode_row_error in Ed. destruct Ed as [->|[->|[de ->]]]; discriminate.
  - unfold getattr. destruct (list_find _ obj) as [[? [? v]]|]; [|discriminate].
    destruct (to_key v); [|discriminate].
    destruct (tbl_append output v _ obj) as [output' cnt].
    destruct (unique_per_key && negb (cnt =? 1)%nat); [discriminate|apply IH].
Qed.

Lemma load_not_required (csvfile : list (list string)) (dataclass_class : list field)
    (dict_key_field : string) (unique_per_key : bool) (f d : string) :
  load csvfile dataclass_class dict_key_field unique_per_key
  <> inl (RequiredFileNotFound f d).
Proof.
  unfold Validation.load, load_dataclass_dict_from_csv.
  destruct csvfile; [discriminate|]. destruct (decide _); [|discriminate].
  apply load_rows_not_required.
Qed.

Lemma load_required_missing (manifest_dir : string) (available_files : directory)
    (file_name : string) (dataclass_class : list field) (dict_key_field : string)
    (unique_per_key : bool) (f d : string) :
  load_required manifest_dir available_files file_name dataclass_class dict_key_field
    unique_per_key = inl (RequiredFileNotFound f d)
  <-> f = file_name /\ d = manifest_dir /\ available_files !! file_name = None.
Proof.
  unfold Validation.load_required. destruct (available_files !! file_name) as [csvfile|].
  - split; [|intros (_ & _ & [=])]. intros Hl. now apply load_not_required in Hl.
  - split; [intros [= -> ->]; auto|intros (-> & -> & _); reflexivity].
Qed.

Lemma load_optional_not_required {A} (available_files : directory) (file_name : string)
    (dataclass_class : list field) (dict_key_field : string) (unique_per_key : bool)
    (default : A) (found : grouped -> A) (f d : string) :
  load_optional available_files file_name dataclass_class dict_key_field unique_per_key
    default found <> inl (RequiredFileNotFound f d).
Proof.
  unfold Validation.load_optional. destruct (available_files !! file_name) as [csvfile|];
    [|discriminate].
  destruct (Validation.load _ _ _ _ csvfile _ _ _) as [e|t] eqn:El; [|discriminate].
  simpl. intros [= ->]. now apply load_not_required in El.
Qed.

Lemma load_first_found_not_required (available_files : directory)
    (file_names : list string) (dataclass_class : list field) (dict_key_field : string)
    (unique_per_key : bool) (f d : string) :
  load_first_found available_files file_names dataclass_class dict_key_field
    unique_per_key <> inl (RequiredFileNotFound f d).
Proof.
  induction file_names as [|file_name rest IH]; simpl; [discriminate|].
  destruct (available_files !! file_name); [apply load_not_required|exact IH].
Qed.

Lemma first_per_key_error (t : grouped) (e : exn) :
  first_per_key t = inl e -> e = IndexError.
Proof.
  induction t as [|[k vs] t IH]; simpl; [discriminate|].
  destruct (py_list_get vs 0); [|now intros [= <-]].
  destruct (first_per_key t); [|discriminate]. intros [= <-]. now apply IH.
Qed.

(** X14. [load_manifest] returns a manifest exactly when each of its seven
    table loads succeeds: the two required files, the optional files that
    are present, and the first participant file found.  Nothing else can
    make it fail, and no failing table is left out of a returned
    manifest. *)
Theorem load_manifest_all_or_nothing (manifest_dir : string)
    (available_files : directory) :
  succeeds (load_manifest manifest_dir available_files) <->
  succeeds (load_required manifest_dir available_files "video_metadata.csv"
              VideoMetadata "university_video_id" true) /\
  succeeds (load_required manifest_dir available_files "video_component_file.csv"
              VideoComponentFile "university_video_id" false) /\
  succeeds (load_optional available_files "auxiliary_video_component_data_file.csv"
              AuxiliaryVideoComponentDataFile "university_video_id" false [] id) /\
  succeeds (load_first_found available_files
              ["participant_data.csv"; "participant.csv"; "participant_metadata.csv"]
              Particpant "participant_id" true) /\
  succeeds (load_optional available_files "synchronized_videos.csv"
              SynchronizedVideos "video_grouping_id" true [] id) /\
  succeeds (load_optional available_files "physical_setting.csv"
              PhysicalSetting "setting_id" true [] id) /\
  succeeds (load_optional available_files "annotations.csv"
              Annotations "university_video_id" false [] id).
Proof.
  split.
  - intros [m Hm].
    destruct (load_manifest_exposes _ _ _ _ _ _ _ Hm)
      as (vm & vc & aux & pd & sv & ph & an & H1 & H2 & H3 & H4 & H5 & H6 & H7 & _).
    unfold succeeds. rewrite H1, H2, H3, H4, H5, H6, H7. repeat split; eauto.
  - intros ([vm H1] & [vc H2] & [aux H3] & [pd H4] & [sv H5] & [ph H6] & [an H7]).
    unfold succeeds, Validation.load_manifest.
    rewrite H1, H2, H3, H4, H5, H6, H7. cbn [bind].
    destruct (first_per_key_total vm) as [vs ->];
      [eapply load_required_singletons, H1|].
    destruct (first_per_key_total pd) as [ps ->];
      [eapply load_first_found_singletons, H4|].
    destruct (first_per_key_total sv) as [ss ->];
      [eapply load_optional_singletons, H5|].
    destruct (first_per_key_total ph) as [phs ->];
      [eapply load_optional_singletons, H6|].
    cbn [bind]. eauto.
Qed.

(** X15. [load_manifest] raises the missing-file error only for a required
    file that is absent, and names that file and the directory:
    [video_metadata.csv], or [video_component_file.csv] once
    [video_metadata.csv] has loaded.  An absent optional file never raises
    it. *)
Theorem load_manifest_missing_file (manifest_dir : string) (available_files : directory)
    (f d : string) :
  load_manifest manifest_dir available_files = inl (RequiredFileNotFound f d) <->
  d = manifest_dir /\
  ((f = "video_metadata.csv"%string /\
    available_files !! "video_metadata.csv"%string = None) \/
   (f = "video_component_file.csv"%string /\
    available_files !! "video_component_file.csv"%string = None /\
    succeeds (load_required manifest_dir available_files "video_metadata.csv"
                VideoMetadata "university_video_id" true))).
Proof.
  unfold Validation.load_manifest.
  destruct (load_required _ _ "video_metadata.csv" _ _ _) as [e1|vm] eqn:E1; cbn [bind].
  - split.
    + intros [= ->]. apply load_required_missing in E1. destruct E1 as (-> & -> & Hn).
      auto.
    + intros [-> [[-> Hn]|(_ & _ & [? [=]])]].
      assert (load_required manifest_dir available_files "video_metadata.csv"
                VideoMetadata "university_video_id" true
              = inl (RequiredFileNotFound "video_metadata.csv" manifest_dir)) as Hr
        by now apply load_required_missing.
      congruence.
  - assert (available_files !! "video_metadata.csv"%string <> None) as Hvm.
    { intros Hn. unfold Validation.load_required in E1. rewrite Hn in E1. discriminate. }
    destruct (load_required _ _ "video_component_file.csv" _ _ _) as [e2|vc] eqn:E2;
      cbn [bind].
    + split.
      * intros [= ->]. apply load_required_missing in E2. destruct E2 as (-> & -> & Hn).
        split; [reflexivity|]. right. unfold succeeds. eauto.
      * intros [-> [[_ Hn]|(-> & Hn & _)]]; [contradiction|].
        assert (load_required manifest_dir available_files "video_component_file.csv"
                  VideoComponentFile "university_video_id" false
                = inl (RequiredFileNotFound "video_component_file.csv" manifest_dir)) as Hr
          by now apply load_required_missing.
        congruence.
    + assert (available_files !! "video_component_file.csv"%string <> None) as Hvc.
      { intros Hn. unfold Validation.load_required in E2. rewrite Hn in E2. discriminate. }
      split; [|intros [_ [[_ Hn]|(_ & Hn & _)]]; contradiction].
      destruct (load_optional _ "auxiliary_video_component_data_file.csv" _ _ _ _ _)
        as [e|aux] eqn:E3; cbn [bind];
        [intros [= ->]; now apply load_optional_not_required in E3|].
      destruct (load_first_found _ _ _ _ _) as [e|pd] eqn:E4; cbn [bind];
        [intros [= ->]; now apply load_first_found_not_required in E4|].
      destruct (load_optional _ "synchronized_videos.csv" _ _ _ _ _) as [e|sv] eqn:E5;
        cbn [bind]; [intros [= ->]; now apply load_optional_not_required in E5|].
      destruct (load_optional _ "physical_setting.csv" _ _ _ _ _) as [e|ph] eqn:E6;
        cbn [bind]; [intros [= ->]; now apply load_optional_not_required in E6|].
      destruct (load_optional _ "annotations.csv" _ _ _ _ _) as [e|an] eqn:E7;
        cbn [bind]; [intros [= ->]; now apply load_optional_not_required in E7|].
      destruct (first_per_key vm) as [e|vs] eqn:F1; cbn [bind];
        [intros [= ->]; now apply first_per_key_error in F1|].
      destruct (first_per_key pd) as [e|ps] eqn:F2; cbn [bind];
        [intros [= ->]; now apply first_per_key_error in F2|].
      destruct (first_per_key sv) as [e|ss] eqn:F3; cbn [bind];
        [intros [= ->]; now apply first_per_key_error in F3|].
      destruct (first_per_key ph) as [e|phs] eqn:F4; cbn [bind];
        [intros [= ->]; now apply first_per_key_error in F4|].
      discriminate.
Qed.

(** X16. The participants table comes from the first of
    [participant_data.csv], [participant.csv], [participant_metadata.csv]
    that is present; the files after it are not read.  Two directories that
    both hold [participant_data.csv] and differ only in the two other files
    load alike, and so do two that differ only in
    [participant_metadata.csv] and both hold [participant.csv]. *)
Theorem participants_first_found_wins (manifest_dir : string)
    (files files' : directory) :
  ((forall f : string,
       f <> "participant.csv"%string -> f <> "participant_metadata.csv"%string ->
       files !! f = files' !! f) ->
   is_Some (files !! "participant_data.csv"%string) ->
   load_manifest manifest_dir files = load_manifest manifest_dir files') /\
  ((forall f : string,
       f <> "participant_metadata.csv"%string -> files !! f = files' !! f) ->
   is_Some (files !! "participant.csv"%string) ->
   load_manifest manifest_dir files = load_manifest manifest_dir files').
Proof.
  split.
  - intros Hagree [c Hc].
    assert (files' !! "participant_data.csv"%string = Some c) as Hc'
      by (rewrite <- Hagree; [exact Hc|discriminate|discriminate]).
    unfold Validation.load_manifest, Validation.load_required, Validation.load_optional.
    cbn [Validation.load_first_found]. rewrite Hc, Hc'.
    rewrite <- !Hagree by discriminate. reflexivity.
  - intros Hagree [c Hc].
    assert (files' !! "participant.csv"%string = Some c) as Hc'
      by (rewrite <- Hagree; [exact Hc|discriminate]).
    unfold Validation.load_manifest, Validation.load_required, Validation.load_optional.
    cbn [Validation.load_first_found]. rewrite Hc, Hc'.
    rewrite <- !Hagree by discriminate. reflexivity.
Qed.

(** X17. Only the nine file names of an assembler matter: two directories
    that agree on the files [load_manifest] looks for load to the same
    result whatever else they hold, and likewise for
    [load_egoexo_manifest]. *)
Theorem other_files_ignored (manifest_dir : string) (files files' : directory) :
  ((forall f : string, f ∈ core_file_names -> files !! f = files' !! f) ->
   load_manifest manifest_dir files = load_manifest manifest_dir files') /\
  ((forall f : string, f ∈ egoexo_file_names -> files !! f = files' !! f) ->
   load_egoexo_manifest manifest_dir files = load_egoexo_manifest manifest_dir files').
Proof.
  split; intros Hagree.
  - unfold Validation.load_manifest, Validation.load_required, Validation.load_optional.
    cbn [Validation.load_first_found].
    rewrite <- !Hagree by (apply list_elem_of_In; simpl; tauto). reflexivity.
  - unfold Validation.load_egoexo_manifest, Validation.load_required,
      Validation.load_optional.
    rewrite <- !Hagree by (apply list_elem_of_In; simpl; tauto). reflexivity.
Qed.

(** X18. In a manifest [load_egoexo_manifest] returns, an optional
    attribute is [None] exactly when its file is absent; a file that is
    present, even without rows, gives the loader's table. *)
Theorem egoexo_none_iff_absent (manifest_dir : string) (files : directory)
    (m : ManifestEgoExo) :
  load_egoexo_manifest manifest_dir files = inr m ->
  (ee_colmap m = IsNone <-> files !! "colmap_metadata.csv"%string = None) /\
  (ee_objects m = IsNone <-> files !! "object_metadata.csv"%string = None) /\
  (ee_physical_setting m = IsNone <-> files !! "physical_setting.csv"%string = None) /\
  (ee_participants m = IsNone <-> files !! "participant_metadata.csv"%string = None) /\
  (ee_extra_data m = IsNone <-> files !! "extra_data.csv"%string = None) /\
  (forall csvfile : list (list string),
      files !! "colmap_metadata.csv"%string = Some csvfile ->
      exists t : grouped,
        load csvfile ColmapMetadataEgoExo "university_capture_id" false = inr t /\
        ee_colmap m = ByKeyList t).
Proof.
  unfold Validation.load_egoexo_manifest.
  destruct (load_required _ _ "capture_metadata.csv" _ _ _) as [e|cap]; [discriminate|].
  destruct (load_required _ _ "take_metadata.csv" _ _ _) as [e|tk]; [discriminate|].
  destruct (load_required _ _ "video_metadata.csv" _ _ _) as [e|vm]; [discriminate|].
  destruct (load_required _ _ "video_component_file.csv" _ _ _) as [e|vc]; [discriminate|].
  cbn [bind]. unfold Validation.load_optional.
  destruct (files !! "colmap_metadata.csv"%string) as [c1|] eqn:F1;
    [destruct (load c1 _ _ _) as [e|t1] eqn:L1; [discriminate|]|]; cbn [bind];
    (destruct (files !! "object_metadata.csv"%string) as [c2|] eqn:F2;
      [destruct (load c2 _ _ _) as [e|t2] eqn:L2; [discriminate|]|]); cbn [bind];
    (destruct (files !! "physical_setting.csv"%string) as [c3|] eqn:F3;
      [destruct (load c3 _ _ _) as [e|t3] eqn:L3; [discriminate|]|]); cbn [bind];
    (destruct (files !! "participant_metadata.csv"%string) as [c4|] eqn:F4;
      [destruct (load c4 _ _ _) as [e|t4] eqn:L4; [discriminate|]|]); cbn [bind];
    (destruct (files !! "extra_data.csv"%string) as [c5|] eqn:F5;
      [destruct (load c5 _ _ _) as [e|t5] eqn:L5; [discriminate|]|]); cbn [bind];
    intros [= <-]; simpl;
    repeat split; try discriminate; try congruence;
    try (intros c [= <-]; eauto).
Qed.

Lemma load_succeeds_header (csvfile : list (list string)) (dataclass_class : list field)
    (dict_key_field : string) (unique_per_key : bool) :
  succeeds (load csvfile dataclass_class dict_key_field unique_per_key) ->
  exists (header : list string) (lines : list (list string)),
    csvfile = header :: lines /\
    (list_to_set header : gset string) = list_to_set (map f_name dataclass_class).
Proof.
  intros [t Ht]. unfold Validation.load, load_dataclass_dict_from_csv in Ht.
  destruct csvfile as [|header lines]; [discriminate|].
  destruct (decide _) as [Hok|]; [|discriminate].
  rewrite fst_field_name_to_metadata, dom_column_index_of in Hok. eauto.
Qed.

Lemma load_required_header (manifest_dir : string) (available_files : directory)
    (file_name : string) (dataclass_class : list field) (dict_key_field : string)
    (unique_per_key : bool) :
  succeeds (load_required manifest_dir available_files file_name dataclass_class
              dict_key_field unique_per_key) ->
  exists (header : list string) (lines : list (list string)),
    available_files !! file_name = Some (header :: lines) /\
    (list_to_set header : gset string) = list_to_set (map f_name dataclass_class).
Proof.
  unfold Validation.load_required.
  destruct (available_files !! file_name) as [csvfile|]; [|intros [? [=]]].
  intros Hs. destruct (load_succeeds_header _ _ _ _ Hs) as (header & lines & -> & Hset).
  eauto.
Qed.

Lemma bind_md_inr {A B} (m : @metadata_exn pyfloat + A)
    (k : A -> @metadata_exn pyfloat + B) (b : B) :
  bind_md m k = inr b -> exists a : A, m = inr a /\ k a = inr b.
Proof. destruct m as [e|a]; simpl; [discriminate|eauto]. Qed.

Lemma loading_inr {A} (m : @result pyfloat A) (a : A) :
  loading m = inr a -> m = inr a.
Proof. destruct m; simpl; [discriminate|congruence]. Qed.

Lemma assert_nonempty_inr (name : string) (t : grouped) (u : unit) :
  assert_nonempty name t = inr u -> t <> [].
Proof. unfold assert_nonempty. destruct t; simpl; [discriminate|discriminate]. Qed.

Local Abbreviation load_standard_metadata_files :=
  (Validation.load_standard_metadata_files json_loads strptime py_int py_float).
Local Abbreviation load_standard_metadata_files_egoexo :=
  (Validation.load_standard_metadata_files_egoexo json_loads strptime py_int py_float).

(** X19. No directory is both a core and an ego-exo manifest, and no
    folder is both a core and an ego-exo standard metadata folder: the two
    assemblers read [video_metadata.csv], and the two metadata loaders
    [scenario.csv], against dataclasses with different fields, and a header
    cannot equal both field sets. *)
Theorem core_and_egoexo_exclusive (manifest_dir manifest_dir' : string)
    (files : directory) (folder : option directory) :
  ~ (succeeds (load_manifest manifest_dir files) /\
     succeeds (load_egoexo_manifest manifest_dir' files)) /\
  ~ ((exists sm, load_standard_metadata_files manifest_dir folder = inr sm) /\
     (exists sm, load_standard_metadata_files_egoexo manifest_dir' folder = inr sm)).
Proof.
  split.
  - intros [[m Hm] [m' Hm']].
    destruct (load_manifest_exposes _ _ _ _ _ _ _ Hm) as (vm & _ & _ & _ & _ & _ & _ & H1 & _).
    unfold Validation.load_egoexo_manifest in Hm'.
    destruct (load_required _ _ "capture_metadata.csv" _ _ _) as [e|cap]; [discriminate|].
    destruct (load_required _ _ "take_metadata.csv" _ _ _) as [e|tk]; [discriminate|].
    destruct (load_required _ _ "video_metadata.csv" VideoMetadataEgoExo _ _)
      as [e|vm'] eqn:H2; [discriminate|].
    destruct (load_required_header _ _ _ _ _ _ (ex_intro _ vm H1))
      as (header & lines & Hf & Hset).
    destruct (load_required_header _ _ _ _ _ _ (ex_intro _ vm' H2))
      as (header' & lines' & Hf' & Hset').
    rewrite Hf in Hf'. injection Hf' as <- _.
    assert ("university_capture_id"%string ∈ (list_to_set header : gset string)) as Hin
      by (rewrite Hset', elem_of_list_to_set; apply list_elem_of_In; simpl; tauto).
    rewrite Hset, elem_of_list_to_set in Hin. apply list_elem_of_In in Hin.
    simpl in Hin. intuition discriminate.
  - intros [[sm Hs] [sm' Hs']].
    unfold Validation.load_standard_metadata_files in Hs.
    unfold Validation.load_standard_metadata_files_egoexo in Hs'.
    destruct folder as [available_files|]; [|discriminate].
    apply bind_md_inr in Hs. destruct Hs as (dev & _ & Hs).
    apply bind_md_inr in Hs. destruct Hs as (ct & _ & Hs).
    apply bind_md_inr in Hs. destruct Hs as (sc & H1 & _).
    apply bind_md_inr in Hs'. destruct Hs' as (dev' & _ & Hs').
    apply bind_md_inr in Hs'. destruct Hs' as (sc' & H2 & _).
    apply loading_inr in H1, H2.
    destruct (load_required_header _ _ _ _ _ _ (ex_intro _ sc H1))
      as (header & lines & Hf & Hset).
    destruct (load_required_header _ _ _ _ _ _ (ex_intro _ sc' H2))
      as (header' & lines' & Hf' & Hset').
    rewrite Hf in Hf'. injection Hf' as <- _.
    assert ("is_ad_hoc"%string ∈ (list_to_set header : gset string)) as Hin
      by (rewrite Hset, elem_of_list_to_set; apply list_elem_of_In; simpl; tauto).
    rewrite Hset', elem_of_list_to_set in Hin. apply list_elem_of_In in Hin.
    simpl in Hin. intuition discriminate.
Qed.

(** X20. [load_standard_metadata_files] returns exactly when the folder
    exists and [device.csv], [component_type.csv] and [scenario.csv] load
    with unique keys to tables that are not empty; what it returns are
    those tables with each one-instance list unwrapped.  When the three
    load and one is empty, the assertion that fails is the first of
    scenarios, devices, component types. *)
Theorem standard_metadata_outcome (standard_metadata_folder : string)
    (folder : option directory) :
  (forall sm : StandardMetadata,
      load_standard_metadata_files standard_metadata_folder folder = inr sm ->
      exists (files : directory) (dev ct sc : grouped),
        folder = Some files /\
        load_required standard_metadata_folder files "device.csv" Device "device_id" true
          = inr dev /\
        load_required standard_metadata_folder files "component_type.csv" ComponentType
          "component_type_id" true = inr ct /\
        load_required standard_metadata_folder files "scenario.csv" Scenario
          "scenario_id" true = inr sc /\
        dev <> [] /\ ct <> [] /\ sc <> [] /\
        unwrapped dev (sm_devices sm) /\ unwrapped ct (sm_component_types sm) /\
        unwrapped sc (sm_scenarios sm)) /\
  (forall (files : directory) (dev ct sc : grouped),
      folder = Some files ->
      load_required standard_metadata_folder files "device.csv" Device "device_id" true
        = inr dev ->
      load_required standard_metadata_folder files "component_type.csv" ComponentType
        "component_type_id" true = inr ct ->
      load_required standard_metadata_folder files "scenario.csv" Scenario
        "scenario_id" true = inr sc ->
      (dev <> [] -> ct <> [] -> sc <> [] ->
       exists sm, load_standard_metadata_files standard_metadata_folder folder = inr sm) /\
      (sc = [] ->
       load_standard_metadata_files standard_metadata_folder folder
       = inl (EmptyVocabulary "scenarios")) /\
      (sc <> [] -> dev = [] ->
       load_standard_metadata_files standard_metadata_folder folder
       = inl (EmptyVocabulary "devices")) /\
      (sc <> [] -> dev <> [] -> ct = [] ->
       load_standard_metadata_files standard_metadata_folder folder
       = inl (EmptyVocabulary "component_types"))) /\
  (folder = None ->
   load_standard_metadata_files standard_metadata_folder folder
   = inl (DoesNotExist standard_metadata_folder)).
Proof.
  split; [|split].
  - intros sm Hs. unfold Validation.load_standard_metadata_files in Hs.
    destruct folder as [files|]; [|discriminate].
    apply bind_md_inr in Hs. destruct Hs as (dev & H1 & Hs).
    apply bind_md_inr in Hs. destruct Hs as (ct & H2 & Hs).
    apply bind_md_inr in Hs. destruct Hs as (sc & H3 & Hs).
    apply bind_md_inr in Hs. destruct Hs as (? & Hsc & Hs).
    apply bind_md_inr in Hs. destruct Hs as (? & Hdev & Hs).
    apply bind_md_inr in Hs. destruct Hs as (? & Hct & Hs).
    apply bind_md_inr in Hs. destruct Hs as (ds & F1 & Hs).
    apply bind_md_inr in Hs. destruct Hs as (cs & F2 & Hs).
    apply bind_md_inr in Hs. destruct Hs as (ss & F3 & Hs).
    injection Hs as <-. apply loading_inr in H1, H2, H3, F1, F2, F3.
    exists files, dev, ct, sc. split; [reflexivity|].
    split; [exact H1|]. split; [exact H2|]. split; [exact H3|].
    split; [eapply assert_nonempty_inr, Hdev|].
    split; [eapply assert_nonempty_inr, Hct|].
    split; [eapply assert_nonempty_inr, Hsc|]. simpl.
    split; [eapply first_per_key_unwraps, F1; eapply load_required_singletons, H1|].
    split; [eapply first_per_key_unwraps, F2; eapply load_required_singletons, H2|].
    eapply first_per_key_unwraps, F3; eapply load_required_singletons, H3.
  - intros files dev ct sc -> H1 H2 H3.
    unfold Validation.load_standard_metadata_files. rewrite H1, H2, H3. simpl.
    unfold assert_nonempty. split; [|split; [|split]].
    + intros Hd Hc Hs. destruct sc; [contradiction|]. destruct dev; [contradiction|].
      destruct ct; [contradiction|]. cbn [length Nat.ltb Nat.leb bind_md].
      edestruct first_per_key_total as [ds ->];
        [eapply load_required_singletons, H1|].
      edestruct first_per_key_total as [cs ->];
        [eapply load_required_singletons, H2|].
      edestruct first_per_key_total as [ss ->];
        [eapply load_required_singletons, H3|].
      simpl. eauto.
    + intros ->. reflexivity.
    + intros Hs ->. destruct sc; [contradiction|]. reflexivity.
    + intros Hs Hd ->. destruct sc; [contradiction|]. destruct dev; [contradiction|].
      reflexivity.
  - intros ->. reflexivity.
Qed.

End Assembling.

(** ** The released videos *)

Lemma uids_for_cons (key : string) (line : list string) (lines : list (list string)) :
  uids_for key (line :: lines) =
  if decide (line !! 2%nat = Some key)
  then match line !! 0%nat with
       | Some uid => uid :: uids_for key lines
       | None => uids_for key lines
       end
  else uids_for key lines.
Proof.
  unfold uids_for. rewrite filter_cons.
  destruct (decide (line !! 2%nat = Some key)); [|reflexivity].
  simpl. now destruct (line !! 0%nat).
Qed.

Section Released.
Context {pyfloat : Type}.

Lemma released_rows_ok (lines : list (list string)) :
  forall acc : gmap string (list string),
    Forall (fun l => (3 <= length l)%nat) lines ->
    exists m : gmap string (list string),
      @released_rows pyfloat lines acc = inr m /\
      forall key : string,
        m !! key = match acc !! key, uids_for key lines with
                   | Some old, us => Some (old ++ us)
                   | None, [] => None
                   | None, us => Some us
                   end.
Proof.
  induction lines as [|line lines IH]; intros acc Hall.
  - exists acc. split; [reflexivity|]. intros key. unfold uids_for. simpl.
    destruct (acc !! key); [now rewrite app_nil_r|reflexivity].
  - inversion Hall as [|? ? Hlen Hrest]; subst. simpl.
    change 2 with (Z.of_nat 2). change 0 with (Z.of_nat 0).
    rewrite !DatasetProps.py_list_get_nat.
    destruct (lookup_lt_is_Some_2 line 2 ltac:(lia)) as [k2 Hk2].
    destruct (lookup_lt_is_Some_2 line 0 ltac:(lia)) as [uid Huid].
    rewrite Hk2, Huid.
    destruct (IH (<[k2 := default [] (acc !! k2) ++ [uid]]> acc) Hrest) as (m & Hm & Hlook).
    exists m. split; [exact Hm|]. intros key. rewrite Hlook, uids_for_cons, Hk2, Huid.
    destruct (decide (Some k2 = Some key)) as [[= ->]|Hne].
    + rewrite lookup_insert_eq. destruct (acc !! key); simpl.
      * now rewrite <- (assoc_L (++)).
      * reflexivity.
    + rewrite lookup_insert_ne by congruence. reflexivity.
Qed.

Lemma released_rows_short (lines : list (list string)) :
  forall acc : gmap string (list string),
    Exists (fun l => (length l < 3)%nat) lines ->
    @released_rows pyfloat lines acc = inl IndexError.
Proof.
  induction lines as [|line lines IH]; intros acc Hex; [inversion Hex|].
  simpl. change 2 with (Z.of_nat 2). change 0 with (Z.of_nat 0).
  rewrite !DatasetProps.py_list_get_nat.
  destruct (line !! 2%nat) as [k2|] eqn:Hk2; [|reflexivity].
  pose proof (lookup_lt_Some _ _ _ Hk2) as Hlen.
  destruct (lookup_lt_is_Some_2 line 0 ltac:(lia)) as [uid ->].
  apply IH. inversion Hex as [? ? Hshort|]; subst; [lia|assumption].
Qed.

(** X21. [load_released_video_files] returns [None] for no path.  For a
    file, it skips the header and returns a mapping exactly when every
    other line has at least three cells, raising [IndexError] otherwise;
    the mapping sends each third-cell value to the first cells of the lines
    that have it, in file order, and holds nothing else. *)
Theorem released_videos_grouped :
  @load_released_video_files pyfloat None = inr None /\
  @load_released_video_files pyfloat (Some []) = inl StopIteration /\
  forall (header : list string) (lines : list (list string)),
    (Forall (fun l => (3 <= length l)%nat) lines ->
     exists m : gmap string (list string),
       @load_released_video_files pyfloat (Some (header :: lines)) = inr (Some m) /\
       forall key : string,
         m !! key = match uids_for key lines with
                    | [] => None
                    | us => Some us
                    end) /\
    (~ Forall (fun l => (3 <= length l)%nat) lines ->
     @load_released_video_files pyfloat (Some (header :: lines)) = inl IndexError).
Proof.
  split; [reflexivity|]. split; [reflexivity|]. intros header lines. split.
  - intros Hall. destruct (released_rows_ok lines ∅ Hall) as (m & Hm & Hlook).
    exists m. unfold load_released_video_files. rewrite Hm. split; [reflexivity|].
    intros key. rewrite Hlook, lookup_empty. reflexivity.
  - intros Hnot. unfold load_released_video_files.
    rewrite released_rows_short; [reflexivity|].
    apply not_Forall_Exists in Hnot; [|intros l; apply _].
    eapply Exists_impl; [exact Hnot|]. simpl. intros l Hl. lia.
Qed.

End Released.

(** ** The decoder's failures *)

Section DecoderFailures.
Context {pyfloat : Type}.
Variable json_loads : string -> option (@pyval pyfloat).
Variable strptime : string -> string -> option datetime.
Variable py_int : string -> option Z.
Variable py_float : string -> option pyfloat.

Local Abbreviation default_decode :=
  (Validation.default_decode json_loads strptime py_int py_float).

(** X22. [default_decode] fails only on a non-empty string that the
    parser for the declared type refuses, with that parser's error: the
    JSON parser for [dict], [defaultdict] and [list], [int] and [float] for
    those types, and [strptime] on the text before the first ['.'] for
    [datetime].  It never fails for [str], [bool] or a type it has no
    branch for. *)
Theorem default_decode_failures (value : string) (datatype : pytype) (e : decode_error) :
  default_decode value datatype = inl e ->
  value <> EmptyString /\
  ((datatype = T_dict \/ datatype = T_defaultdict \/ datatype = T_list) /\
   json_loads value = None /\ e = JSONDecodeError value
   \/ datatype = T_int /\ py_int value = None /\ e = ValueError value
   \/ datatype = T_float /\ py_float value = None /\ e = ValueError value
   \/ datatype = T_datetime /\
      exists first : string,
        contains dot first = false /\
        (value = first \/ exists tail : string, value = (first ++ String dot tail)%string) /\
        strptime first DEFAULT_DATE_FORMAT_STR = None /\ e = ValueError first).
Proof.
  unfold Validation.default_decode, or_raise.
  destruct value as [|c value]; [destruct datatype; discriminate|].
  intros Hfail. split; [discriminate|].
  destruct datatype; simpl in Hfail; try discriminate.
  - left. destruct (json_loads _); [discriminate|]. injection Hfail as <-. auto.
  - left. destruct (json_loads _); [discriminate|]. injection Hfail as <-. auto.
  - left. destruct (json_loads _); [discriminate|]. injection Hfail as <-. auto.
  - right. right. right. split; [reflexivity|].
    destruct (py_split_first dot (String c value))
      as (first & others & Hsplit & Hclean & Hshape).
    simpl in Hsplit. rewrite Hsplit in Hfail.
    destruct (strptime first DEFAULT_DATE_FORMAT_STR) eqn:Ep; [discriminate|].
    injection Hfail as <-. exists first. split; [exact Hclean|]. split; [|auto].
    destruct Hshape as [[_ ->]|Htail]; auto.
  - right. left. destruct (py_int _); [discriminate|]. injection Hfail as <-. auto.
  - right. right. left. destruct (py_float _); [discriminate|]. injection Hfail as <-. auto.
Qed.

End DecoderFailures.

(** ** The theorems at the examples *)

Section AtExamples.
Import Examples.

Local Abbreviation load_manifest :=
  (Validation.load_manifest ex_json_loads ex_strptime ex_int ex_float).
Local Abbreviation load_egoexo_manifest :=
  (Validation.load_egoexo_manifest ex_json_loads ex_strptime ex_int ex_float).
Local Abbreviation load_required :=
  (Validation.load_required ex_json_loads ex_strptime ex_int ex_float).
Local Abbreviation load_standard_metadata_files :=
  (Validation.load_standard_metadata_files ex_json_loads ex_strptime ex_int ex_float).

Lemma load_groups_rows_witness :
  load_dataclass_dict_from_csv ex_settings_csv PhysicalSettingEgoExo "setting_id" false
    ex_decode = inr ex_settings_table /\
  exists rows : list (record * pyval * pykey),
    (forall k : pykey,
        tbl_lookup ex_settings_table k = match instances_of k rows with
                                         | [] => None
                                         | objs => Some objs
                                         end) /\
    concat (map snd ex_settings_table) ≡ₚ map (fun r => r.1.1) rows.
Proof.
  assert (load_dataclass_dict_from_csv (["setting_id"; "name"] :: tl ex_settings_csv)
            PhysicalSettingEgoExo "setting_id" false ex_decode = inr ex_settings_table)
    as Hload by (vm_compute; reflexivity).
  split; [exact Hload|].
  destruct (load_groups_rows _ _ _ _ _ _ _ Hload) as (rows & _ & Hlook & Hcat).
  exists rows. split; [exact Hlook|exact Hcat].
Defined.

Lemma unique_flag_only_validates_witness :
  load_dataclass_dict_from_csv ex_settings_ok_csv PhysicalSettingEgoExo "setting_id" true
    ex_decode = inr ex_settings_ok_table /\
  load_dataclass_dict_from_csv ex_settings_ok_csv PhysicalSettingEgoExo "setting_id" false
    ex_decode = inr ex_settings_ok_table /\
  singletons ex_settings_ok_table.
Proof.
  assert (load_dataclass_dict_from_csv ex_settings_ok_csv PhysicalSettingEgoExo
            "setting_id" true ex_decode = inr ex_settings_ok_table) as Hload
    by (vm_compute; reflexivity).
  split; [exact Hload|].
  exact (proj1 (unique_flag_only_validates ex_settings_ok_csv PhysicalSettingEgoExo
                  "setting_id" ex_decode ex_settings_ok_table) Hload).
Defined.

Lemma last_column_wins_witness :
  ["a"; "b"; "a"] !! 2%nat = Some "a"%string /\
  column_index_of ["a"; "b"; "a"] !! "a"%string = Some 2 /\
  cell ["a"; "b"; "a"] ["x"; "y"; "z"] "a" = Some "z"%string.
Proof.
  assert (["a"; "b"; "a"] !! 2%nat = Some "a"%string) as Hn by reflexivity.
  assert (forall m : nat, (2 < m)%nat -> ["a"; "b"; "a"] !! m <> Some "a"%string) as Hlast.
  { intros [|[|[|m]]] Hm; try lia. discriminate. }
  split; [exact Hn|]. split.
  - apply (proj1 (proj2 (last_column_wins ["a"; "b"; "a"] "a"))).
    exists 2%nat. auto.
  - exact (proj2 (proj2 (last_column_wins ["a"; "b"; "a"] "a"))
             ["x"; "y"; "z"] 2%nat Hn Hlast).
Defined.

Lemma columns_matched_by_name_witness :
  (list_to_set ["setting_id"; "name"] : gset string) = list_to_set ["name"; "setting_id"] /\
  load_dataclass_dict_from_csv ex_settings_ok_csv PhysicalSettingEgoExo "setting_id" true
    ex_decode
  = load_dataclass_dict_from_csv ex_settings_swapped_csv PhysicalSettingEgoExo "setting_id"
      true ex_decode.
Proof.
  assert ((list_to_set ["setting_id"; "name"] : gset string)
          = list_to_set ["name"; "setting_id"]) as Hset by (vm_compute; reflexivity).
  split; [exact Hset|].
  apply (columns_matched_by_name ["setting_id"; "name"] ["name"; "setting_id"]
           (tl ex_settings_ok_csv) (tl ex_settings_swapped_csv)
           PhysicalSettingEgoExo "setting_id" true ex_decode Hset).
  repeat constructor; intros f Hf; apply list_elem_of_In in Hf; simpl in Hf;
    destruct Hf as [<-|[<-|[]]]; vm_compute; reflexivity.
Defined.

Lemma trailing_cells_ignored_witness :
  Forall2 (fun l l' => (length ["setting_id"; "name"] <= length l)%nat /\
                       exists extra, l' = l ++ extra)
          (tl ex_settings_ok_csv) (tl ex_settings_long_csv) /\
  load_dataclass_dict_from_csv ex_settings_long_csv PhysicalSettingEgoExo "setting_id" true
    ex_decode
  = load_dataclass_dict_from_csv ex_settings_ok_csv PhysicalSettingEgoExo "setting_id" true
      ex_decode.
Proof.
  assert (Forall2 (fun l l' => (length ["setting_id"; "name"] <= length l)%nat /\
                               exists extra, l' = l ++ extra)
                  (tl ex_settings_ok_csv) (tl ex_settings_long_csv)) as Hlines.
  { repeat constructor; simpl; try lia; [exists ["x"]|exists ["y"]]; reflexivity. }
  split; [exact Hlines|].
  exact (trailing_cells_ignored ["setting_id"; "name"] _ _ PhysicalSettingEgoExo
           "setting_id" true ex_decode Hlines).
Defined.

Lemma load_manifest_all_or_nothing_witness :
  succeeds (load_manifest "manifest" ex_core_dir) /\
  succeeds (load_required "manifest" ex_core_dir "video_metadata.csv"
              VideoMetadata "university_video_id" true).
Proof.
  assert (succeeds (load_manifest "manifest" ex_core_dir)) as Hs
    by (eexists; vm_compute; reflexivity).
  split; [exact Hs|].
  exact (proj1 (proj1 (load_manifest_all_or_nothing ex_json_loads ex_strptime ex_int
                         ex_float "manifest" ex_core_dir) Hs)).
Defined.

Lemma load_manifest_missing_file_witness :
  (∅ : directory) !! "video_metadata.csv"%string = None /\
  load_manifest "manifest" ∅
  = inl (RequiredFileNotFound "video_metadata.csv" "manifest").
Proof.
  assert ((∅ : directory) !! "video_metadata.csv"%string = None) as Hn by reflexivity.
  split; [exact Hn|].
  apply (proj2 (load_manifest_missing_file ex_json_loads ex_strptime ex_int ex_float
                  "manifest" ∅ "video_metadata.csv" "manifest")).
  split; [reflexivity|]. left. split; [reflexivity|exact Hn].
Defined.

Lemma participants_first_found_wins_witness :
  is_Some (ex_core_dir_more !! "participant_data.csv"%string) /\
  load_manifest "manifest" ex_core_dir_more
  = load_manifest "manifest"
      (<["participant.csv" := [ ["not"; "a"; "participant"; "file"] ]]> ex_core_dir_more).
Proof.
  assert (is_Some (ex_core_dir_more !! "participant_data.csv"%string)) as Hs
    by (eexists; vm_compute; reflexivity).
  split; [exact Hs|].
  assert (forall f : string,
             f <> "participant.csv"%string -> f <> "participant_metadata.csv"%string ->
             ex_core_dir_more !! f
             = (<["participant.csv" := [ ["not"; "a"; "participant"; "file"] ]]>
                  ex_core_dir_more) !! f) as Hagree.
  { intros f Hf _. symmetry. apply lookup_insert_ne. congruence. }
  exact (proj1 (participants_first_found_wins ex_json_loads ex_strptime ex_int ex_float
                  "manifest" ex_core_dir_more _) Hagree Hs).
Defined.

Lemma other_files_ignored_witness :
  (forall f : string,
      f ∈ core_file_names ->
      ex_core_dir_more !! f = (<["notes.txt" := [ ["hello"] ]]> ex_core_dir_more) !! f) /\
  load_manifest "manifest" ex_core_dir_more
  = load_manifest "manifest" (<["notes.txt" := [ ["hello"] ]]> ex_core_dir_more).
Proof.
  assert (forall f : string,
             f ∈ core_file_names ->
             ex_core_dir_more !! f
             = (<["notes.txt" := [ ["hello"] ]]> ex_core_dir_more) !! f) as Hagree.
  { intros f Hf. symmetry. apply lookup_insert_ne.
    intros <-. apply list_elem_of_In in Hf. simpl in Hf. intuition discriminate. }
  split; [exact Hagree|].
  exact (proj1 (other_files_ignored ex_json_loads ex_strptime ex_int ex_float
                  "manifest" ex_core_dir_more _) Hagree).
Defined.

Lemma egoexo_none_iff_absent_witness :
  exists m : ManifestEgoExo,
    load_egoexo_manifest "manifest" ex_egoexo_dir = inr m /\
    (ee_colmap m = IsNone <-> ex_egoexo_dir !! "colmap_metadata.csv"%string = None) /\
    (ee_physical_setting m = IsNone
     <-> ex_egoexo_dir !! "physical_setting.csv"%string = None).
Proof.
  destruct (load_egoexo_manifest "manifest" ex_egoexo_dir) as [e|m] eqn:Hm;
    [vm_compute in Hm; discriminate|].
  exists m. split; [reflexivity|].
  destruct (egoexo_none_iff_absent ex_json_loads ex_strptime ex_int ex_float
              "manifest" ex_egoexo_dir m Hm) as (H1 & _ & H3 & _).
  split; [exact H1|exact H3].
Defined.

Lemma standard_metadata_outcome_witness :
  exists sm : StandardMetadata,
    load_standard_metadata_files "standard" (Some ex_standard_folder) = inr sm /\
    exists dev : table (list record),
      load_required "standard" ex_standard_folder "device.csv" Device "device_id" true
        = inr dev /\
      dev <> [] /\ unwrapped dev (sm_devices sm).
Proof.
  destruct (load_standard_metadata_files "standard" (Some ex_standard_folder))
    as [e|sm] eqn:Hs; [vm_compute in Hs; discriminate|].
  exists sm. split; [reflexivity|].
  destruct (proj1 (standard_metadata_outcome ex_json_loads ex_strptime ex_int ex_float
                     "standard" (Some ex_standard_folder)) sm Hs)
    as (files & dev & ct & sc & [= <-] & H1 & _ & _ & Hd & _ & _ & Hu & _).
  exists dev. auto.
Defined.

Lemma released_videos_grouped_witness :
  Forall (fun l => (3 <= length l)%nat) (tl ex_released_csv) /\
  exists m : gmap string (list string),
    @load_released_video_files string (Some ex_released_csv) = inr (Some m) /\
    m !! "k1"%string = Some ["u1"; "u3"] /\ m !! "k3"%string = None.
Proof.
  assert (Forall (fun l => (3 <= length l)%nat) (tl ex_released_csv)) as Hall
    by (repeat constructor; simpl; lia).
  split; [exact Hall|].
  destruct (proj1 (proj2 (proj2 (@released_videos_grouped string))
                     ["video_uid"; "path"; "university"] (tl ex_released_csv)) Hall)
    as (m & Hm & Hlook).
  exists m. split; [exact Hm|]. split; [exact (Hlook "k1"%string)|exact (Hlook "k3"%string)].
Defined.

Lemma default_decode_failures_witness :
  ex_decode "abc" T_int = inl (ValueError "abc") /\
  "abc"%string <> EmptyString /\ ex_int "abc" = None.
Proof.
  assert (ex_decode "abc" T_int = inl (ValueError "abc")) as Hfail by reflexivity.
  split; [exact Hfail|].
  destruct (default_decode_failures ex_json_loads ex_strptime ex_int ex_float
              "abc" T_int (ValueError "abc") Hfail)
    as [Hne [(Ht & _)|[(_ & Hi & _)|[(Ht & _)|(Ht & _)]]]];
    try discriminate; [destruct Ht as [Ht|[Ht|Ht]]; discriminate|].
  split; [exact Hne|exact Hi].
Defined.

End AtExamples.

End ValidationMore.
